(** * PDF form filler and flattener: a shallow embedding

    This development embeds [simple_pdf_filler.py] (the field classifier, the
    value applier [fill_pdf_fields], the flattener [flatten_to_visible] and
    [fill_and_flatten]) and the field-loading and saving steps of
    [pdf_form_gui.py] ([PDFFormGUI._load_fields], [PDFFormGUI.save_pdf]) and
    proves properties of them.

    Modelling conventions.
    - PDF objects of the parsing library are the inductive [pdf_obj].  A
      dictionary is an association list in insertion order, because the code
      iterates over the keys of an appearance dictionary in order.  A real
      number is the double the library holds for it.
    - Indirect objects live in a store [gmap nat pdf_obj].  [x.get(k)] is
      the stored entry ([dict_get]) as it is: an entry that is a reference
      stays a reference ([PRef]), and only [get_object] and the subscript
      of a dictionary resolve one.  So the field of a widget is the widget
      itself or the entry stored under /Parent, and a /Parent given by
      reference is an object without [get].
    - An element of /Annots is a reference into the store or a direct
      object of the page.  The value applier mutates the dictionary it
      reached: an object of the store, or the element of the page's array.
      The pages of a document are distinct objects, none of them an
      annotation.
    - Python exceptions are explicit: [result] is a value or a raised
      exception; code that mutates state and may raise runs in the small
      state-and-exception monad [SE].
    - A page is its media box, its /Annots entry and the list of drawing
      operations it shows; the drawing canvas records the operations it is
      asked for, and [merge_page] appends the overlay's operations to the
      page's.  The catalog's /AcroForm entry is a component of the document
      of its own, and the trailer and catalog are taken as present.
    - Coordinates are doubles ([PrimFloat.float]) with the machine's
      arithmetic and comparisons.
    - Two ghost components record what the code computes but does not keep:
      the log of checkbox indices of the value applier, and the position
      (page, element of /Annots) each GUI widget was built for.
    - What [str()], [int()] and [float()] return on objects whose rendering
      depends on the host (object addresses, [repr] escapes, hash order of
      sets, number syntax), and which numbers the drawing library refuses
      to write, is a parameter, the class [PyHost]. *)

From Stdlib Require Import ZArith Floats.PrimFloat.
From Stdlib Require Floats.FloatOps Floats.SpecFloat.
From stdpp Require Import gmap strings pretty.

#[local] Set Warnings "-inexact-float".
Local Open Scope string_scope.

(** ** PDF objects *)

#[warnings="-register-all"]
Inductive pdf_obj : Type :=
| PNull
| PBool (b : bool)
| PInt (z : Z)
| PReal (f : float)
| PName (s : string)
| PText (s : string)
| PArr (items : list pdf_obj)
| PDict (entries : list (string * pdf_obj))
| PRef (n : nat).

Abbreviation dict := (list (string * pdf_obj)).
Abbreviation store := (gmap nat pdf_obj).

(** Choice options: (export, display) pairs. *)
Abbreviation options := (list (string * string)).

(** [d.get(k)] on the raw entries: the first entry with key [k]. *)
Fixpoint dict_get (k : string) (d : dict) : option pdf_obj :=
  match d with
  | [] => None
  | (k', v) :: d' => if String.eqb k' k then Some v else dict_get k d'
  end.

(** [d.update({k: v})]: an existing key keeps its position, a new key is
    appended. *)
Fixpoint dict_update (k : string) (v : pdf_obj) (d : dict) : dict :=
  match d with
  | [] => [(k, v)]
  | (k', v') :: d' =>
      if String.eqb k' k then (k, v) :: d' else (k', v') :: dict_update k v d'
  end.

(** [o.get_object()]: an indirect reference is resolved in the store (a
    dangling one gives the null object), a direct object is itself. *)
Definition get_object (st : store) (o : pdf_obj) : pdf_obj :=
  match o with
  | PRef n => default PNull (st !! n)
  | _ => o
  end.

(** ** Python exceptions *)

Inductive exn : Type :=
| AttributeError | TypeError | IndexError | KeyError | ValueError
| OverflowError.

Inductive result (A : Type) : Type :=
| Ok (a : A)
| Raise (e : exn).
Arguments Ok {A} a.
Arguments Raise {A} e.

Definition rbind {A B} (m : result A) (k : A → result B) : result B :=
  match m with
  | Ok a => k a
  | Raise e => Raise e
  end.

(** [try: m  except Exception: h] *)
Definition try_except {A} (m : result A) (h : result A) : result A :=
  match m with
  | Ok a => Ok a
  | Raise _ => h
  end.

(** State and exceptions: a raise keeps the mutations made before it. *)
Definition SE (S A : Type) : Type := S → S * result A.

Definition se_ret {S A} (a : A) : SE S A := λ s, (s, Ok a).

Definition se_bind {S A B} (m : SE S A) (k : A → SE S B) : SE S B :=
  λ s, match m s with
       | (s', Ok a) => k a s'
       | (s', Raise e) => (s', Raise e)
       end.

Definition se_lift {S A} (r : result A) : SE S A := λ s, (s, r).

Definition se_get {S} : SE S S := λ s, (s, Ok s).

Definition se_modify {S} (f : S → S) : SE S unit := λ s, (f s, Ok tt).

Definition se_try {S A} (m : SE S A) (h : SE S A) : SE S A :=
  λ s, match m s with
       | (s', Ok a) => (s', Ok a)
       | (s', Raise _) => h s'
       end.

Notation "'do!' x ← m 'in' k" := (se_bind m (λ x, k))
  (at level 10, x name, m at level 100, k at level 200, only parsing).
Notation "'run!' m 'in' k" := (se_bind m (λ _, k))
  (at level 10, m at level 100, k at level 200, only parsing).
Notation "'let!' x ← m 'in' k" := (rbind m (λ x, k))
  (at level 10, x name, m at level 100, k at level 200, only parsing).

(** [for x in l: body(x)] *)
Fixpoint for_each {S A} (body : A → SE S unit) (l : list A) : SE S unit :=
  match l with
  | [] => se_ret tt
  | x :: l' => run! body x in for_each body l'
  end.

(** [for i, x in enumerate(l, start): body(i, x)] *)
Fixpoint for_each_from {T A} (body : nat → A → SE T unit) (start : nat)
    (l : list A) : SE T unit :=
  match l with
  | [] => se_ret tt
  | x :: l' => run! body start x in for_each_from body (S start) l'
  end.

(** ** Host conversions *)

Class PyHost : Type := {
  (** [str(o)] of a library object that is not a string or an integer *)
  repr_obj : pdf_obj → string;
  (** [str(c)] of a submitted list, set or tuple of strings *)
  repr_coll : list string → string;
  (** [int(s)] of a string; [None] is ValueError *)
  int_of_text : string → option Z;
  (** [float(s)] of a string; [None] is ValueError *)
  float_of_text : string → option float;
  (** the exception the drawing library raises when it is asked to write
      the number, if it refuses it *)
  canvas_error : float → option exn
}.

(** Submitted values: [FieldValue = Union[str, bool, Iterable[str], Set[str]]];
    a collection is given in its iteration order. *)
Inductive field_value : Type :=
| VStr (s : string)
| VBool (b : bool)
| VColl (l : list string).

Inductive draw_op : Type :=
| SetFont (size : float)
| SetFillGray (g : float)
| SetLineWidth (w : float)
| SetStrokeGray (g : float)
| DrawString (x y : float) (text : string)
| Line (x1 y1 x2 y2 : float).

(** [float(z)] of an integer: the nearest double, ties to even; an
    infinity stands for a result out of range. *)
Definition float_of_Z (z : Z) : float :=
  FloatOps.SF2Prim
    (SpecFloat.binary_normalize FloatOps.prec FloatOps.emax z 0 false).

(** [int(f)] of a double: truncation towards zero; [None] for an infinity
    and for a NaN, on which [int] raises. *)
Definition Z_of_float (f : float) : option Z :=
  match FloatOps.Prim2SF f with
  | SpecFloat.S754_zero _ => Some 0%Z
  | SpecFloat.S754_finite s m e =>
      let a := match e with
               | Z0 => Z.pos m
               | Z.pos p => (Z.pos m * 2 ^ Z.pos p)%Z
               | Z.neg p => (Z.pos m / 2 ^ Z.pos p)%Z
               end in
      Some (if s then (- a)%Z else a)
  | _ => None
  end.

Section Model.
Context {host : PyHost}.

(** [str(o)] *)
Definition py_str (o : pdf_obj) : string :=
  match o with
  | PText s | PName s => s
  | PInt z => pretty z
  | _ => repr_obj o
  end.

(** Truth value of an object in [if o] / [if not o]: strings, arrays and
    dictionaries by emptiness, numbers by zero, the other library objects
    define neither [__bool__] nor [__len__] and are true. *)
Definition truthy (o : pdf_obj) : bool :=
  match o with
  | PNull | PBool _ | PRef _ => true
  | PInt z => negb (z =? 0)%Z
  | PReal f => negb (f =? 0)%float
  | PName s | PText s => negb (String.eqb s "")
  | PArr l => match l with [] => false | _ => true end
  | PDict d => match d with [] => false | _ => true end
  end.

(** [o == s] for [o] the result of a [get] and [s] a string or name
    literal: names and text strings are both [str]. *)
Definition py_eq_str (o : option pdf_obj) (s : string) : bool :=
  match o with
  | Some (PName t) | Some (PText t) => String.eqb t s
  | _ => false
  end.

(** [str(v)], [bool(v)] of a submitted value *)
Definition value_str (v : field_value) : string :=
  match v with
  | VStr s => s
  | VBool true => "True"
  | VBool false => "False"
  | VColl l => repr_coll l
  end.

Definition value_bool (v : field_value) : bool :=
  match v with
  | VStr s => negb (String.eqb s "")
  | VBool b => b
  | VColl l => match l with [] => false | _ => true end
  end.

(** ** Classifier *)

Definition _is_widget (annot : dict) : bool :=
  py_eq_str (dict_get "/Subtype" annot) "/Widget".

(** [int(o)]; anything that raises is reported as [None]. *)
Definition py_int (o : pdf_obj) : option Z :=
  match o with
  | PInt z => Some z
  | PReal f => Z_of_float f
  | PText s | PName s => int_of_text s
  | _ => None
  end.

Definition _ff (field : dict) : Z :=
  match dict_get "/Ff" field with
  | None => 0
  | Some o => default 0%Z (py_int o)
  end.

Definition _is_pushbutton (field : dict) : bool :=
  negb (Z.land (_ff field) (Z.shiftl 1 16) =? 0)%Z.

Definition _is_radio (field : dict) : bool :=
  negb (Z.land (_ff field) (Z.shiftl 1 15) =? 0)%Z.

Definition _is_text (field : dict) : bool :=
  py_eq_str (dict_get "/FT" field) "/Tx".

Definition _is_checkbox (field : dict) : bool :=
  py_eq_str (dict_get "/FT" field) "/Btn" && negb (_is_pushbutton field).

Definition _is_choice (field : dict) : bool :=
  py_eq_str (dict_get "/FT" field) "/Ch".

Definition _choice_is_multiselect (field : dict) : bool :=
  negb (Z.land (_ff field) (Z.shiftl 1 21) =? 0)%Z.

(** ** Choice options *)

(** [l[i]] *)
Definition py_index {A} (l : list A) (i : nat) : result A :=
  match l !! i with
  | Some x => Ok x
  | None => Raise IndexError
  end.

(** The items of [for it in o]: array elements, the characters of a string,
    the keys of a dictionary; other objects are not iterable. *)
Definition chars (s : string) : list pdf_obj :=
  (λ c, PText (String c EmptyString)) <$> String.list_ascii_of_string s.

Definition py_iter (o : pdf_obj) : result (list pdf_obj) :=
  match o with
  | PArr l => Ok l
  | PText s | PName s => Ok (chars s)
  | PDict d => Ok ((λ e, PName e.1) <$> d)
  | _ => Raise TypeError
  end.

(** Lines 88-93: the pair [[export, display]], with the one-element
    fallback of the handler. *)
Definition parse_pair (l : list pdf_obj) : result (string * string) :=
  try_except
    (let! e0 ← py_index l 0 in
     let! e1 ← py_index l 1 in
     Ok (py_str e0, py_str e1))
    (let! e0 ← py_index l 0 in
     Ok (py_str e0, py_str e0)).

Definition append_option (p : string * string) : SE options unit :=
  se_modify (λ res, (res ++ [p])%list).

(** Lines 85-93 and 96: the pair computed for one option. *)
Definition parse_one (st : store) (it : pdf_obj) : result (string * string) :=
  match get_object st it with
  | PArr l => parse_pair l
  | obj => Ok (py_str obj, py_str obj)
  end.

(** Lines 85-97, the body of the first loop. *)
Definition parse_item (st : store) (it : pdf_obj) : SE options unit :=
  do! p ← se_lift (parse_one st it) in
  append_option p.

(** Lines 102-103, the body of the fallback loop. *)
Definition fallback_item (it : pdf_obj) : SE options unit :=
  append_option (py_str it, py_str it).

Definition _choice_options (st : store) (field : dict) : result options :=
  match dict_get "/Opt" field with
  | None => Ok []
  | Some opts =>
      if negb (truthy opts) then Ok []
      else
        let run :=
          se_try
            (do! items ← se_lift (py_iter opts) in
             for_each (parse_item st) items)
            (se_try
               (do! items ← se_lift (py_iter opts) in
                for_each fallback_item items)
               (se_ret tt)) in
        match run [] with
        | (res, Ok _) => Ok res
        | (_, Raise e) => Raise e
        end
  end.

(** [for ex, disp in opts: if ex == export: return disp] *)
Fixpoint first_display (opts : options) (export : string) : option string :=
  match opts with
  | [] => None
  | (ex, disp) :: opts' =>
      if String.eqb ex export then Some disp else first_display opts' export
  end.

Definition _choice_export_to_display (st : store) (field : dict)
    (export : string) : result string :=
  let! opts ← _choice_options st field in
  Ok (default export (first_display opts export)).

(** [{disp: ex for ex, disp in options}]: a later option overwrites an
    earlier one with the same label. *)
Definition displays_of (opts : options) : gmap string string :=
  foldl (λ m p, <[p.2 := p.1]> m) ∅ opts.

Definition exports_of (opts : options) : gset string :=
  list_to_set (opts.*1).

Definition _choice_display_to_export (st : store) (field : dict)
    (display_or_export : string) : result string :=
  let! opts ← _choice_options st field in
  let exports := exports_of opts in
  let displays := displays_of opts in
  if bool_decide (display_or_export ∈ exports) then Ok display_or_export
  else Ok (default display_or_export (displays !! display_or_export)).

(** ** Checkbox state *)

Definition is_off (k : string) : bool := String.eqb k "/Off".

Definition _checkbox_on_name (annot : dict) : result string :=
  match dict_get "/AP" annot with
  | None => Ok "/Yes"
  | Some ap =>
      if negb (truthy ap) then Ok "/Yes"
      else match ap with
           | PDict apd =>
               match dict_get "/N" apd with
               | None => Ok "/Yes"
               | Some n =>
                   if negb (truthy n) then Ok "/Yes"
                   else match n with
                        | PDict nd =>
                            Ok (default "/Yes"
                                  (find (λ k, negb (is_off k)) (nd.*1)))
                        | _ => Raise AttributeError
                        end
               end
           | _ => Raise AttributeError
           end
  end.

Definition _set_checkbox_state (annot : dict) (checked : bool)
    : result dict :=
  let! on_name ← _checkbox_on_name annot in
  Ok (dict_update "/AS" (PName (if checked then on_name else "/Off")) annot).

Definition _set_text_value (field : dict) (value : string) : dict :=
  dict_update "/V" (PText value) field.

(** [[f(x) for x in l]] with [f] possibly raising *)
Fixpoint list_comp {A B} (f : A → result B) (l : list A) : result (list B) :=
  match l with
  | [] => Ok []
  | x :: l' =>
      let! y ← f x in
      let! ys ← list_comp f l' in
      Ok (y :: ys)
  end.

Definition _set_choice_value (st : store) (field : dict) (value : field_value)
    : result dict :=
  match value with
  | VColl l =>
      let! exports ←
        list_comp (λ v, let! e ← _choice_display_to_export st field v in
                        Ok (PText e)) l in
      Ok (dict_update "/V" (PArr exports) field)
  | _ =>
      let! export ← _choice_display_to_export st field (value_str value) in
      Ok (dict_update "/V" (PText export) field)
  end.

(** ** Documents *)

Record page : Type := mkPage {
  mediabox : float * float;       (** width and height *)
  annots : option pdf_obj;        (** the /Annots entry as stored *)
  contents : list draw_op         (** what the page shows *)
}.

Record document : Type := mkDocument {
  objects : store;
  pages : list page;
  acroform : option pdf_obj       (** the catalog's /AcroForm as stored *)
}.

(** [page.get("/Annots") or []], as the list [for a in annots] runs over. *)
Definition page_items (p : page) : result (list pdf_obj) :=
  match annots p with
  | None => Ok []
  | Some o => if truthy o then py_iter o else Ok []
  end.

(** [annot.get("/Parent", annot)]: the entry as stored, or the annotation
    itself. *)
Definition _get_field_from_annot (annot : dict) : pdf_obj :=
  default (PDict annot) (dict_get "/Parent" annot).

(** The receiver of [x.get(...)]: only a dictionary has the method. *)
Definition as_dict (o : pdf_obj) : result dict :=
  match o with
  | PDict d => Ok d
  | _ => Raise AttributeError
  end.

(** [a.get_object()] for an element of /Annots, which must be a dictionary
    for the [annot.get] that follows. *)
Definition annot_at (st : store) (a : pdf_obj) : result dict :=
  as_dict (get_object st a).

(** The annotation after its field was mutated: the field is the
    annotation itself, or the dictionary stored under /Parent. *)
Definition with_field (annot field' : dict) : dict :=
  match dict_get "/Parent" annot with
  | None => field'
  | Some _ => dict_update "/Parent" (PDict field') annot
  end.

(** [str(name) if name else None] *)
Definition name_of (field : dict) : option string :=
  match dict_get "/T" field with
  | Some name => if truthy name then Some (py_str name) else None
  | None => None
  end.

Definition str_truthy (s : option string) : bool :=
  match s with
  | Some s => negb (String.eqb s "")
  | None => false
  end.

(** [s[1:]] *)
Definition drop_first (s : string) : string :=
  match s with
  | EmptyString => EmptyString
  | String _ t => t
  end.

Definition occurrence_key (name : string) (idx : nat) : string :=
  name +:+ "__" +:+ pretty idx.

(** ** Value applier *)

(** Where an annotation dictionary lives: in the store, or as element [j]
    of the /Annots array of page [i]. *)
Inductive place : Type :=
| InStore (n : nat)
| InPage (i j : nat).

#[global] Instance place_eq_dec : EqDecision place.
Proof. solve_decision. Defined.

Definition place_of (i j : nat) (a : pdf_obj) : place :=
  match a with
  | PRef n => InStore n
  | _ => InPage i j
  end.

Definition page_elem (j : nat) (p : page) : option pdf_obj :=
  match annots p with
  | Some (PArr l) => l !! j
  | _ => None
  end.

Definition set_elem (j : nat) (o : pdf_obj) (p : page) : page :=
  match annots p with
  | Some (PArr l) => mkPage (mediabox p) (Some (PArr (<[j := o]> l))) (contents p)
  | _ => p
  end.

Definition read (st : store) (ps : list page) (pl : place) : option pdf_obj :=
  match pl with
  | InStore n => st !! n
  | InPage i j => ps !! i ≫= page_elem j
  end.

Record fill_state : Type := mkFillState {
  objs : store;
  pgs : list page;
  name_counts : gmap string nat;
  (** ghost: the position of the annotation, the counter key and the value
      of [idx] at each evaluation of line 159 *)
  idx_log : list (nat * nat * string * nat)
}.

(** [annot.update(...)] or [field.update(...)]: the dictionary at the
    place is replaced by its updated version. *)
Definition write_annot (pl : place) (d : dict) (s : fill_state) : fill_state :=
  match pl with
  | InStore n =>
      mkFillState (<[n := PDict d]> (objs s)) (pgs s)
                  (name_counts s) (idx_log s)
  | InPage i j =>
      mkFillState (objs s) (alter (set_elem j (PDict d)) i (pgs s))
                  (name_counts s) (idx_log s)
  end.

Definition set_annot (pl : place) (d : dict) : SE fill_state unit :=
  se_modify (write_annot pl d).

(** Lines 159-160. *)
Definition next_index (pos : nat * nat) (key : string) : SE fill_state nat :=
  λ s, let idx := (default 0 (name_counts s !! key) + 1)%nat in
       (mkFillState (objs s) (pgs s) (<[key := idx]> (name_counts s))
                    (idx_log s ++ [(pos, key, idx)])%list,
        Ok idx).

(** Lines 161-168, the value of [checked]. *)
Definition checkbox_decision (data : gmap string field_value)
    (annot : dict) (name_str : option string) (idx : nat)
    : result (option bool) :=
  let ns := default "" name_str in
  if str_truthy name_str && bool_decide (is_Some (data !! occurrence_key ns idx))
  then Ok (value_bool <$> data !! occurrence_key ns idx)
  else
    match (if str_truthy name_str then data !! ns else None) with
    | Some (VColl l) =>
        let! on_name ← _checkbox_on_name annot in
        Ok (Some (bool_decide (drop_first on_name ∈ l)
                  || bool_decide (on_name ∈ l)))
    | Some (VBool b) => Ok (Some b)
    | _ => Ok None
    end.

(** Lines 144-177, the body of the inner loop, for element [j] of the
    /Annots of page [i].  A direct element is met once, so the dictionary
    the loop variable holds is the one of the page. *)
Definition fill_annot (data : gmap string field_value) (i j : nat)
    (a : pdf_obj) : SE fill_state unit :=
  do! s ← se_get in
  let st := objs s in
  do! annot ← se_lift (annot_at st a) in
  if negb (_is_widget annot) then se_ret tt
  else
    do! field ← se_lift (as_dict (_get_field_from_annot annot)) in
    let name_str := name_of field in
    let ns := default "" name_str in
    if _is_text field then
      match (if str_truthy name_str then data !! ns else None) with
      | Some v =>
          set_annot (place_of i j a)
            (with_field annot (_set_text_value field (value_str v)))
      | None => se_ret tt
      end
    else if _is_checkbox field && negb (_is_radio field) then
      do! idx ← next_index (i, j) ns in
      do! checked ← se_lift (checkbox_decision data annot name_str idx) in
      match checked with
      | Some c =>
          do! annot' ← se_lift (_set_checkbox_state annot c) in
          set_annot (place_of i j a) annot'
      | None => se_ret tt
      end
    else if _is_choice field then
      match (if str_truthy name_str then data !! ns else None) with
      | Some v =>
          do! field' ← se_lift (_set_choice_value st field v) in
          set_annot (place_of i j a) (with_field annot field')
      | None => se_ret tt
      end
    else se_ret tt.

(** Lines 142-143: [annots = page.get("/Annots") or []; for a in annots]. *)
Definition fill_page (data : gmap string field_value) (i : nat) (p : page)
    : SE fill_state unit :=
  do! items ← se_lift (page_items p) in
  for_each_from (fill_annot data i) 0 items.

(** Line 141: [for page in reader.pages]. *)
Definition fill_pages (data : gmap string field_value) (ps : list page)
    : SE fill_state unit :=
  for_each_from (fill_page data) 0 ps.

Definition fill_run (data : gmap string field_value) (d : document)
    : fill_state * result unit :=
  fill_pages data (pages d) (mkFillState (objects d) (pages d) ∅ []).

(** Lines 180-183: [acro.update] on what [root.get("/AcroForm")] gave. *)
Definition need_appearances (acro : option pdf_obj) : result (option pdf_obj) :=
  match acro with
  | None => Ok None
  | Some (PDict d) =>
      Ok (Some (PDict (dict_update "/NeedAppearances" (PBool true) d)))
  | Some _ => Raise AttributeError
  end.

(** The document after the call, and whether the call raised.  A raise
    keeps the updates made before it. *)
Definition fill_pdf_fields (d : document) (data : gmap string field_value)
    : document * result unit :=
  match fill_run data d with
  | (s, Ok _) =>
      match need_appearances (acroform d) with
      | Ok acro' => (mkDocument (objs s) (pgs s) acro', Ok tt)
      | Raise e => (mkDocument (objs s) (pgs s) (acroform d), Raise e)
      end
  | (s, Raise e) => (mkDocument (objs s) (pgs s) (acroform d), Raise e)
  end.

(** ** Flattener *)

(** [max(a, b)] and [min(a, b)]: the first argument unless the second is
    strictly beyond it. *)
Definition py_max (a b : float) : float := if (a <? b)%float then b else a.
Definition py_min (a b : float) : float := if (b <? a)%float then b else a.

(** [float(o)] *)
Definition py_float (o : pdf_obj) : result float :=
  match o with
  | PInt z =>
      let f := float_of_Z z in
      if is_infinity f then Raise OverflowError else Ok f
  | PReal f => Ok f
  | PText s | PName s =>
      match float_of_text s with
      | Some f => Ok f
      | None => Raise ValueError
      end
  | _ => Raise TypeError
  end.

(** [o[i]] for a constant index *)
Definition py_getitem (o : option pdf_obj) (i : nat) : result pdf_obj :=
  match o with
  | Some (PArr l) => py_index l i
  | Some (PText s) | Some (PName s) => py_index (chars s) i
  | Some (PDict _) => Raise KeyError
  | _ => Raise TypeError
  end.

Definition _to_float_rect (rect : option pdf_obj)
    : result (float * float * float * float) :=
  let! r0 ← rbind (py_getitem rect 0) py_float in
  let! r1 ← rbind (py_getitem rect 1) py_float in
  let! r2 ← rbind (py_getitem rect 2) py_float in
  let! r3 ← rbind (py_getitem rect 3) py_float in
  Ok (r0, r1, r2, r3).

(** The drawing canvas: the current font size, the operations of the page
    being drawn, and the pages already emitted by [showPage]. *)
Record canvas : Type := mkCanvas {
  _fontsize : float;
  _code : list draw_op;
  _pages : list (list draw_op)
}.

(** The numbers an operation writes, in the order it writes them; a font
    is written with its leading, 1.2 times the size. *)
Definition op_numbers (op : draw_op) : list float :=
  match op with
  | SetFont size => [size; (size * 1.2)%float]
  | SetFillGray g | SetStrokeGray g => [g]
  | SetLineWidth w => [w]
  | DrawString x y _ => [x; y]
  | Line x1 y1 x2 y2 => [x1; y1; x2; y2]
  end.

Definition first_error (l : list float) : option exn :=
  head (omap canvas_error l).

Definition emit (op : draw_op) : SE canvas unit :=
  λ c, match first_error (op_numbers op) with
       | Some e => (c, Raise e)
       | None =>
           (mkCanvas (_fontsize c) (_code c ++ [op])%list (_pages c), Ok tt)
       end.

(** [setFont] stores the size before it writes it. *)
Definition setFont (size : float) : SE canvas unit :=
  run! se_modify (λ c, mkCanvas size (_code c) (_pages c)) in
  emit (SetFont size).

(** [showPage] emits the page and starts the next one in the initial
    graphics state, with the initial font size 12. *)
Definition showPage : SE canvas unit :=
  se_modify (λ c, mkCanvas 12 [] (_pages c ++ [_code c])%list).

(** Lines 250-255: the loop over the values with its running [y]. *)
Fixpoint draw_lines (x1 y1 line_h y : float) (values : list string)
    : SE canvas unit :=
  match values with
  | [] => se_ret tt
  | val :: rest =>
      if (y <? y1 + 2)%float then se_ret tt
      else
        run! emit (DrawString (x1 + 2) y val) in
        draw_lines x1 y1 line_h (y - (line_h + 2)) rest
  end.

(** Lines 233-238. *)
Definition choice_values (st : store) (field : dict) (v : pdf_obj)
    : result (list string) :=
  match v with
  | PArr l => list_comp (λ it, _choice_export_to_display st field (py_str it)) l
  | _ =>
      let! s ← _choice_export_to_display st field (py_str v) in
      Ok [s]
  end.

(** Lines 200-255, the body of the inner loop.  The field is fetched on
    line 204 and first used on line 209, after the rectangle was read, so
    a missing /Rect is reported before a field that is no dictionary. *)
Definition flatten_annot (st : store) (a : pdf_obj) : SE canvas unit :=
  do! annot ← se_lift (annot_at st a) in
  if negb (_is_widget annot) then se_ret tt
  else
    do! rect ← se_lift (_to_float_rect (dict_get "/Rect" annot)) in
    let '(x1, y1, x2, y2) := rect in
    let w := (x2 - x1)%float in
    let h := (y2 - y1)%float in
    do! field ← se_lift (as_dict (_get_field_from_annot annot)) in
    if _is_text field then
      match dict_get "/V" field with
      | None => se_ret tt
      | Some val =>
          let text := py_str val in
          let font_size := py_max 8 (py_min 12 (h * 0.6)) in
          run! setFont font_size in
          run! emit (SetFillGray 0) in
          let y_text := (y1 + (h - font_size) * 0.5 + 1)%float in
          emit (DrawString (x1 + 2) y_text text)
      end
    else if _is_checkbox field && negb (_is_radio field) then
      let asn := default (PName "/Off") (dict_get "/AS" annot) in
      if negb (py_eq_str (Some asn) "/Off") then
        run! emit (SetLineWidth (py_max 1 (h * 0.12))) in
        run! emit (SetStrokeGray 0) in
        run! emit (Line (x1 + 2) (y1 + 2) (x2 - 2) (y2 - 2)) in
        emit (Line (x1 + 2) (y2 - 2) (x2 - 2) (y1 + 2))
      else se_ret tt
    else if _is_choice field then
      match dict_get "/V" field with
      | None => se_ret tt
      | Some v =>
          do! values ← se_lift (choice_values st field v) in
          run! setFont (py_max 8 (py_min 12 (h * 0.6))) in
          run! emit (SetFillGray 0) in
          if (length values <=? 1)%nat then
            let text := default "" (head values) in
            do! c ← se_get in
            let y_text := (y1 + (h - _fontsize c) * 0.5 + 1)%float in
            emit (DrawString (x1 + 2) y_text text)
          else
            let line_h := py_max 8 (py_min 12 (h * 0.45)) in
            run! setFont line_h in
            let y := (y2 - line_h - 2)%float in
            draw_lines x1 y1 line_h y values
      end
    else se_ret tt.

(** Lines 192-257. *)
Definition flatten_page (st : store) (p : page) : SE canvas unit :=
  do! items ← se_lift (page_items p) in
  run! for_each (flatten_annot st) items in
  showPage.

(** Lines 262-266: composite the overlay, drop /Annots. *)
Definition merge_page (p : page) (overlay : list draw_op) : page :=
  mkPage (mediabox p) (annots p) (contents p ++ overlay)%list.

Definition strip_annots (p : page) : page :=
  mkPage (mediabox p) None (contents p).

Definition flatten_merge (p : page) (overlay : list draw_op) : page :=
  strip_annots (merge_page p overlay).

(** The reader's document and the writer's pages after the call.  A raise
    while drawing happens before any page is touched. *)
Definition flatten_to_visible (d : document) (writer : list page)
    : result (document * list page) :=
  match for_each (flatten_page (objects d)) (pages d) (mkCanvas 12 [] []) with
  | (c, Ok _) =>
      let out := zip_with flatten_merge (pages d) (_pages c) in
      Ok (mkDocument (objects d) out (acroform d), (writer ++ out)%list)
  | (_, Raise e) => Raise e
  end.

(** ** Documents the code can traverse, and what a mapping addresses *)

(** The /AP entry, if present and non-empty, is a dictionary whose /N
    entry, if present and non-empty, is a dictionary. *)
Definition wf_ap (annot : dict) : bool :=
  match dict_get "/AP" annot with
  | None => true
  | Some ap =>
      negb (truthy ap)
      || match ap with
         | PDict apd =>
             match dict_get "/N" apd with
             | None => true
             | Some n =>
                 negb (truthy n)
                 || match n with PDict _ => true | _ => false end
             end
         | _ => false
         end
  end.

(** A field whose widget can be asked for its on-state: a checkbox that
    is no radio button and has a usable name. *)
Definition reads_ap (field : dict) : bool :=
  negb (_is_text field)
  && (_is_checkbox field && negb (_is_radio field))
  && str_truthy (name_of field).

(** The field of a widget is a dictionary (the widget itself or a direct
    /Parent), and the widget of a named checkbox has a readable /AP. *)
Definition wf_widget (annot : dict) : bool :=
  match _get_field_from_annot annot with
  | PDict field => if reads_ap field then wf_ap annot else true
  | _ => false
  end.

(** An element of /Annots leads to a dictionary. *)
Definition wf_annot (st : store) (a : pdf_obj) : bool :=
  match get_object st a with
  | PDict annot => negb (_is_widget annot) || wf_widget annot
  | _ => false
  end.

Definition wf_page (st : store) (p : page) : bool :=
  match page_items p with
  | Ok items => forallb (wf_annot st) items
  | Raise _ => false
  end.

(** /AcroForm is absent or a direct dictionary. *)
Definition wf_acroform (acro : option pdf_obj) : bool :=
  match acro with
  | None | Some (PDict _) => true
  | Some _ => false
  end.

Definition wf_document (d : document) : bool :=
  forallb (wf_page (objects d)) (pages d) && wf_acroform (acroform d).

(** The name is usable and is a key of the mapping. *)
Definition mapped (data : gmap string field_value) (name_str : option string)
    : Prop :=
  str_truthy name_str = true ∧ is_Some (data !! default "" name_str).

(** The name is usable and some occurrence key [name__k] is a key of the
    mapping. *)
Definition occurrence_mapped (data : gmap string field_value)
    (name_str : option string) : Prop :=
  str_truthy name_str = true ∧
  ∃ k, is_Some (data !! occurrence_key (default "" name_str) k).

(** The element [a] of /Annots is a widget the mapping addresses: a text
    or choice widget whose field name is a key, or a checkbox widget whose
    field name or one of whose occurrence keys is a key. *)
Definition targets (data : gmap string field_value) (st : store)
    (a : pdf_obj) : Prop :=
  ∃ annot field,
    annot_at st a = Ok annot ∧
    _is_widget annot = true ∧
    as_dict (_get_field_from_annot annot) = Ok field ∧
    if _is_text field then mapped data (name_of field)
    else if _is_checkbox field && negb (_is_radio field) then
      mapped data (name_of field) ∨ occurrence_mapped data (name_of field)
    else if _is_choice field then mapped data (name_of field)
    else False.

(** Element [j] of the /Annots of page [i]. *)
Definition item_at (ps : list page) (i j : nat) : option pdf_obj :=
  p ← ps !! i;
  match page_items p with
  | Ok items => items !! j
  | Raise _ => None
  end.

(** The place holds the dictionary of an addressed widget. *)
Definition addressed (data : gmap string field_value) (d : document)
    (pl : place) : Prop :=
  ∃ i j a, item_at (pages d) i j = Some a ∧ place_of i j a = pl ∧
           targets data (objects d) a.

(** Two dictionaries that differ at most in /V and /AS; two annotation
    dictionaries that differ at most there and in the /V and /AS of a
    direct /Parent dictionary; two stores and two page lists whose
    dictionaries differ at most so. *)
Definition dict_sim (d d' : dict) : Prop :=
  ∀ k, k ≠ "/V" → k ≠ "/AS" → dict_get k d = dict_get k d'.

Definition parent_sim (x y : option pdf_obj) : Prop :=
  match x with
  | Some (PDict f) => ∃ f', y = Some (PDict f') ∧ dict_sim f f'
  | _ => x = y
  end.

Definition annot_sim (d d' : dict) : Prop :=
  (∀ k, k ≠ "/V" → k ≠ "/AS" → k ≠ "/Parent" → dict_get k d = dict_get k d') ∧
  parent_sim (dict_get "/Parent" d) (dict_get "/Parent" d').

Definition obj_sim (o o' : pdf_obj) : Prop :=
  match o with
  | PDict d => ∃ d', o' = PDict d' ∧ annot_sim d d'
  | _ => o = o'
  end.

Definition store_sim (st st' : store) : Prop :=
  ∀ n, match st !! n with
       | Some o => ∃ o', st' !! n = Some o' ∧ obj_sim o o'
       | None => st' !! n = None
       end.

Definition annots_sim (x y : option pdf_obj) : Prop :=
  match x with
  | Some (PArr l) => ∃ l', y = Some (PArr l') ∧ Forall2 obj_sim l l'
  | _ => x = y
  end.

Definition page_sim (p p' : page) : Prop :=
  mediabox p = mediabox p' ∧ contents p = contents p' ∧
  annots_sim (annots p) (annots p').

Definition doc_sim (d d' : document) : Prop :=
  store_sim (objects d) (objects d') ∧ Forall2 page_sim (pages d) (pages d').

(** ** The form GUI: loading the fields *)

Inductive gui_widget : Type :=
| WText (name : string)
| WCheckbox (name : string) (idx : nat)
| WChoice (name : string) (display_values : list string)
    (display_to_export : gmap string string)
| WChoiceMulti (name : string) (display_values : list string)
    (display_to_export : gmap string string).

Record gui_state : Type := mkGuiState {
  gui_counts : gmap string nat;
  (** [self.widgets], each entry with the position of the annotation it
      was built for (ghost) *)
  widgets : list (nat * nat * gui_widget)
}.

Definition gui_append (pos : nat * nat) (w : gui_widget) : SE gui_state unit :=
  se_modify (λ s, mkGuiState (gui_counts s) (widgets s ++ [(pos, w)])%list).

(** Lines 90-91 of the GUI. *)
Definition gui_next_index (key : string) : SE gui_state nat :=
  λ s, let idx := (default 0 (gui_counts s !! key) + 1)%nat in
       (mkGuiState (<[key := idx]> (gui_counts s)) (widgets s), Ok idx).

(** [str(name) if name else "(unnamed)"] *)
Definition gui_name_of (field : dict) : string :=
  match dict_get "/T" field with
  | Some name => if truthy name then py_str name else "(unnamed)"
  | None => "(unnamed)"
  end.

(** Lines 72-141 of the GUI, the body of the inner loop. *)
Definition load_annot (st : store) (i j : nat) (a : pdf_obj)
    : SE gui_state unit :=
  do! annot ← se_lift (annot_at st a) in
  if negb (_is_widget annot) then se_ret tt
  else
    do! field ← se_lift (as_dict (_get_field_from_annot annot)) in
    let name_str := gui_name_of field in
    if _is_text field then gui_append (i, j) (WText name_str)
    else if _is_checkbox field then
      do! idx ← gui_next_index name_str in
      gui_append (i, j) (WCheckbox name_str idx)
    else if _is_choice field then
      do! opts ← se_lift (_choice_options st field) in
      match opts with
      | [] => gui_append (i, j) (WText name_str)
      | _ =>
          let display_values := opts.*2 in
          let display_to_export := displays_of opts in
          if _choice_is_multiselect field then
            gui_append (i, j)
              (WChoiceMulti name_str display_values display_to_export)
          else
            gui_append (i, j)
              (WChoice name_str display_values display_to_export)
      end
    else se_ret tt.

Definition load_page (st : store) (i : nat) (p : page) : SE gui_state unit :=
  do! items ← se_lift (page_items p) in
  for_each_from (load_annot st i) 0 items.

Definition _load_fields (d : document) : gui_state * result unit :=
  for_each_from (load_page (objects d)) 0 (pages d) (mkGuiState ∅ []).

(** The checkbox indices of the two traversals, by position. *)
Definition gui_index_of (e : nat * nat * gui_widget) : option (nat * nat * nat) :=
  match e.2 with
  | WCheckbox _ idx => Some (e.1, idx)
  | _ => None
  end.

Definition fill_index_of (e : nat * nat * string * nat) : nat * nat * nat :=
  (e.1.1, e.2).

Definition gui_indices (d : document) : list (nat * nat * nat) :=
  omap gui_index_of (widgets (_load_fields d).1).

Definition fill_indices (d : document) (data : gmap string field_value)
    : list (nat * nat * nat) :=
  fill_index_of <$> idx_log (fill_run data d).1.

(** The key the GUI submits a checkbox under (line 158 of the GUI), and
    the occurrence key the value applier looks up for a checkbox
    (line 162), by position.  The value applier looks up no occurrence key
    for a checkbox without a usable name, which it counts under the empty
    key. *)
Definition gui_key_of (e : nat * nat * gui_widget) : option (nat * nat * string) :=
  match e.2 with
  | WCheckbox name idx => Some (e.1, occurrence_key name idx)
  | _ => None
  end.

Definition fill_key_of (e : nat * nat * string * nat)
    : option (nat * nat * string) :=
  if String.eqb e.1.2 "" then None
  else Some (e.1.1, occurrence_key e.1.2 e.2).

Definition gui_keys (d : document) : list (nat * nat * string) :=
  omap gui_key_of (widgets (_load_fields d).1).

Definition fill_keys (d : document) (data : gmap string field_value)
    : list (nat * nat * string) :=
  omap fill_key_of (idx_log (fill_run data d).1).

End Model.

(** * The callers: the pipeline and the GUI's save step *)

Section Pipeline.
Context {host : PyHost}.

(** The two flag tests of the classifier that no caller uses. *)
Definition _choice_is_combo (field : dict) : bool :=
  negb (Z.land (_ff field) (Z.shiftl 1 17) =? 0)%Z.

Definition _choice_is_editable (field : dict) : bool :=
  negb (Z.land (_ff field) (Z.shiftl 1 18) =? 0)%Z.

(** [fill_and_flatten]: the pages handed to [writer.write], which is reached
    only when neither step raised. *)
Definition fill_and_flatten (d : document) (data : gmap string field_value)
    : result (list page) :=
  match fill_pdf_fields d data with
  | (d', Ok _) =>
      let! r ← flatten_to_visible d' [] in
      Ok r.2
  | (_, Raise e) => Raise e
  end.

(** The element leads to no checkbox widget, or to one that is no radio
    button and whose name satisfies [P]. *)
Definition alike (P : option string → bool) (st : store) (a : pdf_obj) : bool :=
  match get_object st a with
  | PDict annot =>
      if _is_widget annot then
        match _get_field_from_annot annot with
        | PDict field =>
            if negb (_is_text field) && _is_checkbox field then
              negb (_is_radio field) && P (name_of field)
            else true
        | _ => true
        end
      else true
  | _ => true
  end.

Definition all_alike (P : option string → bool) (d : document) : bool :=
  forallb (λ p, match page_items p with
                | Ok items => forallb (alike P (objects d)) items
                | Raise _ => true
                end) (pages d).

Definition is_plain (x : option string) : bool :=
  negb (bool_decide (x = Some "")) && negb (bool_decide (x = Some "(unnamed)")).

(** Every checkbox is no radio button and has a name that is neither
    empty nor "(unnamed)" (a missing name is allowed). *)
Definition counted_alike (d : document) : bool := all_alike is_plain d.

(** Every checkbox is no radio button and has a usable name. *)
Definition gui_safe (d : document) : bool := all_alike str_truthy d.

(** A GUI widget together with what its control holds when the form is
    saved: the text of an entry, the state of a check button, the text of
    a combo box, the selected rows of a list box. *)
Inductive entered : Type :=
| EText (name : string) (value : string)
| ECheckbox (name : string) (idx : nat) (ticked : bool)
| EChoice (name : string) (display_values : list string)
    (display_to_export : gmap string string) (shown : string)
| EChoiceMulti (name : string) (display_values : list string)
    (display_to_export : gmap string string) (selection : list nat).

Definition widget_of (e : entered) : gui_widget :=
  match e with
  | EText name _ => WText name
  | ECheckbox name idx _ => WCheckbox name idx
  | EChoice name dv d2e _ => WChoice name dv d2e
  | EChoiceMulti name dv d2e _ => WChoiceMulti name dv d2e
  end.

(** Lines 156-168 of the GUI: the key and the value one widget
    contributes. *)
Definition entry_key (e : entered) : string :=
  match e with
  | EText name _ => name
  | ECheckbox name idx _ => occurrence_key name idx
  | EChoice name _ _ _ => name
  | EChoiceMulti name _ _ _ => name
  end.

Definition entry_value (e : entered) : field_value :=
  match e with
  | EText _ value => VStr value
  | ECheckbox _ _ ticked => VBool ticked
  | EChoice _ _ d2e shown => VStr (default shown (d2e !! shown))
  | EChoiceMulti _ dv d2e selection =>
      VColl ((λ d, default d (d2e !! d)) <$> omap (λ i, dv !! i) selection)
  end.

(** Lines 154-168 of the GUI: [data], filled widget by widget. *)
Definition save_data (ws : list entered) : gmap string field_value :=
  foldl (λ data e, <[entry_key e := entry_value e]> data) ∅ ws.

(** Lines 170-174 of the GUI: the pages saved, or the exception whose
    message is shown. *)
Definition save_pdf (d : document) (ws : list entered) : result (list page) :=
  fill_and_flatten d (save_data ws).

(** The drawing library writes every number of the operations. *)
Definition accepted (ops : list draw_op) : Prop :=
  Forall (λ op, first_error (op_numbers op) = None) ops.

(** The result is no exception, or is an exception the drawing library
    raised for a number. *)
Definition from_canvas {A} (r : result A) : Prop :=
  match r with
  | Ok _ => True
  | Raise e => ∃ f, canvas_error f = Some e
  end.

(** An element of /Annots the flattener can read: it leads to a dictionary
    that is no widget, or to a widget with a /Rect of four numbers whose
    field is the widget itself or a direct /Parent dictionary. *)
Definition drawable (st : store) (a : pdf_obj) : bool :=
  match get_object st a with
  | PDict annot =>
      negb (_is_widget annot)
      || (match _to_float_rect (dict_get "/Rect" annot) with
          | Ok _ => true
          | Raise _ => false
          end
          && match _get_field_from_annot annot with
             | PDict _ => true
             | _ => false
             end)
  | _ => false
  end.

Definition flatten_ready (d : document) : bool :=
  forallb (λ p, match page_items p with
                | Ok items => forallb (drawable (objects d)) items
                | Raise _ => false
                end) (pages d).

End Pipeline.

(** * Example inputs *)

(** A host whose [repr] is uninformative, which parses no number strings,
    and whose drawing library refuses exactly the numbers that are no
    finite double. *)
Definition plain_host : PyHost :=
  {| repr_obj := λ _, "<object>";
     repr_coll := λ _, "<collection>";
     int_of_text := λ _, None;
     float_of_text := λ _, None;
     canvas_error := λ f, if is_nan f then Some ValueError
                          else if is_infinity f then Some OverflowError
                          else None |}.

(** A dropdown with one option, export "US" shown as "United States". *)
Definition field_country : dict :=
  [("/FT", PName "/Ch"); ("/T", PText "Country");
   ("/Opt", PArr [PArr [PText "US"; PText "United States"]])].

(** A dropdown whose first label is the export value of its second option. *)
Definition field_shadowed : dict :=
  [("/FT", PName "/Ch"); ("/T", PText "Grade");
   ("/Opt", PArr [PArr [PText "a"; PText "b"]; PArr [PText "b"; PText "c"]])].

(** A dropdown with an option that cannot be parsed (an empty array). *)
Definition field_broken_option : dict :=
  [("/FT", PName "/Ch"); ("/T", PText "Size");
   ("/Opt", PArr [PText "a"; PArr []])].

(** The X mark of a checked box with rectangle [rect] (lines 223-226). *)
Definition x_mark (rect : float * float * float * float) : list draw_op :=
  let '(x1, y1, x2, y2) := rect in
  [SetLineWidth (py_max 1 ((y2 - y1) * 0.12));
   SetStrokeGray 0;
   Line (x1 + 2) (y1 + 2) (x2 - 2) (y2 - 2);
   Line (x1 + 2) (y2 - 2) (x2 - 2) (y1 + 2)].

(** The text a text widget is flattened to: lines 214-218. *)
Definition text_mark (rect : float * float * float * float) (text : string)
    : list draw_op :=
  let '(x1, y1, x2, y2) := rect in
  let h := (y2 - y1)%float in
  let font_size := py_max 8 (py_min 12 (h * 0.6)) in
  [SetFont font_size; SetFillGray 0;
   DrawString (x1 + 2) (y1 + (h - font_size) * 0.5 + 1) text].

(** A merged field and widget: a checkbox named "Agree" whose on-state is
    "/On". *)
Definition annot_agree : dict :=
  [("/Subtype", PName "/Widget"); ("/FT", PName "/Btn");
   ("/T", PText "Agree");
   ("/Rect", PArr [PInt 10; PInt 10; PInt 22; PInt 22]);
   ("/AP", PDict [("/N", PDict [("/Off", PRef 100); ("/On", PRef 101)])])].

(** A checkbox widget "Terms" whose field is a direct /Parent dictionary,
    with the default on-state "/Yes". *)
Definition field_terms : dict :=
  [("/FT", PName "/Btn"); ("/T", PText "Terms")].

Definition annot_terms : dict :=
  [("/Subtype", PName "/Widget"); ("/Parent", PDict field_terms);
   ("/Rect", PArr [PInt 10; PInt 40; PInt 22; PInt 52])].

(** The baseline of the [i]-th stacked line: the value of [y] in the loop
    of lines 251-255 after [i] rounds of [y -= line_h + 2]. *)
Fixpoint line_y (y step : float) (i : nat) : float :=
  match i with
  | O => y
  | S i' => line_y (y - step) step i'
  end.

(** The number of rounds of that loop that draw, for [n] values: the
    rounds before the first one that finds [y < y1 + 2]. *)
Fixpoint lines_drawn (y1 step y : float) (n : nat) : nat :=
  match n with
  | O => O
  | S n' =>
      if (y <? y1 + 2)%float then O
      else S (lines_drawn y1 step (y - step) n')
  end.

(** A multi-select list "Languages" in a box of height 30 with three
    stored values. *)
Definition annot_languages : dict :=
  [("/Subtype", PName "/Widget"); ("/FT", PName "/Ch");
   ("/T", PText "Languages");
   ("/Rect", PArr [PInt 0; PInt 0; PInt 100; PInt 30]);
   ("/Opt", PArr [PText "English"; PText "French"; PText "German"]);
   ("/V", PArr [PText "English"; PText "French"; PText "German"])].

(** The same list in a box of the same height that starts at 0.2: the
    second baseline, computed in doubles, falls just below [y1 + 2]. *)
Definition annot_languages_raised : dict :=
  [("/Subtype", PName "/Widget"); ("/FT", PName "/Ch");
   ("/T", PText "Languages");
   ("/Rect", PArr [PInt 0; PReal 0.2; PInt 100; PReal 30.2]);
   ("/Opt", PArr [PText "English"; PText "French"; PText "German"]);
   ("/V", PArr [PText "English"; PText "French"; PText "German"])].

(** A one-page document holding the checkbox "Agree", checked. *)
Definition doc_agree_checked : document :=
  mkDocument
    {[7%nat := PDict (dict_update "/AS" (PName "/On") annot_agree)]}
    [mkPage (612, 792)%float (Some (PArr [PRef 7])) []]
    (Some (PDict [])).

(** A button of a radio group ("Pick", radio flag 1<<15 set, appearance
    state "/On") and the same widget with the radio flag clear. *)
Definition annot_radio : dict :=
  [("/Subtype", PName "/Widget"); ("/FT", PName "/Btn");
   ("/T", PText "Pick"); ("/Ff", PInt 32768);
   ("/Rect", PArr [PInt 10; PInt 10; PInt 22; PInt 22]);
   ("/AS", PName "/On");
   ("/AP", PDict [("/N", PDict [("/Off", PRef 100); ("/On", PRef 101)])])].

Definition annot_radio_cleared : dict :=
  [("/Subtype", PName "/Widget"); ("/FT", PName "/Btn");
   ("/T", PText "Pick"); ("/Ff", PInt 0);
   ("/Rect", PArr [PInt 10; PInt 10; PInt 22; PInt 22]);
   ("/AS", PName "/On");
   ("/AP", PDict [("/N", PDict [("/Off", PRef 100); ("/On", PRef 101)])])].

(** Two widgets named "A" on one page: a radio button, then a checkbox. *)
Definition annot_A_radio : dict :=
  [("/Subtype", PName "/Widget"); ("/FT", PName "/Btn");
   ("/T", PText "A"); ("/Ff", PInt 32768);
   ("/Rect", PArr [PInt 10; PInt 10; PInt 22; PInt 22])].

Definition annot_A_box : dict :=
  [("/Subtype", PName "/Widget"); ("/FT", PName "/Btn");
   ("/T", PText "A");
   ("/Rect", PArr [PInt 10; PInt 40; PInt 22; PInt 52])].

Definition doc_radio_then_box : document :=
  mkDocument {[1%nat := PDict annot_A_radio; 2%nat := PDict annot_A_box]}
             [mkPage (612, 792)%float (Some (PArr [PRef 1; PRef 2])) []]
             (Some (PDict [])).

(** A one-page form: the unchecked checkbox "Agree" and the text field
    "Name", both merged with their widget and held in the store, and a
    text widget written into the page's /Annots array whose field "City"
    is a direct /Parent dictionary. *)
Definition annot_name : dict :=
  [("/Subtype", PName "/Widget"); ("/FT", PName "/Tx"); ("/T", PText "Name");
   ("/Rect", PArr [PInt 10; PInt 100; PInt 90; PInt 120])].

Definition field_city : dict :=
  [("/FT", PName "/Tx"); ("/T", PText "City")].

Definition annot_city : dict :=
  [("/Subtype", PName "/Widget"); ("/Parent", PDict field_city);
   ("/Rect", PArr [PInt 200; PInt 100; PInt 280; PInt 120])].

Definition doc_form : document :=
  mkDocument
    {[7%nat := PDict annot_agree; 21%nat := PDict annot_name]}
    [mkPage (612, 792)%float
       (Some (PArr [PRef 7; PRef 21; PDict annot_city])) []]
    (Some (PDict [])).

(** A one-page document holding a checkbox without a name. *)
Definition annot_nameless : dict :=
  [("/Subtype", PName "/Widget"); ("/FT", PName "/Btn");
   ("/Rect", PArr [PInt 10; PInt 10; PInt 22; PInt 22])].

Definition doc_nameless : document :=
  mkDocument {[1%nat := PDict annot_nameless]}
             [mkPage (612, 792)%float (Some (PArr [PRef 1])) []]
             None.

(** The usual layout of a field with two widgets: the widgets name the
    field dictionary by reference. *)
Definition field_name : dict :=
  [("/FT", PName "/Tx"); ("/T", PText "Name")].

Definition widget_of_name (x : Z) : dict :=
  [("/Subtype", PName "/Widget"); ("/Parent", PRef 20);
   ("/Rect", PArr [PInt x; PInt 100; PInt (x + 80); PInt 120])].

Definition doc_shared_field : document :=
  mkDocument
    {[20%nat := PDict field_name;
      21%nat := PDict (widget_of_name 10); 22%nat := PDict (widget_of_name 200)]}
    [mkPage (612, 792)%float (Some (PArr [PRef 21; PRef 22])) []]
    (Some (PDict [])).

(** The same list in a box of height 20 with a single stored value. *)
Definition annot_one_language : dict :=
  [("/Subtype", PName "/Widget"); ("/FT", PName "/Ch");
   ("/T", PText "Languages");
   ("/Rect", PArr [PInt 0; PInt 0; PInt 100; PInt 20]);
   ("/Opt", PArr [PText "English"; PText "French"; PText "German"]);
   ("/V", PArr [PText "English"])].

(** The number of entries of the log for one counter key, and the
    agreement of the counters with the log: the count stored for a key is
    the number of checkboxes logged for it, and every logged index is the
    1-based position of its widget among the checkboxes of its key. *)
Definition occurrences (key : string) (log : list (nat * nat * string * nat))
    : nat :=
  length (filter (λ e, e.1.2 = key) log).

Definition counts_consistent (s : fill_state) : Prop :=
  (∀ key, default 0%nat (name_counts s !! key) = occurrences key (idx_log s)) ∧
  (∀ pre e post, idx_log s = (pre ++ e :: post)%list →
                 e.2 = S (occurrences e.1.2 pre)).

(** The state of the value applier agrees with the document it started
    from: stores and pages differ at most in /V and /AS. *)
Definition state_sim (st0 : store) (ps0 : list page) (s : fill_state) : Prop :=
  store_sim st0 (objs s) ∧ Forall2 page_sim ps0 (pgs s).

(** The names [P] allows are filed under distinct counter keys by the GUI
    ("(unnamed)" for a missing name) and by the value applier ("" for a
    missing name). *)
Definition separates (P : option string → bool) : Prop :=
  ∀ x y, P x = true → P y = true → x ≠ y →
         default "(unnamed)" x ≠ default "(unnamed)" y ∧
         default "" x ≠ default "" y.

(** The two traversals are in step: stores and pages differ at most in /V
    and /AS, the same indices were given to the same widgets, the same
    keys when every name [P] allows is usable, and the counters agree on
    the names [P] allows. *)
Definition in_step (P : option string → bool) (st0 : store) (ps0 : list page)
    (g : gui_state) (s : fill_state) : Prop :=
  state_sim st0 ps0 s ∧
  omap gui_index_of (widgets g) = fill_index_of <$> idx_log s ∧
  ((∀ x, P x = true → str_truthy x = true) →
   omap gui_key_of (widgets g) = omap fill_key_of (idx_log s)) ∧
  ∀ x, P x = true →
       gui_counts g !! default "(unnamed)" x = name_counts s !! default "" x.

(** The place holds a dictionary whose /AS is the name [nm]. *)
Definition state_at (pl : place) (nm : string) (s : fill_state) : Prop :=
  ∃ annot', read (objs s) (pgs s) pl = Some (PDict annot') ∧
            dict_get "/AS" annot' = Some (PName nm).

(** The place holds a widget whose field holds the text [t] as its
    value. *)
Definition value_at (pl : place) (t : string) (s : fill_state) : Prop :=
  ∃ annot' field',
    read (objs s) (pgs s) pl = Some (PDict annot') ∧
    as_dict (_get_field_from_annot annot') = Ok field' ∧
    dict_get "/V" field' = Some (PText t).

(** * Properties *)
Section Options.
Context {host : PyHost}.

Lemma rbind_ok {A B} (m : result A) (k : A → result B) a :
  m = Ok a → rbind m k = k a.
Proof. by intros ->. Qed.

(** [_choice_options] returns on every field: every exception of the
    parsing loop and of the fallback loop is absorbed. *)
Lemma choice_options_ok (st : store) (field : dict) :
  ∃ opts, _choice_options st field = Ok opts.
Proof.
  unfold _choice_options.
  destruct (dict_get "/Opt" field) as [o|]; [|by eexists].
  destruct (truthy o); simpl; [|by eexists].
  unfold se_try.
  destruct (se_bind _ _ []) as [s1 [u1|e1]]; [by eexists|].
  destruct (se_bind _ _ s1) as [s2 [u2|e2]]; by eexists.
Qed.

Lemma displays_of_snoc (opts : options) (ex disp : string) :
  displays_of (opts ++ [(ex, disp)]) = <[disp := ex]> (displays_of opts).
Proof. unfold displays_of. by rewrite foldl_app. Qed.

(** The label table holds, for each label, the export of the last option
    that carries it. *)
Lemma displays_of_lookup_Some (opts : options) (v ex : string) :
  displays_of opts !! v = Some ex ↔
  ∃ pre post, opts = (pre ++ (ex, v) :: post)%list ∧ v ∉ post.*2.
Proof.
  induction opts as [|[e d] opts IH] using rev_ind.
  - split; [done|]. intros (pre & post & Heq & _). by destruct pre.
  - rewrite displays_of_snoc. destruct (decide (d = v)) as [->|Hne].
    + rewrite lookup_insert_eq. split.
      * intros [= ->]. exists opts, []. split; [done|]. apply not_elem_of_nil.
      * intros (pre & post & Heq & Hnot).
        destruct post as [|p post _] using rev_ind.
        -- apply app_inj_tail in Heq as [_ Heq]. congruence.
        -- rewrite app_comm_cons, app_assoc in Heq.
           apply app_inj_tail in Heq as [_ <-].
           exfalso. apply Hnot. rewrite fmap_app, elem_of_app. right.
           by apply list_elem_of_singleton.
    + rewrite lookup_insert_ne by done. rewrite IH. split.
      * intros (pre & post & -> & Hnot).
        exists pre, (post ++ [(e, d)])%list. split.
        -- by rewrite <- app_assoc.
        -- rewrite fmap_app, not_elem_of_app. split; [done|].
           by intros ->%list_elem_of_singleton.
      * intros (pre & post & Heq & Hnot).
        destruct post as [|p post _] using rev_ind.
        -- apply app_inj_tail in Heq as [_ Heq]. congruence.
        -- rewrite app_comm_cons, app_assoc in Heq.
           apply app_inj_tail in Heq as [-> <-].
           exists pre, post. split; [done|].
           rewrite fmap_app, not_elem_of_app in Hnot. by destruct Hnot.
Qed.

Lemma displays_of_lookup_None (opts : options) (v : string) :
  displays_of opts !! v = None ↔ v ∉ opts.*2.
Proof.
  induction opts as [|[e d] opts IH] using rev_ind.
  - split; [intros _; apply not_elem_of_nil | done].
  - rewrite displays_of_snoc, fmap_app. destruct (decide (d = v)) as [->|Hne].
    + rewrite lookup_insert_eq. split; [done|]. intros Hnot. exfalso.
      apply Hnot. rewrite elem_of_app. right. by apply list_elem_of_singleton.
    + rewrite lookup_insert_ne by done. rewrite IH, not_elem_of_app.
      split; [|by intros [? _]]. intros Hnot. split; [done|].
      by intros ->%list_elem_of_singleton.
Qed.

Lemma elem_of_exports_of (opts : options) (v : string) :
  v ∈ exports_of opts ↔ v ∈ opts.*1.
Proof. unfold exports_of. by rewrite elem_of_list_to_set. Qed.

(** What [_choice_display_to_export] computes from the option list. *)
Lemma display_to_export_unfold (st : store) (field : dict) (opts : options)
    (v : string) :
  _choice_options st field = Ok opts →
  _choice_display_to_export st field v =
    Ok (if bool_decide (v ∈ opts.*1) then v
        else default v (displays_of opts !! v)).
Proof.
  intros Hopts. unfold _choice_display_to_export. rewrite Hopts. simpl.
  destruct (decide (v ∈ opts.*1)) as [Hin|Hnin].
  - rewrite !bool_decide_eq_true_2; [done|done|by apply elem_of_exports_of].
  - rewrite !bool_decide_eq_false_2; [done|done|by rewrite elem_of_exports_of].
Qed.

(** C4: [_choice_display_to_export] always returns.  It returns [v] itself
    when [v] is the export value of some option; otherwise, when some option
    has the display label [v], it returns the export value of such an option
    (the last one, if several carry the label); otherwise it returns [v]
    unchanged. *)
Theorem choice_display_to_export_priority (st : store) (field : dict)
    (v : string) :
  ∃ opts r,
    _choice_options st field = Ok opts ∧
    _choice_display_to_export st field v = Ok r ∧
    (v ∈ opts.*1 → r = v) ∧
    (v ∉ opts.*1 → v ∈ opts.*2 →
       ∃ pre post, opts = (pre ++ (r, v) :: post)%list ∧ v ∉ post.*2) ∧
    (v ∉ opts.*1 → v ∉ opts.*2 → r = v).
Proof.
  destruct (choice_options_ok st field) as [opts Hopts].
  exists opts. eexists. split; [done|].
  split; [by apply display_to_export_unfold|].
  split; [|split].
  - intros Hin. by rewrite bool_decide_eq_true_2.
  - intros Hnin Hdisp. rewrite bool_decide_eq_false_2 by done.
    destruct (displays_of opts !! v) as [ex|] eqn:Hlk.
    + by apply displays_of_lookup_Some.
    + by apply displays_of_lookup_None in Hlk.
  - intros Hnin Hndisp. rewrite bool_decide_eq_false_2 by done.
    apply displays_of_lookup_None in Hndisp. by rewrite Hndisp.
Qed.

(** C5, amended: for an option (export, display) of a choice field, the
    export value resolves to itself, and the display label resolves to that
    same export exactly when the label equals the export, or the label is
    the export value of no option and the last option carrying the label
    has this export.  When both resolve to the same export, that export is
    rendered as the same display label in both cases. *)
Theorem choice_roundtrip_unambiguous (st : store) (field : dict)
    (opts : options) (ex disp : string) :
  _choice_options st field = Ok opts →
  (ex, disp) ∈ opts →
  _choice_display_to_export st field ex = Ok ex ∧
  (_choice_display_to_export st field disp = Ok ex ↔
     (disp = ex ∨
      ((disp ∉ opts.*1) ∧
       ∃ pre post, opts = (pre ++ (ex, disp) :: post)%list ∧ disp ∉ post.*2))) ∧
  (_choice_display_to_export st field disp = Ok ex →
     rbind (_choice_display_to_export st field ex)
           (_choice_export_to_display st field) =
     rbind (_choice_display_to_export st field disp)
           (_choice_export_to_display st field) ∧
     ∃ shown, _choice_export_to_display st field ex = Ok shown).
Proof.
  intros Hopts Hin.
  assert (Hex : ex ∈ opts.*1).
  { apply list_elem_of_fmap. by exists (ex, disp). }
  rewrite !(display_to_export_unfold st field opts) by done.
  rewrite (bool_decide_eq_true_2 _ Hex).
  split; [done|]. split.
  - destruct (decide (disp ∈ opts.*1)) as [Hd|Hd].
    + rewrite (bool_decide_eq_true_2 _ Hd). split.
      * intros [= ->]. by left.
      * intros [->|[Hn _]]; [done|by destruct Hn].
    + rewrite (bool_decide_eq_false_2 _ Hd). split.
      * intros [= Heq]. right. split; [done|].
        apply displays_of_lookup_Some.
        destruct (displays_of opts !! disp) as [e|] eqn:Hlk; simpl in Heq.
        -- by subst.
        -- subst. by destruct Hd.
      * intros [->|[_ Hlast]]; [by destruct Hd|].
        apply displays_of_lookup_Some in Hlast. by rewrite Hlast.
  - intros ->. split; [done|].
    unfold _choice_export_to_display. rewrite Hopts. simpl. by eexists.
Qed.

Lemma parse_items_ok (st : store) (items : list pdf_obj) (ps res : options) :
  list_comp (parse_one st) items = Ok ps →
  for_each (parse_item st) items res = ((res ++ ps)%list, Ok tt).
Proof.
  revert ps res. induction items as [|it items IH]; intros ps res; simpl.
  - intros [= <-]. by rewrite app_nil_r.
  - unfold parse_item at 1, se_bind at 1 2, se_lift, append_option, se_modify.
    destruct (parse_one st it) as [p|e]; [|done]. simpl.
    destruct (list_comp (parse_one st) items) as [ps'|e]; [|done]. simpl.
    intros [= <-]. rewrite (IH ps') by done. by rewrite <- app_assoc.
Qed.

Lemma parse_items_raise (st : store) (items : list pdf_obj) (e : exn)
    (res : options) :
  list_comp (parse_one st) items = Raise e →
  ∃ parsed e', for_each (parse_item st) items res
                 = ((res ++ parsed)%list, Raise e').
Proof.
  revert res e. induction items as [|it items IH]; intros res e; simpl; [done|].
  unfold parse_item at 1, se_bind at 1 2, se_lift, append_option, se_modify.
  destruct (parse_one st it) as [p|e0].
  - simpl. destruct (list_comp (parse_one st) items) as [ps'|e1] eqn:E;
      [done|].
    intros _. destruct (IH (res ++ [p])%list e1 eq_refl) as (parsed & e' & ->).
    exists (p :: parsed), e'. by rewrite <- app_assoc.
  - intros _. exists [], e0. by rewrite app_nil_r.
Qed.

Lemma fallback_items (items : list pdf_obj) (res : options) :
  for_each fallback_item items res =
    ((res ++ ((λ it, (py_str it, py_str it)) <$> items))%list, Ok tt).
Proof.
  revert res. induction items as [|it items IH]; intros res; simpl.
  - by rewrite app_nil_r.
  - unfold se_bind, fallback_item at 1, append_option, se_modify.
    rewrite IH. by rewrite <- app_assoc.
Qed.

(** C9, amended: [_choice_options] returns a list of pairs on every field
    and never raises.  The list is empty when the field has no /Opt entry,
    when the entry is empty, and when it cannot be iterated.  When every
    option parses, the list holds the parsed pairs.  When parsing some
    option raises, the list ends with the string fallback of every option,
    each with its export equal to its display, so such a field has
    options. *)
Theorem choice_options_total_with_fallback (st : store) (field : dict) :
  ∃ opts,
    _choice_options st field = Ok opts ∧
    (dict_get "/Opt" field = None → opts = []) ∧
    (∀ o, dict_get "/Opt" field = Some o → truthy o = false → opts = []) ∧
    (∀ o e, dict_get "/Opt" field = Some o → truthy o = true →
            py_iter o = Raise e → opts = []) ∧
    (∀ o items ps,
        dict_get "/Opt" field = Some o → truthy o = true →
        py_iter o = Ok items →
        list_comp (parse_one st) items = Ok ps → opts = ps) ∧
    (∀ o items e,
        dict_get "/Opt" field = Some o → truthy o = true →
        py_iter o = Ok items →
        list_comp (parse_one st) items = Raise e →
        ∃ parsed fallback,
          opts = (parsed ++ fallback)%list ∧
          fallback = (λ it, (py_str it, py_str it)) <$> items ∧
          Forall (λ p, p.1 = p.2) fallback).
Proof.
  destruct (dict_get "/Opt" field) as [o|] eqn:Hopt.
  2:{ exists []. unfold _choice_options. rewrite Hopt.
      repeat split; intros; simplify_eq; congruence. }
  destruct (truthy o) eqn:Ho.
  2:{ exists []. unfold _choice_options. rewrite Hopt, Ho.
      repeat split; intros; simplify_eq; congruence. }
  destruct (py_iter o) as [items|e0] eqn:Hiter.
  2:{ exists []. unfold _choice_options. rewrite Hopt, Ho. simpl.
      unfold se_try, se_bind, se_lift. rewrite Hiter.
      repeat split; intros; simplify_eq; congruence. }
  destruct (list_comp (parse_one st) items) as [ps|e1] eqn:Hparse.
  - exists ps. split.
    + unfold _choice_options. rewrite Hopt, Ho. simpl.
      unfold se_try, se_bind, se_lift. rewrite Hiter.
      by rewrite (parse_items_ok st items ps [] Hparse).
    + repeat split; intros; simplify_eq; congruence.
  - destruct (parse_items_raise st items e1 [] Hparse) as (parsed & e' & E).
    exists (parsed ++ ((λ it, (py_str it, py_str it)) <$> items))%list. split.
    + unfold _choice_options. rewrite Hopt, Ho. simpl.
      unfold se_try, se_bind, se_lift. rewrite Hiter, E.
      by rewrite fallback_items.
    + split; [by intros|]. split; [intros; simplify_eq; congruence|].
      split; [intros; simplify_eq; congruence|]. split; [intros; simplify_eq; congruence|].
      intros o' items' e Ho' _ Hiter' _. simplify_eq.
      assert (items' = items) as -> by congruence.
      exists parsed. eexists. split; [done|]. split; [done|].
      apply Forall_fmap. by apply Forall_true.
Qed.

End Options.

(** C9 as stated fails at an /Opt array with an unparsable entry after a
    readable one: the result is neither the empty list nor the string
    fallback of the options, because the pair parsed before the exception
    stays in the list, and the field has options. *)
Lemma choice_options_counterexample :
  _choice_options (host := plain_host) ∅ field_broken_option =
    Ok [("a", "a"); ("a", "a"); ("<object>", "<object>")] ∧
  (λ it, (py_str (host := plain_host) it, py_str (host := plain_host) it))
    <$> [PText "a"; PArr []] = [("a", "a"); ("<object>", "<object>")] ∧
  [("a", "a"); ("a", "a"); ("<object>", "<object>")]
    ≠ ([] : options) ∧
  [("a", "a"); ("a", "a"); ("<object>", "<object>")]
    ≠ [("a", "a"); ("<object>", "<object>")].
Proof. repeat split; by vm_compute. Qed.

(** C5 as stated fails when a label is also the export value of another
    option: for the option ("a", "b") of [field_shadowed], the export "a"
    is stored as "a" but the label "b" is stored as "b". *)
Lemma choice_roundtrip_counterexample :
  _choice_options (host := plain_host) ∅ field_shadowed
    = Ok [("a", "b"); ("b", "c")] ∧
  _choice_display_to_export (host := plain_host) ∅ field_shadowed "a" = Ok "a" ∧
  _choice_display_to_export (host := plain_host) ∅ field_shadowed "b" = Ok "b" ∧
  _choice_display_to_export (host := plain_host) ∅ field_shadowed "a"
    ≠ _choice_display_to_export (host := plain_host) ∅ field_shadowed "b".
Proof. repeat split; try by vm_compute. Qed.

(** The round trip at the dropdown "Country", whose only option is
    ("US", "United States"). *)
Lemma choice_roundtrip_unambiguous_witness :
  _choice_display_to_export (host := plain_host) ∅ field_country "US" = Ok "US" ∧
  (_choice_display_to_export (host := plain_host) ∅ field_country "United States"
     = Ok "US" ↔
   ("United States" = "US" ∨
    (("United States" ∉ [("US", "United States")].*1) ∧
     ∃ pre post,
       [("US", "United States")] = (pre ++ ("US", "United States") :: post)%list ∧
       "United States" ∉ post.*2))) ∧
  (_choice_display_to_export (host := plain_host) ∅ field_country "United States"
     = Ok "US" →
   rbind (_choice_display_to_export (host := plain_host) ∅ field_country "US")
         (_choice_export_to_display (host := plain_host) ∅ field_country) =
   rbind (_choice_display_to_export (host := plain_host) ∅ field_country
            "United States")
         (_choice_export_to_display (host := plain_host) ∅ field_country) ∧
   ∃ shown, _choice_export_to_display (host := plain_host) ∅ field_country "US"
              = Ok shown).
Proof.
  apply (choice_roundtrip_unambiguous (host := plain_host) ∅ field_country
           [("US", "United States")] "US" "United States").
  - reflexivity.
  - apply list_elem_of_here.
Defined.


Section Checkbox.
Context {host : PyHost}.

Lemma dict_get_update_eq (k : string) (v : pdf_obj) (d : dict) :
  dict_get k (dict_update k v d) = Some v.
Proof.
  induction d as [|[k' v'] d IH]; simpl.
  - by rewrite String.eqb_refl.
  - destruct (String.eqb k' k) eqn:E; simpl.
    + by rewrite String.eqb_refl.
    + by rewrite E.
Qed.

Lemma dict_get_update_ne (k k' : string) (v : pdf_obj) (d : dict) :
  k ≠ k' → dict_get k' (dict_update k v d) = dict_get k' d.
Proof.
  intros Hne. induction d as [|[k0 v0] d IH]; simpl.
  - by apply String.eqb_neq in Hne as ->.
  - destruct (String.eqb k0 k) eqn:E; simpl.
    + apply String.eqb_eq in E as ->.
      by apply String.eqb_neq in Hne as ->.
    + by rewrite IH.
Qed.

Lemma find_not_off (ks : list string) (k : string) :
  find (λ k, negb (is_off k)) ks = Some k → k ≠ "/Off".
Proof.
  intros H. apply find_some in H as [_ H].
  unfold is_off in H. intros ->. by rewrite String.eqb_refl in H.
Qed.

Lemma find_first_on (offs rest : list string) (k : string) :
  Forall (λ k', k' = "/Off") offs → k ≠ "/Off" →
  find (λ k, negb (is_off k)) (offs ++ k :: rest) = Some k.
Proof.
  intros Hoffs Hk. induction Hoffs as [|k' offs -> _ IH]; simpl.
  - unfold is_off. by apply String.eqb_neq in Hk as ->.
  - done.
Qed.

Lemma checkbox_on_name_not_off (annot : dict) (on : string) :
  _checkbox_on_name annot = Ok on → on ≠ "/Off".
Proof.
  unfold _checkbox_on_name.
  destruct (dict_get "/AP" annot) as [ap|]; [|by intros [= <-]].
  destruct (truthy ap); simpl; [|by intros [= <-]].
  destruct ap as [| | | | | | |apd|]; try done.
  destruct (dict_get "/N" apd) as [n|]; [|by intros [= <-]].
  destruct (truthy n); simpl; [|by intros [= <-]].
  destruct n as [| | | | | | |nd|]; try done.
  destruct (find _ _) as [k|] eqn:Hfind; simpl; intros [= <-]; [|done].
  by eapply find_not_off.
Qed.

(** What the classifier reads of a dictionary is the same in a dictionary
    that agrees with it outside /V and /AS. *)
Lemma dict_sim_reads (d d' : dict) :
  dict_sim d d' →
  _is_widget d' = _is_widget d ∧
  _is_text d' = _is_text d ∧
  _is_checkbox d' = _is_checkbox d ∧
  _is_radio d' = _is_radio d ∧
  _is_choice d' = _is_choice d ∧
  name_of d' = name_of d ∧
  gui_name_of d' = gui_name_of d ∧
  dict_get "/Parent" d' = dict_get "/Parent" d ∧
  dict_get "/Rect" d' = dict_get "/Rect" d ∧
  wf_ap d' = wf_ap d ∧
  _checkbox_on_name d' = _checkbox_on_name d.
Proof.
  intros Hsim.
  unfold _is_widget, _is_text, _is_checkbox, _is_radio, _is_choice,
    _is_pushbutton, _ff, name_of, gui_name_of, wf_ap, _checkbox_on_name.
  rewrite !(Hsim "/Subtype"), !(Hsim "/FT"), !(Hsim "/Ff"), !(Hsim "/T"),
    !(Hsim "/Parent"), !(Hsim "/Rect"), !(Hsim "/AP") by done.
  done.
Qed.

Lemma dict_sim_refl (d : dict) : dict_sim d d.
Proof. by intros k _ _. Qed.

Lemma dict_sim_trans (d1 d2 d3 : dict) :
  dict_sim d1 d2 → dict_sim d2 d3 → dict_sim d1 d3.
Proof. intros H1 H2 k Hv Has. by rewrite H1, H2. Qed.

Lemma dict_sim_update (k : string) (v : pdf_obj) (d : dict) :
  k = "/V" ∨ k = "/AS" → dict_sim d (dict_update k v d).
Proof.
  intros Hk k' Hv Has. rewrite dict_get_update_ne; [done|].
  by destruct Hk as [-> | ->].
Qed.

(** The field of the annotation in which /AS or /V was rewritten is
    classified as before. *)
Lemma field_after_update (k : string) (v : pdf_obj) (annot field : dict) :
  k = "/V" ∨ k = "/AS" →
  as_dict (_get_field_from_annot annot) = Ok field →
  ∃ field', as_dict (_get_field_from_annot (dict_update k v annot)) = Ok field' ∧
            dict_sim field field'.
Proof.
  intros Hk. unfold _get_field_from_annot.
  rewrite (dict_get_update_ne k "/Parent") by (by destruct Hk as [-> | ->]).
  destruct (dict_get "/Parent" annot) as [p|]; cbn [default from_option id].
  - intros Hp. exists field. split; [done|]. apply dict_sim_refl.
  - intros [= <-]. eexists. split; [done|]. by apply dict_sim_update.
Qed.

(** ** The canvas *)

Lemma emit_ok (op : draw_op) (c : canvas) :
  first_error (op_numbers op) = None →
  emit op c = (mkCanvas (_fontsize c) (_code c ++ [op]) (_pages c), Ok tt).
Proof. intros H. unfold emit. by rewrite H. Qed.

Lemma setFont_ok (size : float) (c : canvas) :
  first_error (op_numbers (SetFont size)) = None →
  setFont size c = (mkCanvas size (_code c ++ [SetFont size]) (_pages c), Ok tt).
Proof.
  intros H. unfold setFont, se_bind, se_modify. by rewrite emit_ok.
Qed.

Lemma accepted_cons (op : draw_op) (ops : list draw_op) :
  accepted (op :: ops) ↔ first_error (op_numbers op) = None ∧ accepted ops.
Proof.
  unfold accepted.
  apply (Forall_cons (λ op, first_error (op_numbers op) = None)).
Qed.

Lemma accepted_app (ops ops' : list draw_op) :
  accepted (ops ++ ops') ↔ accepted ops ∧ accepted ops'.
Proof.
  unfold accepted.
  apply (Forall_app (λ op, first_error (op_numbers op) = None)).
Qed.

(** The flattener on a checkbox widget. *)
Lemma flatten_checkbox (st : store) (a : pdf_obj) (annot field : dict)
    (rect : float * float * float * float) (c : canvas) :
  annot_at st a = Ok annot →
  _is_widget annot = true →
  _to_float_rect (dict_get "/Rect" annot) = Ok rect →
  as_dict (_get_field_from_annot annot) = Ok field →
  _is_text field = false →
  _is_checkbox field && negb (_is_radio field) = true →
  (py_eq_str (Some (default (PName "/Off") (dict_get "/AS" annot))) "/Off"
     = true →
   flatten_annot st a c = (c, Ok tt)) ∧
  (py_eq_str (Some (default (PName "/Off") (dict_get "/AS" annot))) "/Off"
     = false →
   accepted (x_mark rect) →
   flatten_annot st a c =
     (mkCanvas (_fontsize c) (_code c ++ x_mark rect) (_pages c), Ok tt)).
Proof.
  intros Ha Hw Hrect Hfield Ht Hcb.
  destruct rect as [[[x1 y1] x2] y2].
  split; intros Hoff; [|intros Hacc];
    unfold flatten_annot, se_bind, se_lift;
    rewrite Ha, Hw; cbn [negb]; rewrite Hrect; cbv beta iota zeta;
    rewrite Hfield, Ht, Hcb, Hoff; [done|].
  cbn [negb x_mark] in *.
  apply accepted_cons in Hacc as [H1 Hacc].
  apply accepted_cons in Hacc as [H2 Hacc].
  apply accepted_cons in Hacc as [H3 Hacc].
  apply accepted_cons in Hacc as [H4 _].
  rewrite (emit_ok _ _ H1). rewrite (emit_ok _ _ H2).
  rewrite (emit_ok _ _ H3). rewrite (emit_ok _ _ H4).
  cbn [_fontsize _code _pages]. by rewrite <- !app_assoc.
Qed.

(** C10: [_checkbox_on_name] never returns "/Off": it returns the first
    key of the normal appearance dictionary that differs from "/Off", and
    "/Yes" when the widget has no /AP or its /AP has no /N.  So
    [_set_checkbox_state annot true] sets /AS to a name other than "/Off",
    and the flattener draws the X mark in the rectangle of the checked
    widget: when the widget is a checkbox that is no radio button, whose
    field is the widget itself or a direct /Parent dictionary, when [a] is
    the element of /Annots (a reference or the dictionary itself) that
    leads to the checked dictionary, and when the drawing library writes
    the numbers of the mark. *)
Theorem checked_checkbox_is_drawn (st : store) (annot : dict) :
  (∀ on, _checkbox_on_name annot = Ok on → on ≠ "/Off") ∧
  (dict_get "/AP" annot = None → _checkbox_on_name annot = Ok "/Yes") ∧
  (∀ apd, dict_get "/AP" annot = Some (PDict apd) →
          dict_get "/N" apd = None →
          _checkbox_on_name annot = Ok "/Yes") ∧
  (∀ apd nd offs k rest,
      dict_get "/AP" annot = Some (PDict apd) →
      dict_get "/N" apd = Some (PDict nd) →
      nd.*1 = (offs ++ k :: rest)%list →
      Forall (λ k', k' = "/Off") offs → k ≠ "/Off" →
      _checkbox_on_name annot = Ok k) ∧
  (∀ annot', _set_checkbox_state annot true = Ok annot' →
      ∃ on, dict_get "/AS" annot' = Some (PName on) ∧ on ≠ "/Off") ∧
  (∀ a annot' field rect c,
      _is_widget annot = true →
      as_dict (_get_field_from_annot annot) = Ok field →
      _is_text field = false →
      _is_checkbox field && negb (_is_radio field) = true →
      _to_float_rect (dict_get "/Rect" annot) = Ok rect →
      _set_checkbox_state annot true = Ok annot' →
      annot_at st a = Ok annot' →
      accepted (x_mark rect) →
      flatten_annot st a c =
        (mkCanvas (_fontsize c) (_code c ++ x_mark rect) (_pages c), Ok tt)).
Proof.
  repeat split.
  - apply checkbox_on_name_not_off.
  - intros H. unfold _checkbox_on_name. by rewrite H.
  - intros apd Hap Hn. unfold _checkbox_on_name. rewrite Hap, Hn.
    by destruct (truthy _).
  - intros apd nd offs k rest Hap Hn Hkeys Hoffs Hk.
    unfold _checkbox_on_name. rewrite Hap.
    destruct apd as [|e apd]; [done|]. simpl truthy. cbv iota beta.
    simpl negb. cbv iota. rewrite Hn.
    destruct nd as [|e' nd]; [by destruct offs|]. simpl truthy. simpl negb.
    cbv iota. rewrite Hkeys, find_first_on by done. done.
  - intros annot'. unfold _set_checkbox_state.
    destruct (_checkbox_on_name annot) as [on|] eqn:Hon; [|done].
    simpl. intros [= <-]. exists on. split.
    + apply dict_get_update_eq.
    + by eapply checkbox_on_name_not_off.
  - intros a annot' field rect c Hw Hfield Ht Hcb Hrect Hset Ha Hacc.
    unfold _set_checkbox_state in Hset.
    destruct (_checkbox_on_name annot) as [on|] eqn:Hon; [|done].
    simpl in Hset. injection Hset as <-.
    apply checkbox_on_name_not_off in Hon.
    pose proof (dict_sim_reads annot _
                  (dict_sim_update "/AS" (PName on) annot (or_intror eq_refl)))
      as (Ew & _ & _ & _ & _ & _ & _ & _ & Erect & _).
    destruct (field_after_update "/AS" (PName on) annot field
                (or_intror eq_refl) Hfield) as (field' & Hfield' & Hsim).
    pose proof (dict_sim_reads field field' Hsim)
      as (_ & Et & Ec & Er & _).
    eapply (flatten_checkbox st a _ field' rect c); try done.
    + congruence.
    + congruence.
    + congruence.
    + by rewrite Ec, Er.
    + rewrite dict_get_update_eq. cbn [default from_option id py_eq_str].
      by apply String.eqb_neq.
Qed.

End Checkbox.

(** The checkbox "Agree", held in the store, and the checkbox "Terms",
    written into the page's array with its field as a direct /Parent:
    checked and then flattened. *)
Lemma checked_checkbox_is_drawn_witness :
  (∃ annot',
     _set_checkbox_state annot_agree true = Ok annot' ∧
     dict_get "/AS" annot' = Some (PName "/On") ∧
     flatten_annot (host := plain_host) {[7%nat := PDict annot']} (PRef 7)
         (mkCanvas 12 [] []) =
       (mkCanvas 12
          [SetLineWidth 1.44; SetStrokeGray 0;
           Line 12 12 20 20; Line 12 20 20 12] [],
        Ok tt)) ∧
  (∃ annot',
     _set_checkbox_state annot_terms true = Ok annot' ∧
     dict_get "/AS" annot' = Some (PName "/Yes") ∧
     flatten_annot (host := plain_host) ∅ (PDict annot') (mkCanvas 12 [] []) =
       (mkCanvas 12
          [SetLineWidth 1.44; SetStrokeGray 0;
           Line 12 42 20 50; Line 12 50 20 42] [],
        Ok tt)).
Proof.
  split.
  - exists (dict_update "/AS" (PName "/On") annot_agree).
    split; [reflexivity|]. split; [reflexivity|].
    pose proof (checked_checkbox_is_drawn (host := plain_host)
                  {[7%nat := PDict (dict_update "/AS" (PName "/On") annot_agree)]}
                  annot_agree) as (_ & _ & _ & _ & _ & H).
    apply (H (PRef 7) (dict_update "/AS" (PName "/On") annot_agree) annot_agree
             (10, 10, 22, 22)%float (mkCanvas 12 [] []));
      try reflexivity.
    repeat constructor.
  - exists (dict_update "/AS" (PName "/Yes") annot_terms).
    split; [reflexivity|]. split; [reflexivity|].
    pose proof (checked_checkbox_is_drawn (host := plain_host) ∅ annot_terms)
      as (_ & _ & _ & _ & _ & H).
    apply (H (PDict (dict_update "/AS" (PName "/Yes") annot_terms))
             (dict_update "/AS" (PName "/Yes") annot_terms)
             field_terms (10, 40, 22, 52)%float (mkCanvas 12 [] []));
      try reflexivity.
    repeat constructor.
Defined.

Section Lines.
Context {host : PyHost}.

(** The loop draws a prefix of the values, one line per round, and stops
    at the first round that finds its baseline below [y1 + 2]. *)
Lemma draw_lines_run (x1 y1 line_h : float) (values : list string) (y : float)
    (c : canvas) :
  let k := lines_drawn y1 (line_h + 2) y (length values) in
  let ops := imap (λ i val, DrawString (x1 + 2)
                              (line_y y (line_h + 2) i) val)
                  (take k values) in
  accepted ops →
  draw_lines x1 y1 line_h y values c =
    (mkCanvas (_fontsize c) (_code c ++ ops) (_pages c), Ok tt).
Proof.
  revert y c. induction values as [|val rest IH]; intros y c; cbn zeta.
  - intros _. cbn. rewrite app_nil_r. by destruct c.
  - cbn [length lines_drawn draw_lines].
    destruct (y <? y1 + 2)%float.
    + intros _. cbn. rewrite app_nil_r. by destruct c.
    + cbn [take imap]. intros [H1 Hrest]%accepted_cons.
      unfold se_bind. rewrite (emit_ok _ _ H1). cbn [line_y] in H1.
      rewrite (IH (y - (line_h + 2))%float _ Hrest).
      cbn [_fontsize _code _pages line_y]. by rewrite <- app_assoc.
Qed.

Lemma lines_drawn_spec (y1 step y : float) (n : nat) :
  let k := lines_drawn y1 step y n in
  (k ≤ n)%nat ∧
  (∀ i, (i < k)%nat → (line_y y step i <? y1 + 2)%float = false) ∧
  ((k < n)%nat → (line_y y step k <? y1 + 2)%float = true).
Proof.
  revert y. induction n as [|n IH]; intros y; simpl.
  - split; [lia|]. split; intros; lia.
  - destruct (y <? y1 + 2)%float eqn:E.
    + split; [lia|]. split; [intros; lia|]. by intros _.
    + destruct (IH (y - step)%float) as (Hle & Hdraw & Hstop).
      split; [lia|]. split.
      * intros [|i] Hi; [done|]. apply Hdraw. lia.
      * intros Hlt. apply Hstop. lia.
Qed.

(** C6, amended: for a choice widget whose stored value gives two or more
    display strings, the flattener sets the font size
    [max(8, min(12, 0.45*h))] and draws the strings stacked top-down: line
    0 has its baseline at [y2 - line_h - 2] and each further line
    [line_h + 2] below the one before (in the doubles of the code), the
    lines drawn are a prefix of the values, no drawn line has found its
    baseline below [y1 + 2], and drawing stops without an error at the
    first line that does.  The number of lines drawn is the only [k] with
    these properties, so in a box where line 2 fits and line 3 does not,
    exactly 2 of 3 values are drawn.  A stored value that gives at most
    one string is drawn as a single line at font size
    [max(8, min(12, 0.6*h))], vertically centred like a text field.  Both
    hold when the drawing library writes the numbers of the operations. *)
Theorem multiselect_lines_stop_at_bottom (st : store) (a : pdf_obj)
    (annot field : dict) (x1 y1 x2 y2 : float) (v : pdf_obj)
    (values : list string) (c : canvas) :
  annot_at st a = Ok annot →
  _is_widget annot = true →
  _to_float_rect (dict_get "/Rect" annot) = Ok (x1, y1, x2, y2) →
  as_dict (_get_field_from_annot annot) = Ok field →
  _is_text field = false →
  _is_checkbox field && negb (_is_radio field) = false →
  _is_choice field = true →
  dict_get "/V" field = Some v →
  choice_values st field v = Ok values →
  let h := (y2 - y1)%float in
  let font_size := py_max 8 (py_min 12 (h * 0.6)) in
  let line_h := py_max 8 (py_min 12 (h * 0.45)) in
  let y0 := (y2 - line_h - 2)%float in
  let k := lines_drawn y1 (line_h + 2) y0 (length values) in
  let stacked :=
    ([SetFont font_size; SetFillGray 0; SetFont line_h] ++
     imap (λ i val, DrawString (x1 + 2) (line_y y0 (line_h + 2) i) val)
          (take k values))%list in
  let single :=
    [SetFont font_size; SetFillGray 0;
     DrawString (x1 + 2) (y1 + (h - font_size) * 0.5 + 1)
       (default "" (head values))] in
  ((1 < length values)%nat → accepted stacked →
   flatten_annot st a c =
     (mkCanvas line_h (_code c ++ stacked) (_pages c), Ok tt)) ∧
  (k ≤ length values)%nat ∧
  (∀ i, (i < k)%nat → (line_y y0 (line_h + 2) i <? y1 + 2)%float = false) ∧
  ((k < length values)%nat →
   (line_y y0 (line_h + 2) k <? y1 + 2)%float = true) ∧
  (∀ k', (k' ≤ length values)%nat →
         (∀ i, (i < k')%nat →
               (line_y y0 (line_h + 2) i <? y1 + 2)%float = false) →
         ((k' < length values)%nat →
          (line_y y0 (line_h + 2) k' <? y1 + 2)%float = true) →
         k' = k) ∧
  ((length values ≤ 1)%nat → accepted single →
   flatten_annot st a c =
     (mkCanvas font_size (_code c ++ single) (_pages c), Ok tt)).
Proof.
  intros Ha Hw Hrect Hfield Htext Hcb Hchoice Hv Hvalues
    h font_size line_h y0 k stacked single.
  destruct (lines_drawn_spec y1 (line_h + 2) y0 (length values))
    as (Hk & Hdraw & Hstop).
  fold k in Hk, Hdraw, Hstop.
  assert (Hrun : flatten_annot st a c =
            (run! setFont font_size in
             run! emit (SetFillGray 0) in
             if (length values <=? 1)%nat then
               do! c ← se_get in
               emit (DrawString (x1 + 2)
                       (y1 + (h - _fontsize c) * 0.5 + 1)
                       (default "" (head values)))
             else
               run! setFont line_h in
               draw_lines x1 y1 line_h y0 values) c).
  { unfold flatten_annot, se_bind at 1 2 3 4, se_lift.
    rewrite Ha, Hw. cbn [negb]. rewrite Hrect. cbv beta iota zeta.
    by rewrite Hfield, Htext, Hcb, Hchoice, Hv, Hvalues. }
  split; [|split; [done|split; [done|split; [done|split]]]].
  - intros Hlen Hacc. rewrite Hrun.
    assert (E : (length values <=? 1)%nat = false) by (apply Nat.leb_gt; lia).
    rewrite E. subst stacked.
    apply accepted_cons in Hacc as [H1 Hacc].
    apply accepted_cons in Hacc as [H2 Hacc].
    apply accepted_cons in Hacc as [H3 Hacc].
    unfold se_bind. rewrite (setFont_ok _ _ H1), (emit_ok _ _ H2).
    rewrite (setFont_ok _ _ H3).
    rewrite (draw_lines_run x1 y1 line_h values y0 _ Hacc).
    cbn [_fontsize _code _pages]. by rewrite <- !app_assoc.
  - intros k' Hk' Hdraw' Hstop'.
    destruct (Nat.lt_trichotomy k' k) as [Hlt|[->|Hgt]]; [|done|].
    + pose proof (Hdraw k' Hlt) as E. rewrite (Hstop' ltac:(lia)) in E. done.
    + pose proof (Hdraw' k Hgt) as E. rewrite (Hstop ltac:(lia)) in E. done.
  - intros Hlen Hacc. rewrite Hrun.
    assert (E : (length values <=? 1)%nat = true) by (apply Nat.leb_le; lia).
    rewrite E. subst single.
    apply accepted_cons in Hacc as [H1 Hacc].
    apply accepted_cons in Hacc as [H2 Hacc].
    apply accepted_cons in Hacc as [H3 _].
    unfold se_bind, se_get. rewrite (setFont_ok _ _ H1), (emit_ok _ _ H2).
    cbn [_fontsize _code _pages]. rewrite (emit_ok _ _ H3).
    cbn [_fontsize _code _pages]. by rewrite <- !app_assoc.
Qed.

End Lines.

(** C6 as stated fails for a collection of one string: in a box of height
    20 the single value is drawn like a text field, at font size 12 and
    centred at baseline 5, not at size [max(8, min(12, 0.45*20)) = 9] from
    the top (baseline [20 - 9 - 2 = 9]). *)
Lemma single_value_counterexample :
  flatten_annot (host := plain_host) {[5%nat := PDict annot_one_language]}
      (PRef 5) (mkCanvas 12 [] []) =
    (mkCanvas 12 [SetFont 12; SetFillGray 0; DrawString 2 5 "English"] [],
     Ok tt) ∧
  py_max 8 (py_min 12 ((20 - 0) * 0.45)) = 9%float ∧
  (20 - 9 - 2)%float = 9%float ∧
  (12 =? 9)%float = false ∧
  (5 =? 9)%float = false.
Proof. repeat split; by vm_compute. Qed.

(** Three values in a box of height 30: the lines are 12 high, two fit
    (baselines 16 and 2), the third value is dropped.  In the box of the
    same height that starts at 0.2 the second baseline is computed as
    2.1999999999999993, below 0.2 + 2, and one line is drawn. *)
Lemma multiselect_lines_stop_at_bottom_witness :
  flatten_annot (host := plain_host) {[5%nat := PDict annot_languages]}
      (PRef 5) (mkCanvas 12 [] []) =
    (mkCanvas 12
       [SetFont 12; SetFillGray 0; SetFont 12;
        DrawString 2 16 "English"; DrawString 2 2 "French"] [],
     Ok tt) ∧
  flatten_annot (host := plain_host) ∅ (PDict annot_languages_raised)
      (mkCanvas 12 [] []) =
    (mkCanvas 12
       [SetFont 12; SetFillGray 0; SetFont 12; DrawString 2 16.2 "English"] [],
     Ok tt).
Proof.
  split.
  - apply (proj1 (multiselect_lines_stop_at_bottom (host := plain_host)
                    {[5%nat := PDict annot_languages]} (PRef 5) annot_languages
                    annot_languages 0 0 100 30
                    (PArr [PText "English"; PText "French"; PText "German"])
                    ["English"; "French"; "German"] (mkCanvas 12 [] [])
                    ltac:(by vm_compute) eq_refl eq_refl eq_refl eq_refl
                    eq_refl eq_refl eq_refl eq_refl)).
    + simpl. lia.
    + repeat constructor.
  - apply (proj1 (multiselect_lines_stop_at_bottom (host := plain_host)
                    ∅ (PDict annot_languages_raised) annot_languages_raised
                    annot_languages_raised 0 0.2 100 30.2
                    (PArr [PText "English"; PText "French"; PText "German"])
                    ["English"; "French"; "German"] (mkCanvas 12 [] [])
                    ltac:(by vm_compute) eq_refl eq_refl eq_refl eq_refl
                    eq_refl eq_refl eq_refl eq_refl)).
    + simpl. lia.
    + repeat constructor.
Defined.

Section Idempotence.
Context {host : PyHost}.

(** Pages without /Annots produce empty overlay pages. *)
Lemma flatten_pages_no_annots (st : store) (ps : list page) (c : canvas) :
  Forall (λ p, annots p = None) ps →
  _code c = [] →
  for_each (flatten_page st) ps c =
    (mkCanvas (match ps with [] => _fontsize c | _ => 12 end) []
       (_pages c ++ replicate (length ps) []), Ok tt).
Proof.
  intros Hps. revert c. induction Hps as [|p ps Hp _ IH]; intros c Hc.
  - simpl. unfold se_ret. rewrite app_nil_r. destruct c; simpl in *. by subst.
  - cbn [for_each]. unfold se_bind at 1. unfold flatten_page at 1.
    unfold page_items. rewrite Hp. simpl. rewrite IH by done. simpl.
    rewrite Hc, <- app_assoc. by destruct ps.
Qed.

Lemma flatten_merge_empty (p : page) :
  annots p = None → flatten_merge p [] = p.
Proof.
  destruct p as [mb an ct]. simpl. intros ->.
  unfold flatten_merge, strip_annots, merge_page. simpl. by rewrite app_nil_r.
Qed.

Lemma zip_flatten_merge_empty (ps : list page) :
  Forall (λ p, annots p = None) ps →
  zip_with flatten_merge ps (replicate (length ps) []) = ps.
Proof.
  induction 1 as [|p ps Hp _ IH]; simpl; [done|].
  by rewrite flatten_merge_empty, IH.
Qed.

Lemma zip_flatten_merge_stripped (ps : list page) (overlay : list (list draw_op)) :
  Forall (λ p, annots p = None) (zip_with flatten_merge ps overlay).
Proof.
  revert overlay. induction ps as [|p ps IH]; intros [|o overlay]; simpl;
    by constructor.
Qed.

(** C7: after [flatten_to_visible] every page of its output has no /Annots
    entry, so a second pass over that output (read back with any object
    store) finds no widget, draws nothing (every overlay page is empty) and
    returns the same pages: the page contents are unchanged. *)
Theorem flatten_twice_is_noop (d : document) (w : list page) (d1 : document)
    (w1 : list page) :
  flatten_to_visible d w = Ok (d1, w1) →
  w1 = (w ++ pages d1)%list ∧
  Forall (λ p, annots p = None) (pages d1) ∧
  ∀ (st' : store) (acro' : option pdf_obj) (w' : list page),
    let d2 := mkDocument st' (pages d1) acro' in
    for_each (flatten_page st') (pages d2) (mkCanvas 12 [] []) =
      (mkCanvas 12 [] (replicate (length (pages d1)) []), Ok tt) ∧
    flatten_to_visible d2 w' = Ok (d2, (w' ++ pages d1)%list).
Proof.
  unfold flatten_to_visible at 1.
  destruct (for_each _ _ _) as [c [u|e]]; [|done].
  intros [= <- <-]. simpl.
  pose proof (zip_flatten_merge_stripped (pages d) (_pages c)) as Hstripped.
  split; [done|]. split; [done|].
  intros st' acro' w'. simpl.
  pose proof (flatten_pages_no_annots st' _ (mkCanvas 12 [] []) Hstripped
                eq_refl) as Hrun.
  assert (Hrun' :
    for_each (flatten_page st') (zip_with flatten_merge (pages d) (_pages c))
      (mkCanvas 12 [] []) =
    (mkCanvas 12 []
       (replicate (length (zip_with flatten_merge (pages d) (_pages c))) []),
     Ok tt)).
  { rewrite Hrun. cbn.
    by destruct (zip_with flatten_merge (pages d) (_pages c)). }
  split; [done|].
  unfold flatten_to_visible. simpl. rewrite Hrun'. simpl.
  by rewrite zip_flatten_merge_empty.
Qed.

End Idempotence.

(** The checked checkbox "Agree": the first pass draws the X mark and a
    second pass over the result returns the same page. *)
Lemma flatten_twice_is_noop_witness :
  ∃ d1 w1,
    flatten_to_visible (host := plain_host) doc_agree_checked [] = Ok (d1, w1) ∧
    contents <$> w1 = [x_mark (10, 10, 22, 22)%float] ∧
    x_mark (10, 10, 22, 22)%float =
      [SetLineWidth 1.44; SetStrokeGray 0; Line 12 12 20 20; Line 12 20 20 12] ∧
    flatten_to_visible (host := plain_host) (mkDocument ∅ (pages d1) None) []
      = Ok (mkDocument ∅ (pages d1) None, pages d1).
Proof.
  eexists _, _. split; [by vm_compute|]. split; [by vm_compute|].
  split; [by vm_compute|].
  eapply (flatten_twice_is_noop (host := plain_host) doc_agree_checked []).
  by vm_compute.
Defined.

Section Filler.
Context {host : PyHost}.
Implicit Types (data : gmap string field_value) (s : fill_state).

(** ** Reading and writing a place *)

Lemma read_write_eq (pl : place) (d : dict) s (o : pdf_obj) :
  read (objs s) (pgs s) pl = Some o →
  read (objs (write_annot pl d s)) (pgs (write_annot pl d s)) pl
    = Some (PDict d).
Proof.
  destruct pl as [n|i j]; cbn [read write_annot objs pgs].
  - intros _. apply lookup_insert_eq.
  - rewrite list_lookup_alter_eq.
    destruct (pgs s !! i) as [p|]; [|done]. cbn.
    unfold page_elem, set_elem.
    destruct (annots p) as [[| | | | | |l| |]|] eqn:E; try done.
    cbn [annots]. intros Hj. apply list_lookup_insert_eq.
    by eapply lookup_lt_Some.
Qed.

Lemma read_write_ne (pl pl' : place) (d : dict) s :
  pl' ≠ pl →
  read (objs (write_annot pl d s)) (pgs (write_annot pl d s)) pl'
    = read (objs s) (pgs s) pl'.
Proof.
  intros Hne.
  destruct pl as [n|i j], pl' as [n'|i' j']; cbn [read write_annot objs pgs];
    try done.
  - apply lookup_insert_ne. congruence.
  - destruct (decide (i = i')) as [<-|Hi];
      [|by rewrite list_lookup_alter_ne].
    rewrite list_lookup_alter_eq.
    destruct (pgs s !! i) as [p|]; [|done]. cbn.
    unfold page_elem, set_elem.
    destruct (annots p) as [[| | | | | |l| |]|] eqn:E; rewrite ?E; try done.
    cbn [annots]. apply list_lookup_insert_ne. congruence.
Qed.

(** ** Step equations of [fill_annot] *)

Lemma fill_annot_raises data s i j a e :
  annot_at (objs s) a = Raise e →
  fill_annot data i j a s = (s, Raise e).
Proof.
  intros Ha. unfold fill_annot, se_bind, se_get, se_lift. by rewrite Ha.
Qed.

Lemma fill_annot_not_widget data s i j a annot :
  annot_at (objs s) a = Ok annot →
  _is_widget annot = false →
  fill_annot data i j a s = (s, Ok tt).
Proof.
  intros Ha Hw. unfold fill_annot, se_bind, se_get, se_lift.
  by rewrite Ha, Hw.
Qed.

Lemma fill_annot_no_field data s i j a annot e :
  annot_at (objs s) a = Ok annot →
  _is_widget annot = true →
  as_dict (_get_field_from_annot annot) = Raise e →
  fill_annot data i j a s = (s, Raise e).
Proof.
  intros Ha Hw Hfield. unfold fill_annot, se_bind, se_get, se_lift.
  by rewrite Ha, Hw, Hfield.
Qed.

Lemma fill_annot_text data s i j a annot field :
  annot_at (objs s) a = Ok annot →
  _is_widget annot = true →
  as_dict (_get_field_from_annot annot) = Ok field →
  _is_text field = true →
  fill_annot data i j a s =
    match (if str_truthy (name_of field)
           then data !! default "" (name_of field) else None) with
    | Some v =>
        (write_annot (place_of i j a)
           (with_field annot (_set_text_value field (value_str v))) s, Ok tt)
    | None => (s, Ok tt)
    end.
Proof.
  intros Ha Hw Hfield Ht. unfold fill_annot, se_bind, se_get, se_lift.
  rewrite Ha, Hw. cbn [negb]. rewrite Hfield, Ht.
  by destruct (if str_truthy _ then _ else _).
Qed.

Lemma fill_annot_checkbox data s i j a annot field :
  annot_at (objs s) a = Ok annot →
  _is_widget annot = true →
  as_dict (_get_field_from_annot annot) = Ok field →
  _is_text field = false →
  _is_checkbox field && negb (_is_radio field) = true →
  let ns := default "" (name_of field) in
  let idx := (default 0 (name_counts s !! ns) + 1)%nat in
  let counted :=
    mkFillState (objs s) (pgs s) (<[ns := idx]> (name_counts s))
                (idx_log s ++ [(i, j, ns, idx)])%list in
  fill_annot data i j a s =
    match checkbox_decision data annot (name_of field) idx with
    | Ok (Some c) =>
        match _set_checkbox_state annot c with
        | Ok annot' => (write_annot (place_of i j a) annot' counted, Ok tt)
        | Raise e => (counted, Raise e)
        end
    | Ok None => (counted, Ok tt)
    | Raise e => (counted, Raise e)
    end.
Proof.
  intros Ha Hw Hfield Ht Hcb. unfold fill_annot, se_bind, se_get, se_lift.
  rewrite Ha, Hw. cbn [negb]. rewrite Hfield, Ht, Hcb.
  unfold next_index. cbn [objs pgs name_counts idx_log].
  destruct (checkbox_decision _ _ _ _) as [[c|]|e]; try done.
Qed.

Lemma fill_annot_choice data s i j a annot field :
  annot_at (objs s) a = Ok annot →
  _is_widget annot = true →
  as_dict (_get_field_from_annot annot) = Ok field →
  _is_text field = false →
  _is_checkbox field && negb (_is_radio field) = false →
  _is_choice field = true →
  fill_annot data i j a s =
    match (if str_truthy (name_of field)
           then data !! default "" (name_of field) else None) with
    | Some v =>
        match _set_choice_value (objs s) field v with
        | Ok field' =>
            (write_annot (place_of i j a) (with_field annot field') s, Ok tt)
        | Raise e => (s, Raise e)
        end
    | None => (s, Ok tt)
    end.
Proof.
  intros Ha Hw Hfield Ht Hcb Hch.
  unfold fill_annot, se_bind, se_get, se_lift.
  rewrite Ha, Hw. cbn [negb]. rewrite Hfield, Ht, Hcb, Hch.
  destruct (if str_truthy _ then _ else _); [|done].
  by destruct (_set_choice_value _ _ _).
Qed.

(** A widget that is no text field, no checkbox outside a radio group and
    no choice field is skipped. *)
Lemma fill_annot_skipped data s i j a annot field :
  annot_at (objs s) a = Ok annot →
  _is_widget annot = true →
  as_dict (_get_field_from_annot annot) = Ok field →
  _is_text field = false →
  _is_checkbox field && negb (_is_radio field) = false →
  _is_choice field = false →
  fill_annot data i j a s = (s, Ok tt).
Proof.
  intros Ha Hw Hfield Ht Hcb Hch.
  unfold fill_annot, se_bind, se_get, se_lift.
  rewrite Ha, Hw. cbn [negb]. by rewrite Hfield, Ht, Hcb, Hch.
Qed.

Lemma str_truthy_Some (N : string) : N ≠ "" → str_truthy (Some N) = true.
Proof. intros H. simpl. by apply String.eqb_neq in H as ->. Qed.

(** C3: the value applier on a checkbox widget (a /Btn widget that is
    neither push button nor radio, whose field is the widget itself or a
    direct /Parent dictionary) with name [N] and appearance on-name [on],
    met as element [j] of the /Annots of page [i].  With [idx] one more
    than the count stored for [N], which is the number of checkboxes of
    that name met before (see [counts_consistent]), the round ends
    normally, counts the widget, touches no other dictionary and no entry
    of the widget but /AS, and
    (a) if key [N__idx] is present, its truth value is used: the boolean
    itself, for a string whether it is non-empty, for a collection whether
    it is non-empty;
    (b) otherwise, if key [N] holds a collection, the widget is checked iff
    [on] without its first character or [on] itself is in the collection;
    (c) otherwise, if key [N] holds a boolean, that boolean is used;
    (d) otherwise /AS is left as it was.
    "Used" means /AS becomes [on] for true and "/Off" for false. *)
Theorem checkbox_resolution_priority data s (i j : nat) (a : pdf_obj)
    (annot field : dict) (N on : string) :
  annot_at (objs s) a = Ok annot →
  read (objs s) (pgs s) (place_of i j a) = Some (PDict annot) →
  _is_widget annot = true →
  as_dict (_get_field_from_annot annot) = Ok field →
  _is_text field = false →
  _is_checkbox field && negb (_is_radio field) = true →
  name_of field = Some N →
  N ≠ "" →
  _checkbox_on_name annot = Ok on →
  let idx := (default 0 (name_counts s !! N) + 1)%nat in
  let outcome (state : option string) : Prop :=
    ∃ s' annot',
      fill_annot data i j a s = (s', Ok tt) ∧
      name_counts s' = <[N := idx]> (name_counts s) ∧
      idx_log s' = (idx_log s ++ [(i, j, N, idx)])%list ∧
      read (objs s') (pgs s') (place_of i j a) = Some (PDict annot') ∧
      (∀ pl, pl ≠ place_of i j a →
             read (objs s') (pgs s') pl = read (objs s) (pgs s) pl) ∧
      (∀ k, k ≠ "/AS" → dict_get k annot' = dict_get k annot) ∧
      dict_get "/AS" annot' =
        match state with
        | Some nm => Some (PName nm)
        | None => dict_get "/AS" annot
        end in
  let used (c : bool) : Prop := outcome (Some (if c then on else "/Off")) in
  (∀ b, data !! occurrence_key N idx = Some (VBool b) → used b) ∧
  (∀ t, data !! occurrence_key N idx = Some (VStr t) →
        used (negb (String.eqb t ""))) ∧
  (∀ l, data !! occurrence_key N idx = Some (VColl l) →
        used (match l with [] => false | _ => true end)) ∧
  (∀ l, data !! occurrence_key N idx = None →
        data !! N = Some (VColl l) →
        used (bool_decide (drop_first on ∈ l ∨ on ∈ l))) ∧
  (∀ b, data !! occurrence_key N idx = None →
        data !! N = Some (VBool b) → used b) ∧
  (data !! occurrence_key N idx = None →
   (data !! N = None ∨ ∃ text, data !! N = Some (VStr text)) →
   outcome None) ∧
  (∀ t, on = ("/" +:+ t) → drop_first on = t).
Proof.
  intros Ha Hread Hw Hfield Ht Hcb Hname HN Hon idx outcome used.
  pose proof (fill_annot_checkbox data s i j a annot field Ha Hw Hfield Ht Hcb)
    as Hstep.
  rewrite Hname in Hstep. cbn [default from_option id] in Hstep. fold idx in Hstep.
  unfold checkbox_decision, _set_checkbox_state in Hstep.
  rewrite (str_truthy_Some N HN), Hon in Hstep.
  cbn [default from_option id andb rbind] in Hstep. fold idx in Hstep.
  set (counted := mkFillState (objs s) (pgs s) (<[N := idx]> (name_counts s))
                    (idx_log s ++ [(i, j, N, idx)])%list) in Hstep.
  assert (Hused : ∀ c : bool,
            fill_annot data i j a s =
              (write_annot (place_of i j a)
                 (dict_update "/AS" (PName (if c then on else "/Off")) annot)
                 counted, Ok tt) →
            used c).
  { intros c E. unfold used, outcome. eexists _, _. split; [exact E|].
    split; [by destruct (place_of i j a)|].
    split; [by destruct (place_of i j a)|].
    split; [by apply (read_write_eq _ _ counted (PDict annot))|].
    split; [intros pl Hpl; by apply (read_write_ne _ _ _ counted)|].
    split; [intros k Hk; by apply dict_get_update_ne|].
    apply dict_get_update_eq. }
  repeat split.
  - intros b Hv. apply Hused. rewrite Hstep, Hv.
    by rewrite bool_decide_eq_true_2.
  - intros t Hv. apply Hused. rewrite Hstep, Hv.
    by rewrite bool_decide_eq_true_2.
  - intros l Hv. apply Hused. rewrite Hstep, Hv.
    by rewrite bool_decide_eq_true_2.
  - intros l Hk Hl. apply Hused. rewrite Hstep, Hk, Hl.
    rewrite bool_decide_eq_false_2 by (by intros [? ?]).
    by rewrite bool_decide_or.
  - intros b Hk Hb. apply Hused. rewrite Hstep, Hk, Hb.
    by rewrite bool_decide_eq_false_2 by (by intros [? ?]).
  - intros Hk HNone. unfold outcome. exists counted, annot.
    split.
    { rewrite Hstep, Hk.
      rewrite bool_decide_eq_false_2 by (by intros [? ?]).
      by destruct HNone as [->|[text ->]]. }
    by repeat split.
  - by intros t ->.
Qed.

Lemma btn_is_not_text_or_choice (field : dict) :
  py_eq_str (dict_get "/FT" field) "/Btn" = true →
  _is_text field = false ∧ _is_choice field = false.
Proof.
  unfold _is_text, _is_choice.
  destruct (dict_get "/FT" field) as [[| | | |t|t| | |]|]; simpl; try done;
    intros ->%String.eqb_eq; done.
Qed.

(** The radio test reads bit 15 (counted from 0) of /Ff, which the format
    numbers as flag bit 16. *)
Lemma is_radio_testbit (field : dict) :
  _is_radio field = Z.testbit (_ff field) 15.
Proof.
  unfold _is_radio. change (Z.shiftl 1 15) with (2 ^ 15)%Z.
  destruct (Z.testbit (_ff field) 15) eqn:E.
  - apply negb_true_iff, Z.eqb_neq. intros H0.
    assert (H : Z.testbit (Z.land (_ff field) (2 ^ 15)) 15 = false)
      by (rewrite H0; apply Z.bits_0).
    rewrite Z.land_spec, E, Z.pow2_bits_true in H by lia. done.
  - apply negb_false_iff, Z.eqb_eq, Z.bits_inj'. intros m Hm.
    rewrite Z.land_spec, Z.bits_0.
    destruct (decide (m = 15%Z)) as [->|Hne].
    + by rewrite E.
    + rewrite Z.pow2_bits_false by lia. apply andb_false_r.
Qed.

(** C2, amended: a /Btn widget that is no push button and has the radio
    flag (1<<15, flag bit 16 of /Ff) set, whose field is the widget itself
    or a direct /Parent dictionary, is a checkbox for the classifier
    [_is_checkbox], which ignores that flag, but the value applier and the
    flattener both skip it: the applier changes nothing (no object, no
    page, no per-name counter) and raises nothing, and the flattener draws
    nothing for it once its /Rect is read. *)
Theorem radio_widgets_are_skipped data s (i j : nat) (a : pdf_obj)
    (annot field : dict) :
  annot_at (objs s) a = Ok annot →
  _is_widget annot = true →
  as_dict (_get_field_from_annot annot) = Ok field →
  py_eq_str (dict_get "/FT" field) "/Btn" = true →
  _is_pushbutton field = false →
  Z.testbit (_ff field) 15 = true →
  _is_checkbox field = true ∧
  fill_annot data i j a s = (s, Ok tt) ∧
  ∀ rect c, _to_float_rect (dict_get "/Rect" annot) = Ok rect →
            flatten_annot (objs s) a c = (c, Ok tt).
Proof.
  intros Ha Hw Hfield Hbtn Hpush Hradio. rewrite <- is_radio_testbit in Hradio.
  destruct (btn_is_not_text_or_choice _ Hbtn) as [Ht Hch].
  assert (Hcb : _is_checkbox field = true).
  { unfold _is_checkbox. by rewrite Hbtn, Hpush. }
  split; [done|]. split.
  - apply (fill_annot_skipped data s i j a annot field); try done.
    by rewrite Hcb, Hradio.
  - intros [[[x1 y1] x2] y2] c Hrect.
    unfold flatten_annot, se_bind, se_lift.
    rewrite Ha, Hw. cbn [negb]. rewrite Hrect. cbv beta iota zeta.
    by rewrite Hfield, Ht, Hcb, Hradio, Hch.
Qed.

(** C1 at a page holding a radio button and a checkbox of the same name:
    the GUI numbers both (the checkbox, element 1 of the /Annots of page
    0, is "A__2"), the value applier skips the radio button and numbers
    the checkbox 1, so the value the GUI submits under "A__2" is not
    applied to the widget it was entered for. *)
Theorem indices_diverge_after_radio :
  gui_indices doc_radio_then_box = [(0, 0, 1); (0, 1, 2)]%nat ∧
  fill_indices doc_radio_then_box {["A__2" := VBool true]} = [(0, 1, 1)]%nat ∧
  fill_pdf_fields doc_radio_then_box {["A__2" := VBool true]} =
    (mkDocument (objects doc_radio_then_box) (pages doc_radio_then_box)
                (Some (PDict [("/NeedAppearances", PBool true)])), Ok tt).
Proof. repeat split; by vm_compute. Qed.

End Filler.

(** C2 as stated fails: with the mapping [Pick := False], the widget with
    the radio flag clear is counted and its /AS set from "/On" to "/Off",
    the radio button is not touched; and the widget with the flag clear,
    whose /AS is "/On", is drawn with an X mark, the radio button is
    not. *)
Lemma radio_counterexample :
  _is_checkbox (host := plain_host) annot_radio = true ∧
  _is_radio (host := plain_host) annot_radio = true ∧
  fill_annot (host := plain_host) {["Pick" := VBool false]} 0 0 (PRef 1)
      (mkFillState {[1%nat := PDict annot_radio]} [] ∅ []) =
    (mkFillState {[1%nat := PDict annot_radio]} [] ∅ [], Ok tt) ∧
  dict_get "/AS" annot_radio_cleared = Some (PName "/On") ∧
  fill_annot (host := plain_host) {["Pick" := VBool false]} 0 0 (PRef 1)
      (mkFillState {[1%nat := PDict annot_radio_cleared]} [] ∅ []) =
    (mkFillState
       {[1%nat := PDict
           [("/Subtype", PName "/Widget"); ("/FT", PName "/Btn");
            ("/T", PText "Pick"); ("/Ff", PInt 0);
            ("/Rect", PArr [PInt 10; PInt 10; PInt 22; PInt 22]);
            ("/AS", PName "/Off");
            ("/AP", PDict [("/N", PDict [("/Off", PRef 100);
                                         ("/On", PRef 101)])])]]}
       [] {["Pick" := 1%nat]} [(0%nat, 0%nat, "Pick", 1%nat)], Ok tt) ∧
  flatten_annot (host := plain_host) {[1%nat := PDict annot_radio]} (PRef 1)
      (mkCanvas 12 [] []) = (mkCanvas 12 [] [], Ok tt) ∧
  flatten_annot (host := plain_host) {[1%nat := PDict annot_radio_cleared]}
      (PRef 1) (mkCanvas 12 [] []) =
    (mkCanvas 12
       [SetLineWidth 1.44; SetStrokeGray 0; Line 12 12 20 20; Line 12 20 20 12]
       [],
     Ok tt).
Proof. repeat split; by vm_compute. Qed.

(** The radio button "Pick" under the mapping [Pick := True]. *)
Lemma radio_widgets_are_skipped_witness :
  _is_checkbox (host := plain_host) annot_radio = true ∧
  fill_annot (host := plain_host) {["Pick" := VBool true]} 0 0 (PRef 1)
      (mkFillState {[1%nat := PDict annot_radio]} [] ∅ []) =
    (mkFillState {[1%nat := PDict annot_radio]} [] ∅ [], Ok tt) ∧
  ∀ rect c,
    _to_float_rect (host := plain_host) (dict_get "/Rect" annot_radio) = Ok rect →
    flatten_annot (host := plain_host) {[1%nat := PDict annot_radio]} (PRef 1) c
      = (c, Ok tt).
Proof.
  exact (radio_widgets_are_skipped (host := plain_host)
           {["Pick" := VBool true]}
           (mkFillState {[1%nat := PDict annot_radio]} [] ∅ []) 0 0 (PRef 1)
           annot_radio annot_radio ltac:(by vm_compute) eq_refl eq_refl
           eq_refl eq_refl eq_refl).
Defined.

(** The checkbox "Agree" (appearance state unset, on-state "/On"): ticked
    under its occurrence key, and cleared under a boolean for its plain
    name. *)
Lemma checkbox_resolution_priority_witness :
  (∃ s' annot',
     fill_annot (host := plain_host) {["Agree__1" := VBool true]} 0 0 (PRef 7)
         (mkFillState {[7%nat := PDict annot_agree]} [] ∅ []) = (s', Ok tt) ∧
     name_counts s' = {["Agree" := 1%nat]} ∧
     idx_log s' = [(0%nat, 0%nat, "Agree", 1%nat)] ∧
     objs s' !! 7%nat = Some (PDict annot') ∧
     dict_get "/AS" annot_agree = None ∧
     dict_get "/AS" annot' = Some (PName "/On")) ∧
  (∃ s' annot',
     fill_annot (host := plain_host) {["Agree" := VBool false]} 0 0 (PRef 7)
         (mkFillState {[7%nat := PDict annot_agree]} [] ∅ []) = (s', Ok tt) ∧
     objs s' !! 7%nat = Some (PDict annot') ∧
     dict_get "/AS" annot' = Some (PName "/Off")).
Proof.
  split.
  - destruct (checkbox_resolution_priority (host := plain_host)
                {["Agree__1" := VBool true]}
                (mkFillState {[7%nat := PDict annot_agree]} [] ∅ []) 0 0
                (PRef 7) annot_agree annot_agree "Agree" "/On"
                ltac:(by vm_compute) ltac:(by vm_compute) eq_refl eq_refl
                eq_refl eq_refl eq_refl ltac:(discriminate) eq_refl)
      as (H & _).
    destruct (H true ltac:(by vm_compute))
      as (s' & annot' & E & Hc & Hl & Hr & _ & _ & HAS).
    exists s', annot'. repeat split; try done.
  - destruct (checkbox_resolution_priority (host := plain_host)
                {["Agree" := VBool false]}
                (mkFillState {[7%nat := PDict annot_agree]} [] ∅ []) 0 0
                (PRef 7) annot_agree annot_agree "Agree" "/On"
                ltac:(by vm_compute) ltac:(by vm_compute) eq_refl eq_refl
                eq_refl eq_refl eq_refl ltac:(discriminate) eq_refl)
      as (_ & _ & _ & _ & H & _).
    destruct (H false ltac:(by vm_compute) ltac:(by vm_compute))
      as (s' & annot' & E & _ & _ & Hr & _ & _ & HAS).
    exists s', annot'. repeat split; try done.
Defined.

Section Frame.
Context {host : PyHost}.
Implicit Types (data : gmap string field_value) (s : fill_state) (st : store).

(** ** Dictionaries that differ at most in /V and /AS *)

Lemma annot_sim_refl (d : dict) : annot_sim d d.
Proof.
  split; [done|]. unfold parent_sim.
  destruct (dict_get "/Parent" d) as [[]|]; try done.
  eexists. split; [done|]. apply dict_sim_refl.
Qed.

Lemma obj_sim_refl (o : pdf_obj) : obj_sim o o.
Proof.
  destruct o; try done. eexists. split; [done|]. apply annot_sim_refl.
Qed.

Lemma store_sim_refl st : store_sim st st.
Proof.
  intros n. destruct (st !! n) as [o|]; [|done].
  eexists. split; [done|]. apply obj_sim_refl.
Qed.

Lemma page_sim_refl (p : page) : page_sim p p.
Proof.
  split; [done|]. split; [done|]. unfold annots_sim.
  destruct (annots p) as [[| | | | | |l| |]|]; try done.
  eexists. split; [done|].
  apply Forall2_same_length_lookup. split; [done|].
  intros i x y Hx Hy. simplify_eq. apply obj_sim_refl.
Qed.

Lemma pages_sim_refl (ps : list page) : Forall2 page_sim ps ps.
Proof.
  apply Forall2_same_length_lookup. split; [done|].
  intros i x y Hx Hy. simplify_eq. apply page_sim_refl.
Qed.

(** What the two traversals read of an annotation itself. *)
Lemma annot_sim_reads (d d' : dict) :
  annot_sim d d' →
  _is_widget d' = _is_widget d ∧
  dict_get "/Rect" d' = dict_get "/Rect" d ∧
  wf_ap d' = wf_ap d ∧
  _checkbox_on_name d' = _checkbox_on_name d.
Proof.
  intros [Hsim _]. unfold _is_widget, wf_ap, _checkbox_on_name.
  rewrite !(Hsim "/Subtype"), !(Hsim "/Rect"), !(Hsim "/AP") by done.
  done.
Qed.

(** The field of an annotation: the same kind of object, and a dictionary
    that differs at most in /V and /AS. *)
Lemma field_sim (annot0 annot field0 : dict) :
  annot_sim annot0 annot →
  as_dict (_get_field_from_annot annot0) = Ok field0 →
  ∃ field, as_dict (_get_field_from_annot annot) = Ok field ∧
           dict_sim field0 field.
Proof.
  intros [Hsim Hparent]. unfold _get_field_from_annot.
  unfold parent_sim in Hparent.
  destruct (dict_get "/Parent" annot0) as [p0|] eqn:E0;
    cbn [default from_option id].
  - destruct p0 as [| | | | | | |f0|]; try done. intros [= <-].
    destruct Hparent as (f & -> & Hf). exists f. by split.
  - intros [= <-]. rewrite <- Hparent.
    exists annot. split; [done|].
    intros k Hv Has. destruct (decide (k = "/Parent")) as [->|Hp].
    + by rewrite E0, <- Hparent.
    + by apply Hsim.
Qed.

Lemma annot_sim_update_self (k : string) (v : pdf_obj) (d0 d : dict) :
  k = "/V" ∨ k = "/AS" →
  annot_sim d0 d → annot_sim d0 (dict_update k v d).
Proof.
  intros Hk [Hsim Hparent]. split.
  - intros k' Hv Has Hp. rewrite dict_get_update_ne; [by apply Hsim|].
    by destruct Hk as [-> | ->].
  - rewrite (dict_get_update_ne k "/Parent"); [done|].
    by destruct Hk as [-> | ->].
Qed.

Lemma annot_sim_update_parent (d0 d f f' : dict) :
  annot_sim d0 d →
  dict_get "/Parent" d = Some (PDict f) →
  dict_sim f f' →
  annot_sim d0 (dict_update "/Parent" (PDict f') d).
Proof.
  intros [Hsim Hparent] Hf Hff'. split.
  - intros k' Hv Has Hp. rewrite dict_get_update_ne; [by apply Hsim|done].
  - rewrite dict_get_update_eq. rewrite Hf in Hparent.
    unfold parent_sim in *.
    destruct (dict_get "/Parent" d0) as [[| | | | | | |f0|]|]; try done.
    destruct Hparent as (f1 & [= <-] & Hf1).
    eexists. split; [done|]. by eapply dict_sim_trans.
Qed.

(** Writing /V into the field of an annotation. *)
Lemma with_field_sim (annot0 annot field : dict) (x : pdf_obj) :
  annot_sim annot0 annot →
  as_dict (_get_field_from_annot annot) = Ok field →
  annot_sim annot0 (with_field annot (dict_update "/V" x field)).
Proof.
  intros Hsim. unfold _get_field_from_annot, with_field.
  destruct (dict_get "/Parent" annot) as [p|] eqn:E;
    cbn [default from_option id].
  - destruct p as [| | | | | | |f|]; try done. intros [= ->].
    apply (annot_sim_update_parent annot0 annot field); [done|done|].
    apply dict_sim_update. by left.
  - intros [= <-]. apply annot_sim_update_self; [by left|done].
Qed.

Lemma store_sim_lookup st0 st (n : nat) (d0 : dict) :
  store_sim st0 st → st0 !! n = Some (PDict d0) →
  ∃ d, st !! n = Some (PDict d) ∧ annot_sim d0 d.
Proof.
  intros Hsim Hn. specialize (Hsim n). rewrite Hn in Hsim.
  destruct Hsim as (o' & Ho' & d & -> & Hd). by exists d.
Qed.

Lemma store_sim_insert st0 st (n : nat) (d0 d' : dict) :
  store_sim st0 st → st0 !! n = Some (PDict d0) → annot_sim d0 d' →
  store_sim st0 (<[n := PDict d']> st).
Proof.
  intros Hsim Hn Hd m. destruct (decide (n = m)) as [<-|Hne].
  - rewrite lookup_insert_eq, Hn. eexists. split; [done|]. by eexists.
  - rewrite lookup_insert_ne by done. apply Hsim.
Qed.

(** An element of /Annots that is a dictionary is an element of an array. *)
Lemma page_items_dict (p : page) (items : list pdf_obj) (j : nat) (x : dict) :
  page_items p = Ok items →
  items !! j = Some (PDict x) →
  annots p = Some (PArr items).
Proof.
  unfold page_items.
  destruct (annots p) as [o|]; [|by intros [= <-]].
  destruct (truthy o) eqn:Ho; [|by intros [= <-]].
  destruct o as [| | | |t|t|l|d|]; try done; cbn [py_iter].
  - intros [= <-] Hj. unfold chars in Hj.
    rewrite list_lookup_fmap in Hj. by destruct (_ !! j).
  - intros [= <-] Hj. unfold chars in Hj.
    rewrite list_lookup_fmap in Hj. by destruct (_ !! j).
  - by intros [= <-].
  - intros [= <-] Hj. rewrite list_lookup_fmap in Hj. by destruct (_ !! j).
Qed.

Lemma item_at_dict (ps : list page) (i j : nat) (x : dict) :
  item_at ps i j = Some (PDict x) →
  ∃ p l, ps !! i = Some p ∧ annots p = Some (PArr l) ∧ l !! j = Some (PDict x).
Proof.
  unfold item_at. destruct (ps !! i) as [p|]; [|done]. cbn.
  destruct (page_items p) as [items|] eqn:E; [|done].
  intros Hj. exists p, items. split; [done|]. split; [|done].
  by eapply page_items_dict.
Qed.

Lemma pages_sim_write (ps0 ps : list page) (i j : nat) (d0 d' : dict) :
  Forall2 page_sim ps0 ps →
  item_at ps0 i j = Some (PDict d0) →
  annot_sim d0 d' →
  Forall2 page_sim ps0 (alter (set_elem j (PDict d')) i ps).
Proof.
  intros Hsim (p0 & l0 & Hp0 & Hl0 & Hj)%item_at_dict Hd.
  apply Forall2_alter_r; [done|].
  intros p0' p Hp0' Hp (Hm & Hc & Ha). simplify_eq.
  unfold set_elem. unfold annots_sim in Ha. rewrite Hl0 in Ha.
  destruct Ha as (l & E & Hl). rewrite E.
  split; [done|]. split; [done|]. cbn [annots]. unfold annots_sim.
  rewrite Hl0. eexists. split; [done|].
  rewrite <- (list_insert_id l0 j (PDict d0)) by done.
  apply Forall2_insert; [done|]. by eexists.
Qed.

(** A page the code finds in the state it expects: its element [j] is
    the dictionary the loop variable holds. *)
Lemma pages_sim_read (ps0 ps : list page) (i j : nat) (d0 : dict) :
  Forall2 page_sim ps0 ps →
  item_at ps0 i j = Some (PDict d0) →
  ∃ o, ps !! i ≫= page_elem j = Some o.
Proof.
  intros Hsim (p0 & l0 & Hp0 & Hl0 & Hj)%item_at_dict.
  destruct (Forall2_lookup_l _ _ _ _ _ Hsim Hp0) as (p & Hp & _ & _ & Ha).
  rewrite Hp. cbn. unfold page_elem. unfold annots_sim in Ha.
  rewrite Hl0 in Ha. destruct Ha as (l & -> & Hl).
  destruct (Forall2_lookup_l _ _ _ _ _ Hl Hj) as (o & Ho & _). by exists o.
Qed.

Lemma wf_ap_on_name (annot : dict) :
  wf_ap annot = true → ∃ on, _checkbox_on_name annot = Ok on.
Proof.
  unfold wf_ap, _checkbox_on_name.
  destruct (dict_get "/AP" annot) as [ap|]; [|by eexists].
  destruct (truthy ap); simpl; [|by eexists].
  destruct ap as [| | | | | | |apd|]; try done.
  destruct (dict_get "/N" apd) as [n|]; [|by eexists].
  destruct (truthy n); simpl; [|by eexists].
  destruct n as [| | | | | | |nd|]; try done. by eexists.
Qed.

Lemma display_to_export_ok st (field : dict) (v : string) :
  ∃ r, _choice_display_to_export st field v = Ok r.
Proof.
  destruct (choice_options_ok st field) as [opts Hopts].
  rewrite (display_to_export_unfold st field opts v Hopts). by eexists.
Qed.

Lemma list_comp_ok {A B} (f : A → result B) (l : list A) :
  (∀ x, ∃ y, f x = Ok y) → ∃ ys, list_comp f l = Ok ys.
Proof.
  intros Hf. induction l as [|x l [ys IH]]; simpl; [by eexists|].
  destruct (Hf x) as [y ->]. simpl. rewrite IH. simpl. by eexists.
Qed.

(** Storing a choice value never raises and only rewrites /V. *)
Lemma set_choice_value_ok st (field : dict) (v : field_value) :
  ∃ x, _set_choice_value st field v = Ok (dict_update "/V" x field).
Proof.
  unfold _set_choice_value.
  assert (Hone : ∀ w, ∃ r, _choice_display_to_export st field w = Ok r)
    by apply display_to_export_ok.
  destruct v as [t|b|l].
  - destruct (Hone (value_str (VStr t))) as [r ->]. simpl. by eexists.
  - destruct (Hone (value_str (VBool b))) as [r ->]. simpl. by eexists.
  - destruct (list_comp_ok
                (λ w, rbind (_choice_display_to_export st field w)
                            (λ e, Ok (PText e))) l) as [ys ->].
    + intros w. destruct (Hone w) as [r ->]. simpl. by eexists.
    + simpl. by eexists.
Qed.

(** The decision for a checkbox whose appearance dictionary is readable
    when its name is usable: no exception, and a decision is taken only
    through a key of the mapping. *)
Lemma checkbox_decision_cases data (annot : dict) (name_str : option string)
    (idx : nat) :
  (str_truthy name_str = true → wf_ap annot = true) →
  checkbox_decision data annot name_str idx = Ok None ∨
  ∃ c, checkbox_decision data annot name_str idx = Ok (Some c) ∧
       str_truthy name_str = true ∧
       (mapped data name_str ∨ occurrence_mapped data name_str).
Proof.
  intros Hap. unfold checkbox_decision, mapped, occurrence_mapped.
  destruct (str_truthy name_str); simpl; [|by left].
  destruct (wf_ap_on_name annot (Hap eq_refl)) as [on Hon]. rewrite Hon.
  destruct (decide (is_Some (data !! occurrence_key (default "" name_str) idx)))
    as [Hkey|Hkey].
  - rewrite bool_decide_eq_true_2 by done. destruct Hkey as [v Hv].
    rewrite Hv. simpl. right. eexists. split; [done|]. split; [done|].
    right. split; [done|]. exists idx. by rewrite Hv.
  - rewrite bool_decide_eq_false_2 by done.
    destruct (data !! default "" name_str) as [[t|b|l]|] eqn:Hd; simpl.
    + by left.
    + right. eexists. split; [done|]. split; [done|]. left. by split.
    + right. eexists. split; [done|]. split; [done|]. left. by split.
    + by left.
Qed.

(** The dictionary the loop variable holds for a well-formed element, and
    the state after it is replaced. *)
Lemma annot_of_element st0 ps0 s (i j : nat) (a : pdf_obj) (annot0 : dict) :
  state_sim st0 ps0 s →
  item_at ps0 i j = Some a →
  get_object st0 a = PDict annot0 →
  ∃ annot,
    annot_at (objs s) a = Ok annot ∧ annot_sim annot0 annot ∧
    is_Some (read (objs s) (pgs s) (place_of i j a)) ∧
    ∀ d', annot_sim annot0 d' →
          state_sim st0 ps0 (write_annot (place_of i j a) d' s).
Proof.
  intros [Hst Hps] Hitem Hobj.
  destruct a as [| | | | | | |d|n]; simplify_eq/=.
  - (* a direct dictionary of the page *)
    exists annot0. split; [done|]. split; [apply annot_sim_refl|].
    split; [by eapply pages_sim_read|].
    intros d' Hd'. split; [done|]. cbn [pgs]. by eapply pages_sim_write.
  - (* a reference into the store *)
    destruct (st0 !! n) as [o|] eqn:Hn; simplify_eq/=.
    destruct (store_sim_lookup st0 (objs s) n annot0 Hst Hn)
      as (annot & Hn' & Hsim).
    exists annot. unfold annot_at. cbn [get_object]. rewrite Hn'.
    split; [done|]. split; [done|]. split; [done|].
    intros d' Hd'. split; [|done]. cbn [objs]. by eapply store_sim_insert.
Qed.

(** One round of the inner loop on a well-formed element: no exception,
    stores and pages change at most in /V and /AS, and only the place of
    the element is written, and only when its widget is addressed. *)
Lemma fill_annot_frame data st0 ps0 s (i j : nat) (a : pdf_obj) :
  state_sim st0 ps0 s →
  item_at ps0 i j = Some a →
  wf_annot st0 a = true →
  ∃ s', fill_annot data i j a s = (s', Ok tt) ∧
        state_sim st0 ps0 s' ∧
        ∀ pl, ¬ (place_of i j a = pl ∧ targets data st0 a) →
              read (objs s') (pgs s') pl = read (objs s) (pgs s) pl.
Proof.
  intros Hsim Hitem Hwf. unfold wf_annot in Hwf.
  destruct (get_object st0 a) as [| | | | | | |annot0|] eqn:Hobj; try done.
  destruct (annot_of_element st0 ps0 s i j a annot0 Hsim Hitem Hobj)
    as (annot & Ha & Hannot & _ & Hwrite).
  assert (Ha0 : annot_at st0 a = Ok annot0) by (unfold annot_at; by rewrite Hobj).
  pose proof (annot_sim_reads annot0 annot Hannot) as (Ew & _ & Eap & _).
  destruct (_is_widget annot0) eqn:Hw0; simpl in Hwf.
  2:{ exists s.
      rewrite (fill_annot_not_widget data s i j a annot Ha) by congruence.
      done. }
  unfold wf_widget in Hwf.
  destruct (_get_field_from_annot annot0) as [| | | | | | |field0|] eqn:Hf0;
    try done.
  assert (Hfield0 : as_dict (_get_field_from_annot annot0) = Ok field0)
    by (by rewrite Hf0).
  destruct (field_sim annot0 annot field0 Hannot Hfield0)
    as (field & Hfield & Hf).
  pose proof (dict_sim_reads field0 field Hf)
    as (_ & Et & Ec & Er & Ech & En & _).
  assert (Hw : _is_widget annot = true) by congruence.
  assert (Htargets : ∀ pl,
            ¬ (place_of i j a = pl ∧ targets data st0 a) →
            (if _is_text field0 then mapped data (name_of field0)
             else if _is_checkbox field0 && negb (_is_radio field0) then
               mapped data (name_of field0)
               ∨ occurrence_mapped data (name_of field0)
             else if _is_choice field0 then mapped data (name_of field0)
             else False) →
            pl ≠ place_of i j a).
  { intros pl Hno Hcase ->. apply Hno. split; [done|]. by exists annot0, field0. }
  destruct (_is_text field0) eqn:Ht0.
  - (* text *)
    rewrite (fill_annot_text data s i j a annot field Ha Hw Hfield)
      by congruence.
    rewrite En.
    destruct (str_truthy (name_of field0)) eqn:Hname;
      [destruct (data !! default "" (name_of field0)) as [v|] eqn:Hv|].
    + eexists. split; [done|]. split.
      * apply Hwrite. by apply with_field_sim.
      * intros pl Hpl. apply read_write_ne. apply (Htargets pl Hpl).
        split; [done|]. by rewrite Hv.
    + by exists s.
    + by exists s.
  - destruct (_is_checkbox field0 && negb (_is_radio field0)) eqn:Hcb0.
    + (* checkbox *)
      rewrite (fill_annot_checkbox data s i j a annot field Ha Hw Hfield)
        by congruence.
      rewrite En.
      assert (Hap : str_truthy (name_of field0) = true → wf_ap annot = true).
      { intros Hname. unfold reads_ap in Hwf.
        rewrite Ht0, Hcb0, Hname in Hwf. simpl in Hwf. congruence. }
      set (counted := mkFillState _ _ _ _).
      assert (Hcounted : state_sim st0 ps0 counted) by done.
      destruct (checkbox_decision_cases data annot (name_of field0)
                  (default 0 (name_counts s !! default "" (name_of field0)) + 1)
                  Hap) as [-> | (c & -> & Hname & Hmapped)].
      * exists counted. by split.
      * destruct (wf_ap_on_name annot (Hap Hname)) as [on Hon].
        unfold _set_checkbox_state. rewrite Hon. cbn [rbind].
        eexists. split; [done|]. split.
        -- destruct (annot_of_element st0 ps0 counted i j a annot0 Hcounted
                       Hitem Hobj) as (annot' & Ha' & _ & _ & Hwrite').
           apply Hwrite'. apply annot_sim_update_self; [by right|done].
        -- intros pl Hpl.
           rewrite (read_write_ne _ pl _ counted); [done|].
           by apply (Htargets pl Hpl).
    + destruct (_is_choice field0) eqn:Hch0.
      * (* choice *)
        rewrite (fill_annot_choice data s i j a annot field Ha Hw Hfield)
          by congruence.
        rewrite En.
        destruct (str_truthy (name_of field0)) eqn:Hname;
          [destruct (data !! default "" (name_of field0)) as [v|] eqn:Hv|].
        -- destruct (set_choice_value_ok (objs s) field v) as [x ->].
           eexists. split; [done|]. split.
           ++ apply Hwrite. by apply with_field_sim.
           ++ intros pl Hpl. apply read_write_ne. apply (Htargets pl Hpl).
              split; [done|]. by rewrite Hv.
        -- by exists s.
        -- by exists s.
      * exists s.
        rewrite (fill_annot_skipped data s i j a annot field Ha Hw Hfield)
          by congruence.
        done.
Qed.

Lemma fill_annots_frame data st0 ps0 (i : nat) (l : list pdf_obj) (j0 : nat) s :
  state_sim st0 ps0 s →
  (∀ j a, l !! j = Some a → item_at ps0 i (j0 + j) = Some a) →
  forallb (wf_annot st0) l = true →
  ∃ s', for_each_from (fill_annot data i) j0 l s = (s', Ok tt) ∧
        state_sim st0 ps0 s' ∧
        ∀ pl, (∀ j a, l !! j = Some a →
                      ¬ (place_of i (j0 + j) a = pl ∧ targets data st0 a)) →
              read (objs s') (pgs s') pl = read (objs s) (pgs s) pl.
Proof.
  revert j0 s. induction l as [|a l IH]; intros j0 s Hsim Hitems Hwf.
  - by exists s.
  - simpl in Hwf. apply andb_true_iff in Hwf as [Ha Hl].
    destruct (fill_annot_frame data st0 ps0 s i j0 a Hsim) as (s1 & E1 & Hsim1 & F1);
      [|done|].
    { specialize (Hitems 0%nat a eq_refl). by rewrite Nat.add_0_r in Hitems. }
    destruct (IH (S j0) s1 Hsim1) as (s2 & E2 & Hsim2 & F2); [|done|].
    { intros j a' Hj. specialize (Hitems (S j) a' Hj).
      by rewrite Nat.add_succ_r in Hitems. }
    exists s2. cbn [for_each_from]. unfold se_bind. rewrite E1, E2.
    split; [done|]. split; [done|].
    intros pl Hpl. rewrite F2, F1; [done| |].
    + specialize (Hpl 0%nat a eq_refl). by rewrite Nat.add_0_r in Hpl.
    + intros j a' Hj. specialize (Hpl (S j) a' Hj).
      by rewrite Nat.add_succ_r in Hpl.
Qed.

Lemma fill_page_frame data st0 ps0 (i : nat) (p : page) s :
  state_sim st0 ps0 s →
  ps0 !! i = Some p →
  wf_page st0 p = true →
  ∃ s', fill_page data i p s = (s', Ok tt) ∧
        state_sim st0 ps0 s' ∧
        ∀ pl, (∀ j a, item_at ps0 i j = Some a →
                      ¬ (place_of i j a = pl ∧ targets data st0 a)) →
              read (objs s') (pgs s') pl = read (objs s) (pgs s) pl.
Proof.
  intros Hsim Hp Hwf. unfold wf_page in Hwf. unfold fill_page, se_bind, se_lift.
  destruct (page_items p) as [items|] eqn:Hitems; [|done].
  assert (Hat : ∀ j a, items !! j = Some a → item_at ps0 i (0 + j) = Some a).
  { intros j a Hj. unfold item_at. rewrite Hp. cbn. by rewrite Hitems. }
  destruct (fill_annots_frame data st0 ps0 i items 0 s Hsim Hat Hwf)
    as (s' & E & Hsim' & F).
  exists s'. split; [done|]. split; [done|].
  intros pl Hpl. apply F. intros j a Hj. apply Hpl. by apply Hat.
Qed.

Lemma fill_pages_frame data st0 ps0 (ps : list page) (i0 : nat) s :
  state_sim st0 ps0 s →
  (∀ i p, ps !! i = Some p → ps0 !! (i0 + i)%nat = Some p) →
  forallb (wf_page st0) ps = true →
  ∃ s', for_each_from (fill_page data) i0 ps s = (s', Ok tt) ∧
        state_sim st0 ps0 s' ∧
        ∀ pl, (∀ i j a, (i0 ≤ i)%nat → item_at ps0 i j = Some a →
                        ¬ (place_of i j a = pl ∧ targets data st0 a)) →
              read (objs s') (pgs s') pl = read (objs s) (pgs s) pl.
Proof.
  revert i0 s. induction ps as [|p ps IH]; intros i0 s Hsim Hpages Hwf.
  - by exists s.
  - simpl in Hwf. apply andb_true_iff in Hwf as [Hp Hps].
    destruct (fill_page_frame data st0 ps0 i0 p s Hsim) as (s1 & E1 & Hsim1 & F1);
      [|done|].
    { specialize (Hpages 0%nat p eq_refl). by rewrite Nat.add_0_r in Hpages. }
    destruct (IH (S i0) s1 Hsim1) as (s2 & E2 & Hsim2 & F2); [|done|].
    { intros i p' Hi. specialize (Hpages (S i) p' Hi).
      by rewrite Nat.add_succ_r in Hpages. }
    exists s2. cbn [for_each_from]. unfold se_bind. rewrite E1, E2.
    split; [done|]. split; [done|].
    intros pl Hpl. rewrite F2, F1; [done| |].
    + intros j a. by apply Hpl.
    + intros i j a Hi. apply Hpl. lia.
Qed.

(** C8, amended: on a document the code can traverse (every /Annots
    entry is absent, empty or an array whose elements lead to
    dictionaries, the field of every widget is the widget itself or a
    direct /Parent dictionary, the widget of every named checkbox has a
    readable /AP, and /AcroForm is absent or a direct dictionary)
    [fill_pdf_fields] raises no exception, whatever the mapping.  It sets
    /NeedAppearances in the form dictionary and nothing else there, and
    changes no dictionary of the store or of a page except the widgets the
    mapping addresses: a text or choice widget whose field name is a key,
    and a checkbox widget whose field name, or one of whose occurrence
    keys [name__k], is a key.  What it does change differs from the
    original at most in /V and /AS, of the widget or of its direct
    /Parent. *)
Theorem fill_never_raises_and_frames (d : document) data :
  wf_document d = true →
  ∃ d',
    fill_pdf_fields d data = (d', Ok tt) ∧
    doc_sim d d' ∧
    (∀ pl, ¬ addressed data d pl →
           read (objects d') (pages d') pl = read (objects d) (pages d) pl) ∧
    match acroform d with
    | None => acroform d' = None
    | Some acro =>
        ∃ f f', acro = PDict f ∧ acroform d' = Some (PDict f') ∧
                dict_get "/NeedAppearances" f' = Some (PBool true) ∧
                ∀ k, k ≠ "/NeedAppearances" → dict_get k f' = dict_get k f
    end.
Proof.
  intros Hwf. unfold wf_document in Hwf.
  apply andb_true_iff in Hwf as [Hpages Hacro].
  destruct (fill_pages_frame data (objects d) (pages d) (pages d) 0
              (mkFillState (objects d) (pages d) ∅ []))
    as (s' & E & [Hst Hps] & F); [|done|done|].
  { split; [apply store_sim_refl | apply pages_sim_refl]. }
  unfold fill_pdf_fields, fill_run, fill_pages. rewrite E.
  unfold wf_acroform in Hacro.
  destruct (acroform d) as [[| | | | | | |f|]|] eqn:Ea; try done;
    cbn [need_appearances]; eexists; (split; [done|]);
    (split; [by split|]); cbn [objects pages acroform];
    (split; [intros pl Hpl; apply F; intros i j a _ Hitem [Hplace Ht];
             apply Hpl; by exists i, j, a|]).
  - exists f. eexists. split; [done|]. split; [done|].
    split; [apply dict_get_update_eq|].
    intros k Hk. by apply dict_get_update_ne.
  - done.
Qed.

End Frame.

(** C8 as stated fails for a checkbox submitted under its occurrence key:
    the name "Agree" is no key of the mapping, and the widget, which had
    no /AS, has /AS "/On" after the call. *)
Lemma unmapped_name_counterexample :
  wf_document (host := plain_host) doc_form = true ∧
  name_of (host := plain_host) annot_agree = Some "Agree" ∧
  ({["Agree__1" := VBool true]} : gmap string field_value) !! "Agree" = None ∧
  objects doc_form !! 7%nat = Some (PDict annot_agree) ∧
  dict_get "/AS" annot_agree = None ∧
  ∃ d' annot',
    fill_pdf_fields (host := plain_host) doc_form {["Agree__1" := VBool true]}
      = (d', Ok tt) ∧
    objects d' !! 7%nat = Some (PDict annot') ∧
    dict_get "/AS" annot' = Some (PName "/On").
Proof.
  repeat split; try by vm_compute.
  eexists _, _. split; [by vm_compute|]. split; by vm_compute.
Qed.

(** The usual layout of a field with several widgets, which name the field
    by reference: each traversal stops at the first widget. *)
Lemma indirect_parent_raises :
  wf_document (host := plain_host) doc_shared_field = false ∧
  fill_pdf_fields (host := plain_host) doc_shared_field {["Name" := VStr "Ada"]}
    = (doc_shared_field, Raise AttributeError) ∧
  (_load_fields (host := plain_host) doc_shared_field).2 = Raise AttributeError ∧
  flatten_to_visible (host := plain_host) doc_shared_field []
    = Raise AttributeError.
Proof. repeat split; by vm_compute. Qed.

Lemma fill_never_raises_and_frames_witness :
  wf_document (host := plain_host) doc_form = true ∧
  (∃ d',
     fill_pdf_fields (host := plain_host) doc_form
       {["Name" := VStr "Ada"; "City" := VStr "Turin"]} = (d', Ok tt) ∧
     doc_sim doc_form d' ∧
     (∀ pl, ¬ addressed (host := plain_host)
                {["Name" := VStr "Ada"; "City" := VStr "Turin"]} doc_form pl →
            read (objects d') (pages d') pl
              = read (objects doc_form) (pages doc_form) pl) ∧
     ∃ f f', PDict [] = PDict f ∧ acroform d' = Some (PDict f') ∧
             dict_get "/NeedAppearances" f' = Some (PBool true) ∧
             ∀ k, k ≠ "/NeedAppearances" → dict_get k f' = dict_get k f) ∧
  fill_pdf_fields (host := plain_host) doc_form
      {["Name" := VStr "Ada"; "City" := VStr "Turin"]} =
    (mkDocument
       {[7%nat := PDict annot_agree;
         21%nat := PDict
           [("/Subtype", PName "/Widget"); ("/FT", PName "/Tx");
            ("/T", PText "Name");
            ("/Rect", PArr [PInt 10; PInt 100; PInt 90; PInt 120]);
            ("/V", PText "Ada")]]}
       [mkPage (612, 792)%float
          (Some (PArr
             [PRef 7; PRef 21;
              PDict
                [("/Subtype", PName "/Widget");
                 ("/Parent",
                  PDict [("/FT", PName "/Tx"); ("/T", PText "City");
                         ("/V", PText "Turin")]);
                 ("/Rect", PArr [PInt 200; PInt 100; PInt 280; PInt 120])]]))
          []]
       (Some (PDict [("/NeedAppearances", PBool true)])),
     Ok tt).
Proof.
  split; [by vm_compute|]. split; [|by vm_compute].
  apply (fill_never_raises_and_frames (host := plain_host) doc_form
           {["Name" := VStr "Ada"; "City" := VStr "Turin"]}).
  by vm_compute.
Defined.

(** * The occurrence counters *)

Section Counters.
Context {host : PyHost}.
Implicit Types (data : gmap string field_value) (s : fill_state).

(** A round of the inner loop leaves the counters and the log alone, or
    counts one more checkbox for one key. *)
Lemma fill_annot_counts data (i j : nat) (a : pdf_obj) s s' (r : result unit) :
  fill_annot data i j a s = (s', r) →
  (name_counts s' = name_counts s ∧ idx_log s' = idx_log s) ∨
  ∃ key,
    name_counts s' =
      <[key := (default 0 (name_counts s !! key) + 1)%nat]> (name_counts s) ∧
    idx_log s' =
      (idx_log s ++ [(i, j, key, (default 0 (name_counts s !! key) + 1)%nat)])%list.
Proof.
  unfold fill_annot, se_bind, se_get, se_lift, se_ret, set_annot, se_modify,
    next_index, write_annot.
  intros H. repeat case_match; simplify_eq; simpl; eauto.
Qed.

Lemma occurrences_snoc (key : string) (log : list (nat * nat * string * nat))
    (e : nat * nat * string * nat) :
  occurrences key (log ++ [e]) =
    (occurrences key log + (if decide (e.1.2 = key) then 1 else 0))%nat.
Proof.
  unfold occurrences. rewrite filter_app, length_app. f_equal.
  rewrite filter_cons, filter_nil. by destruct (decide _).
Qed.

Lemma counts_consistent_count s (pos : nat * nat) (key : string) :
  counts_consistent s →
  counts_consistent
    (mkFillState (objs s) (pgs s)
       (<[key := (default 0 (name_counts s !! key) + 1)%nat]> (name_counts s))
       (idx_log s ++ [(pos, key, (default 0 (name_counts s !! key) + 1)%nat)])).
Proof.
  intros [Hcount Hlog]. split; cbn [name_counts idx_log].
  - intros k. rewrite occurrences_snoc. cbn [fst snd].
    destruct (decide (key = k)) as [<-|Hne].
    + rewrite lookup_insert_eq. simpl. by rewrite Hcount.
    + rewrite lookup_insert_ne by done. rewrite Hcount. lia.
  - intros pre e post Heq.
    destruct post as [|e' post _] using rev_ind.
    + apply app_inj_tail in Heq as [<- <-]. cbn [fst snd].
      rewrite Hcount. lia.
    + rewrite app_comm_cons, app_assoc in Heq.
      apply app_inj_tail in Heq as [Heq _]. by eapply Hlog.
Qed.

Lemma fill_annot_consistent data (i j : nat) (a : pdf_obj) s s'
    (r : result unit) :
  counts_consistent s → fill_annot data i j a s = (s', r) →
  counts_consistent s'.
Proof.
  intros Hs Hstep.
  destruct (fill_annot_counts data i j a s s' r Hstep)
    as [[Ec El]|(key & Ec & El)].
  - destruct Hs as [Hcount Hlog]. split; rewrite ?Ec, El; done.
  - destruct (counts_consistent_count s (i, j) key Hs) as [Hcount Hlog].
    cbn [name_counts idx_log] in *. split; rewrite ?Ec, El; done.
Qed.

Lemma for_each_from_invariant {T A} (P : T → Prop) (body : nat → A → SE T unit)
    (l : list A) (start : nat) (s s' : T) (r : result unit) :
  (∀ n x t t' r', P t → body n x t = (t', r') → P t') →
  P s → for_each_from body start l s = (s', r) → P s'.
Proof.
  intros Hbody. revert start s. induction l as [|x l IH]; intros start s Hs; simpl.
  - by intros [= <- _].
  - unfold se_bind. destruct (body start x s) as [s1 [u|e]] eqn:E.
    + apply IH. by eapply Hbody.
    + intros [= <- _]. by eapply Hbody.
Qed.

(** Throughout the value applier, whether it ends normally or raises,
    the count stored for a name is the number of checkboxes of that name
    processed so far, and the index of each checkbox is its 1-based
    position among the checkboxes of its name in traversal order. *)
Lemma fill_run_consistent data (d : document) :
  counts_consistent (fill_run data d).1.
Proof.
  unfold fill_run, fill_pages.
  destruct (for_each_from _ _ _ _) as [s' r] eqn:E. simpl.
  eapply (for_each_from_invariant counts_consistent); [| |exact E].
  - intros i p t t' r' Ht. unfold fill_page, se_bind, se_lift.
    destruct (page_items p) as [items|e]; [|by intros [= <- _]].
    apply for_each_from_invariant; [|done].
    intros j a u u' r'' Hu. by apply fill_annot_consistent.
  - split; [done|]. intros pre e post Heq. by destruct pre.
Qed.

Lemma occurrences_app (key : string)
    (l1 l2 : list (nat * nat * string * nat)) :
  occurrences key (l1 ++ l2) = (occurrences key l1 + occurrences key l2)%nat.
Proof. unfold occurrences. by rewrite filter_app, length_app. Qed.

Lemma occurrences_cons_same (e : nat * nat * string * nat)
    (l : list (nat * nat * string * nat)) :
  occurrences e.1.2 (e :: l) = S (occurrences e.1.2 l).
Proof. unfold occurrences. rewrite filter_cons. by rewrite decide_True. Qed.

Lemma positions_distinct (log : list (nat * nat * string * nat)) :
  (∀ pre e post, log = (pre ++ e :: post)%list →
                 e.2 = S (occurrences e.1.2 pre)) →
  NoDup ((λ e, (e.1.2, e.2)) <$> log) ∧ Forall (λ e, (1 ≤ e.2)%nat) log.
Proof.
  induction log as [|e log IH] using rev_ind; intros Hpos.
  - split; constructor.
  - destruct IH as [IHnd IHpos].
    { intros pre e' post ->. apply (Hpos pre e' (post ++ [e])%list).
      by rewrite <- app_assoc. }
    split.
    + rewrite fmap_app. apply NoDup_app. split; [done|]. split.
      * intros x (e' & -> & (pre & post & ->)%list_elem_of_split)%list_elem_of_fmap.
        intros [= Hkey Hidx]%list_elem_of_singleton.
        pose proof (Hpos pre e' (post ++ [e])%list) as H1.
        rewrite <- app_assoc in H1. specialize (H1 eq_refl).
        pose proof (Hpos (pre ++ e' :: post)%list e [] eq_refl) as H2.
        rewrite <- Hkey, occurrences_app, occurrences_cons_same in H2. lia.
      * apply NoDup_singleton.
    + apply Forall_app. split; [done|]. constructor; [|done].
      rewrite (Hpos log e [] eq_refl). lia.
Qed.

(** Whatever the document and the mapping, and whether the value
    applier ends normally or raises: no two checkboxes it meets are given
    the same counter key and index, and the indices start at 1.  Each
    occurrence of a checkbox name is thus addressed by a key [name__idx]
    of its own. *)
Theorem fill_occurrences_distinct data (d : document) :
  NoDup ((λ e, (e.1.2, e.2)) <$> idx_log (fill_run data d).1) ∧
  Forall (λ e, (1 ≤ e.2)%nat) (idx_log (fill_run data d).1).
Proof.
  apply positions_distinct. apply (fill_run_consistent data d).
Qed.

End Counters.

(** * Agreement of the GUI and the value applier on checkbox indices *)

Section Agreement.
Context {host : PyHost}.
Implicit Types (data : gmap string field_value) (s : fill_state)
  (g : gui_state) (st : store) (P : option string → bool).

Lemma gui_name_of_default (field : dict) :
  gui_name_of field = default "(unnamed)" (name_of field).
Proof.
  unfold gui_name_of, name_of.
  destruct (dict_get "/T" field) as [name|]; [|done]. by destruct (truthy name).
Qed.

Lemma is_plain_separates : separates is_plain.
Proof.
  intros x y Hx Hy Hne. unfold is_plain in *.
  apply andb_true_iff in Hx as [Hx1 Hx2], Hy as [Hy1 Hy2].
  apply negb_true_iff, bool_decide_eq_false in Hx1, Hx2, Hy1, Hy2.
  destruct x as [n|], y as [m|]; simpl; split; congruence.
Qed.

Lemma str_truthy_separates : separates str_truthy.
Proof.
  intros x y Hx Hy Hne.
  destruct x as [n|], y as [m|]; simpl in *; try done. split; congruence.
Qed.

(** The GUI's round of the inner loop on a widget. *)
Lemma load_annot_widget st0 g (i j : nat) (a : pdf_obj) (annot0 field0 : dict) :
  annot_at st0 a = Ok annot0 →
  _is_widget annot0 = true →
  as_dict (_get_field_from_annot annot0) = Ok field0 →
  if _is_text field0 then
    load_annot st0 i j a g =
      (mkGuiState (gui_counts g)
         (widgets g ++ [(i, j, WText (gui_name_of field0))]), Ok tt)
  else if _is_checkbox field0 then
    let idx := (default 0 (gui_counts g !! gui_name_of field0) + 1)%nat in
    load_annot st0 i j a g =
      (mkGuiState (<[gui_name_of field0 := idx]> (gui_counts g))
         (widgets g ++ [(i, j, WCheckbox (gui_name_of field0) idx)]), Ok tt)
  else if _is_choice field0 then
    ∃ w, gui_index_of (i, j, w) = None ∧ gui_key_of (i, j, w) = None ∧
         load_annot st0 i j a g =
           (mkGuiState (gui_counts g) (widgets g ++ [(i, j, w)]), Ok tt)
  else load_annot st0 i j a g = (g, Ok tt).
Proof.
  intros Ha Hw Hfl.
  unfold load_annot, se_bind, se_lift, gui_append, gui_next_index,
    se_modify, se_ret.
  rewrite Ha, Hw. cbn [negb]. rewrite Hfl.
  destruct (_is_text field0); [done|].
  destruct (_is_checkbox field0); [done|].
  destruct (_is_choice field0); [|done].
  destruct (choice_options_ok st0 field0) as [opts ->].
  destruct opts as [|o opts];
    [eexists; (split; [|split; [|reflexivity]]); done|].
  destruct (_choice_is_multiselect field0);
    eexists; (split; [|split; [|reflexivity]]); done.
Qed.

Lemma write_annot_name_counts (pl : place) (d : dict) s :
  name_counts (write_annot pl d s) = name_counts s.
Proof. by destruct pl. Qed.

Lemma write_annot_idx_log (pl : place) (d : dict) s :
  idx_log (write_annot pl d s) = idx_log s.
Proof. by destruct pl. Qed.

(** What one round of the value applier does to the counters and the
    log. *)
Lemma fill_annot_log data s (i j : nat) (a : pdf_obj) (annot field : dict) s'
    (r : result unit) :
  annot_at (objs s) a = Ok annot →
  _is_widget annot = true →
  as_dict (_get_field_from_annot annot) = Ok field →
  fill_annot data i j a s = (s', r) →
  if negb (_is_text field) && (_is_checkbox field && negb (_is_radio field))
  then
    let ns := default "" (name_of field) in
    let idx := (default 0 (name_counts s !! ns) + 1)%nat in
    name_counts s' = <[ns := idx]> (name_counts s) ∧
    idx_log s' = (idx_log s ++ [(i, j, ns, idx)])%list
  else name_counts s' = name_counts s ∧ idx_log s' = idx_log s.
Proof.
  intros Ha Hw Hfield.
  destruct (_is_text field) eqn:Ht; cbn [negb andb].
  { rewrite (fill_annot_text data s i j a annot field Ha Hw Hfield Ht).
    destruct (if str_truthy _ then _ else _); intros; simplify_eq;
      by rewrite ?write_annot_name_counts, ?write_annot_idx_log. }
  destruct (_is_checkbox field && negb (_is_radio field)) eqn:Hcb.
  { rewrite (fill_annot_checkbox data s i j a annot field Ha Hw Hfield Ht Hcb).
    destruct (checkbox_decision _ _ _ _) as [[c|]|e];
      [destruct (_set_checkbox_state annot c)| |];
      intros; simplify_eq;
      by rewrite ?write_annot_name_counts, ?write_annot_idx_log. }
  destruct (_is_choice field) eqn:Hch.
  - rewrite (fill_annot_choice data s i j a annot field Ha Hw Hfield Ht Hcb Hch).
    destruct (if str_truthy _ then _ else _);
      [destruct (_set_choice_value _ _ _)|];
      intros; simplify_eq;
      by rewrite ?write_annot_name_counts, ?write_annot_idx_log.
  - rewrite (fill_annot_skipped data s i j a annot field Ha Hw Hfield Ht Hcb Hch).
    intros; by simplify_eq.
Qed.

(** One round of both inner loops keeps the traversals in step, provided
    a checkbox met is no radio button and has a name [P] allows. *)
Lemma rounds_in_step P data st0 ps0 g s (i j : nat) (a : pdf_obj) :
  separates P →
  in_step P st0 ps0 g s →
  item_at ps0 i j = Some a →
  wf_annot st0 a = true →
  alike P st0 a = true →
  ∃ g' s', load_annot st0 i j a g = (g', Ok tt) ∧
           fill_annot data i j a s = (s', Ok tt) ∧
           in_step P st0 ps0 g' s'.
Proof.
  intros Hsep (Hsim & Hlog & Hkeys & Hcounts) Hitem Hwf Halike.
  destruct (fill_annot_frame data st0 ps0 s i j a Hsim Hitem Hwf)
    as (s' & Efill & Hsim' & _).
  unfold wf_annot in Hwf. unfold alike in Halike.
  destruct (get_object st0 a) as [| | | | | | |annot0|] eqn:Hobj; try done.
  destruct (annot_of_element st0 ps0 s i j a annot0 Hsim Hitem Hobj)
    as (annot & Ha & Hannot & _ & _).
  assert (Ha0 : annot_at st0 a = Ok annot0) by (unfold annot_at; by rewrite Hobj).
  pose proof (annot_sim_reads annot0 annot Hannot) as (Ew & _).
  destruct (_is_widget annot0) eqn:Hw0; simpl in Hwf.
  2:{ exists g, s'. split.
      { unfold load_annot, se_bind, se_lift. by rewrite Ha0, Hw0. }
      split; [done|].
      rewrite (fill_annot_not_widget data s i j a annot Ha) in Efill
        by congruence.
      by simplify_eq. }
  unfold wf_widget in Hwf.
  destruct (_get_field_from_annot annot0) as [| | | | | | |field0|] eqn:Hf0;
    try done.
  assert (Hfield0 : as_dict (_get_field_from_annot annot0) = Ok field0)
    by (by rewrite Hf0).
  destruct (field_sim annot0 annot field0 Hannot Hfield0)
    as (field & Hfield & Hf).
  pose proof (dict_sim_reads field0 field Hf)
    as (_ & Et & Ec & Er & Ech & En & _).
  assert (Hw : _is_widget annot = true) by congruence.
  pose proof (load_annot_widget st0 g i j a annot0 field0 Ha0 Hw0 Hfield0)
    as Eload.
  pose proof (fill_annot_log data s i j a annot field s' (Ok tt) Ha Hw Hfield
                Efill) as Elog.
  rewrite Et, Ec, Er, En in Elog.
  destruct (_is_text field0) eqn:Ht0; cbn [negb andb] in Elog, Halike.
  - (* text: neither traversal counts *)
    destruct Elog as [Ec' El'].
    eexists _, s'. split; [exact Eload|]. split; [done|].
    split; [done|]. cbn [widgets gui_counts]. rewrite Ec', El'.
    rewrite !omap_app. simpl. rewrite !app_nil_r. done.
  - destruct (_is_checkbox field0) eqn:Hc0; cbn [andb] in Elog, Halike.
    + (* checkbox: both count under corresponding keys *)
      apply andb_true_iff in Halike as [Hr0 Hname].
      apply negb_true_iff in Hr0. rewrite Hr0 in Elog. cbn [negb] in Elog.
      destruct Elog as [Ec' El'].
      eexists _, s'. split; [exact Eload|]. split; [done|].
      split; [done|]. cbn [widgets gui_counts]. rewrite Ec', El'.
      rewrite gui_name_of_default, (Hcounts _ Hname). split; [|split].
      * rewrite omap_app, fmap_app, Hlog. done.
      * intros Husable. rewrite !omap_app, (Hkeys Husable). f_equal.
        specialize (Husable _ Hname).
        destruct (name_of field0) as [N|]; [|done]. simpl in Husable.
        unfold fill_key_of, gui_key_of. simpl.
        apply negb_true_iff in Husable. by rewrite Husable.
      * intros y Hy. destruct (decide (name_of field0 = y)) as [<-|Hne].
        -- by rewrite !lookup_insert_eq.
        -- destruct (Hsep _ _ Hname Hy Hne) as [Hg Hf'].
           rewrite !lookup_insert_ne by done. by apply Hcounts.
    + (* neither text nor checkbox: neither traversal counts *)
      destruct Elog as [Ec' El'].
      destruct (_is_choice field0).
      * destruct Eload as (w & Hw' & Hk' & Eload).
        eexists _, s'. split; [exact Eload|]. split; [done|].
        split; [done|]. cbn [widgets gui_counts]. rewrite Ec', El'.
        rewrite !omap_app. simpl. rewrite Hw', Hk', !app_nil_r. done.
      * exists g, s'. split; [done|]. split; [done|].
        split; [done|]. by rewrite Ec', El'.
Qed.

Lemma annots_in_step P data st0 ps0 (i : nat) (l : list pdf_obj) (j0 : nat) g s :
  separates P →
  in_step P st0 ps0 g s →
  (∀ j a, l !! j = Some a → item_at ps0 i (j0 + j) = Some a) →
  forallb (wf_annot st0) l = true →
  forallb (alike P st0) l = true →
  ∃ g' s', for_each_from (load_annot st0 i) j0 l g = (g', Ok tt) ∧
           for_each_from (fill_annot data i) j0 l s = (s', Ok tt) ∧
           in_step P st0 ps0 g' s'.
Proof.
  intros Hsep. revert j0 g s.
  induction l as [|a l IH]; intros j0 g s Hstep Hitems Hwf Halike.
  - by exists g, s.
  - simpl in Hwf, Halike.
    apply andb_true_iff in Hwf as [Ha Hl], Halike as [Ka Kl].
    destruct (rounds_in_step P data st0 ps0 g s i j0 a Hsep Hstep)
      as (g1 & s1 & E1 & F1 & H1); [|done|done|].
    { specialize (Hitems 0%nat a eq_refl). by rewrite Nat.add_0_r in Hitems. }
    destruct (IH (S j0) g1 s1 H1) as (g2 & s2 & E2 & F2 & H2); [|done|done|].
    { intros j a' Hj. specialize (Hitems (S j) a' Hj).
      by rewrite Nat.add_succ_r in Hitems. }
    exists g2, s2. cbn [for_each_from]. unfold se_bind.
    by rewrite E1, F1, E2, F2.
Qed.

Lemma pages_in_step P data st0 ps0 (ps : list page) (i0 : nat) g s :
  separates P →
  in_step P st0 ps0 g s →
  (∀ i p, ps !! i = Some p → ps0 !! (i0 + i)%nat = Some p) →
  forallb (wf_page st0) ps = true →
  forallb (λ p, match page_items p with
                | Ok items => forallb (alike P st0) items
                | Raise _ => true
                end) ps = true →
  ∃ g' s',
    for_each_from (load_page st0) i0 ps g = (g', Ok tt) ∧
    for_each_from (fill_page data) i0 ps s = (s', Ok tt) ∧
    in_step P st0 ps0 g' s'.
Proof.
  intros Hsep. revert i0 g s.
  induction ps as [|p ps IH]; intros i0 g s Hstep Hpages Hwf Halike.
  - by exists g, s.
  - simpl in Hwf, Halike.
    apply andb_true_iff in Hwf as [Hp Hps], Halike as [Kp Kps].
    unfold wf_page in Hp.
    destruct (page_items p) as [items|] eqn:Hitems; [|done].
    assert (Hp0 : ps0 !! i0 = Some p).
    { specialize (Hpages 0%nat p eq_refl). by rewrite Nat.add_0_r in Hpages. }
    destruct (annots_in_step P data st0 ps0 i0 items 0 g s Hsep Hstep)
      as (g1 & s1 & E1 & F1 & H1); [|done|done|].
    { intros j a Hj. unfold item_at. rewrite Hp0. cbn. by rewrite Hitems. }
    destruct (IH (S i0) g1 s1 H1) as (g2 & s2 & E2 & F2 & H2); [|done|done|].
    { intros i p' Hi. specialize (Hpages (S i) p' Hi).
      by rewrite Nat.add_succ_r in Hpages. }
    exists g2, s2. cbn [for_each_from].
    unfold load_page, fill_page, se_bind, se_lift. rewrite Hitems.
    unfold load_page, fill_page, se_bind, se_lift in E2, F2.
    by rewrite E1, F1, E2, F2.
Qed.

Lemma document_in_step P data (d : document) :
  separates P →
  wf_document d = true →
  all_alike P d = true →
  ∃ g' s', _load_fields d = (g', Ok tt) ∧ fill_run data d = (s', Ok tt) ∧
           in_step P (objects d) (pages d) g' s'.
Proof.
  intros Hsep Hwf Halike. unfold wf_document in Hwf.
  apply andb_true_iff in Hwf as [Hwf _].
  apply (pages_in_step P data (objects d) (pages d) (pages d) 0
           (mkGuiState ∅ []) (mkFillState (objects d) (pages d) ∅ []));
    try done.
  split; [split; [apply store_sim_refl|apply pages_sim_refl]|].
  split; [done|]. split; [done|]. by intros x _.
Qed.

(** On a well-formed document in which no checkbox is a radio button and
    no checkbox is named "" or "(unnamed)", the GUI and the value applier
    give the same index to the same widget, whatever the mapping.  (This
    is the statement of C1 with the two causes of divergence excluded.) *)
Lemma indices_agree_without_radio (d : document) data :
  wf_document d = true →
  counted_alike d = true →
  gui_indices d = fill_indices d data.
Proof.
  intros Hwf Halike.
  destruct (document_in_step is_plain data d is_plain_separates Hwf Halike)
    as (g' & s' & E & F & _ & H & _).
  unfold gui_indices, fill_indices. by rewrite E, F.
Qed.

(** On a well-formed document in which every checkbox is no radio button
    and has a usable name, loading the fields in the GUI raises nothing,
    the value applier raises nothing, and for every checkbox widget the key
    [name__idx] the GUI shows and submits is the occurrence key the value
    applier looks up for that widget, whatever the mapping. *)
Theorem gui_and_filler_agree (d : document) data :
  wf_document d = true →
  gui_safe d = true →
  (_load_fields d).2 = Ok tt ∧
  (fill_run data d).2 = Ok tt ∧
  gui_indices d = fill_indices d data ∧
  gui_keys d = fill_keys d data.
Proof.
  intros Hwf Hsafe.
  destruct (document_in_step str_truthy data d str_truthy_separates Hwf Hsafe)
    as (g' & s' & E & F & _ & Hidx & Hkeys & _).
  unfold gui_indices, fill_indices, gui_keys, fill_keys. rewrite E, F.
  split; [done|]. split; [done|]. split; [done|]. by apply Hkeys.
Qed.

End Agreement.

(** The form [doc_form], whose only checkbox is "Agree". *)
Lemma gui_and_filler_agree_witness :
  ((_load_fields (host := plain_host) doc_form).2 = Ok tt ∧
   (fill_run (host := plain_host) {["Agree__1" := VBool true]} doc_form).2
     = Ok tt ∧
   gui_indices (host := plain_host) doc_form =
     fill_indices (host := plain_host) doc_form {["Agree__1" := VBool true]} ∧
   gui_keys (host := plain_host) doc_form =
     fill_keys (host := plain_host) doc_form {["Agree__1" := VBool true]}) ∧
  gui_keys (host := plain_host) doc_form = [(0%nat, 0%nat, "Agree__1")].
Proof.
  split; [|by vm_compute].
  exact (gui_and_filler_agree (host := plain_host) doc_form
           {["Agree__1" := VBool true]} eq_refl eq_refl).
Defined.

(** A checkbox without a name: the two traversals give it the same index,
    but the GUI submits its value under "(unnamed)__1" and the value
    applier looks up no key for it, so the value is not applied. *)
Lemma nameless_checkbox_keys :
  counted_alike (host := plain_host) doc_nameless = true ∧
  gui_safe (host := plain_host) doc_nameless = false ∧
  gui_indices (host := plain_host) doc_nameless = [(0, 0, 1)]%nat ∧
  fill_indices (host := plain_host) doc_nameless
    {["(unnamed)__1" := VBool true]} = [(0, 0, 1)]%nat ∧
  gui_keys (host := plain_host) doc_nameless = [(0%nat, 0%nat, "(unnamed)__1")] ∧
  fill_keys (host := plain_host) doc_nameless
    {["(unnamed)__1" := VBool true]} = [] ∧
  fill_pdf_fields (host := plain_host) doc_nameless
    {["(unnamed)__1" := VBool true]} = (doc_nameless, Ok tt).
Proof. repeat split; by vm_compute. Qed.

(** * Further properties of the choice resolution *)

Section Resolution.
Context {host : PyHost}.

Lemma displays_of_lookup_elem (opts : options) (v ex : string) :
  displays_of opts !! v = Some ex → (ex, v) ∈ opts.
Proof.
  intros (pre & post & -> & _)%displays_of_lookup_Some.
  rewrite elem_of_app. right. apply list_elem_of_here.
Qed.

(** Resolving a value that was already resolved changes nothing: what
    [_choice_display_to_export] returns is a fixed point of it. *)
Theorem display_to_export_idempotent (st : store) (field : dict) (v : string) :
  rbind (_choice_display_to_export st field v)
        (_choice_display_to_export st field)
  = _choice_display_to_export st field v.
Proof.
  destruct (choice_options_ok st field) as [opts Hopts].
  rewrite (display_to_export_unfold st field opts v Hopts). cbn [rbind].
  rewrite (display_to_export_unfold st field opts _ Hopts).
  destruct (decide (v ∈ opts.*1)) as [Hin|Hnin].
  - rewrite (bool_decide_eq_true_2 _ Hin). by rewrite (bool_decide_eq_true_2 _ Hin).
  - rewrite (bool_decide_eq_false_2 _ Hnin).
    destruct (displays_of opts !! v) as [ex|] eqn:Hlk; cbn [default from_option id].
    + assert (Hex : ex ∈ opts.*1).
      { apply list_elem_of_fmap. exists (ex, v). split; [done|].
        by apply displays_of_lookup_elem. }
      by rewrite (bool_decide_eq_true_2 _ Hex).
    + rewrite (bool_decide_eq_false_2 _ Hnin). by rewrite Hlk.
Qed.

Lemma first_display_NoDup (opts : options) (ex disp : string) :
  NoDup (opts.*1) → (ex, disp) ∈ opts → first_display opts ex = Some disp.
Proof.
  induction opts as [|[e d] opts IH]; simpl; intros Hnd Hin.
  - by apply elem_of_nil in Hin.
  - apply NoDup_cons in Hnd as [Hnotin Hnd].
    apply elem_of_cons in Hin as [[= <- <-]|Hin].
    + by rewrite String.eqb_refl.
    + destruct (String.eqb e ex) eqn:E; [|by apply IH].
      apply String.eqb_eq in E as ->. exfalso. apply Hnotin.
      apply list_elem_of_fmap. by exists (ex, disp).
Qed.

Lemma displays_of_NoDup (opts : options) (ex disp : string) :
  NoDup (opts.*2) → (ex, disp) ∈ opts → displays_of opts !! disp = Some ex.
Proof.
  intros Hnd Hin. apply displays_of_lookup_Some.
  apply list_elem_of_split in Hin as (pre & post & ->).
  exists pre, post. split; [done|].
  rewrite fmap_app, fmap_cons in Hnd. apply NoDup_app in Hnd as (_ & _ & Hnd).
  by apply NoDup_cons in Hnd as [Hnotin _].
Qed.

(** In an option table without repeated exports or repeated labels, in
    which a label that is also an export belongs to that export's own
    option, every option (export, display) round-trips: the label and the
    export are both stored as the export, and the export is rendered as
    the label. *)
Theorem unambiguous_table_round_trip (st : store) (field : dict)
    (opts : options) (ex disp : string) :
  _choice_options st field = Ok opts →
  NoDup (opts.*1) →
  NoDup (opts.*2) →
  (∀ e d, (e, d) ∈ opts → d ∈ opts.*1 → d = e) →
  (ex, disp) ∈ opts →
  _choice_display_to_export st field disp = Ok ex ∧
  _choice_display_to_export st field ex = Ok ex ∧
  _choice_export_to_display st field ex = Ok disp.
Proof.
  intros Hopts Hex Hdisp Hown Hin.
  assert (Hexin : ex ∈ opts.*1).
  { apply list_elem_of_fmap. by exists (ex, disp). }
  rewrite !(display_to_export_unfold st field opts) by done.
  rewrite (bool_decide_eq_true_2 _ Hexin).
  split; [|split; [done|]].
  - destruct (decide (disp ∈ opts.*1)) as [Hd|Hd].
    + rewrite (bool_decide_eq_true_2 _ Hd). by rewrite (Hown ex disp).
    + rewrite (bool_decide_eq_false_2 _ Hd).
      by rewrite (displays_of_NoDup opts ex disp).
  - unfold _choice_export_to_display. rewrite Hopts. cbn [rbind].
    by rewrite (first_display_NoDup opts ex disp).
Qed.

Lemma text_options_parse (st : store) (labels : list string) (res : options) :
  for_each (parse_item st) (PText <$> labels) res =
    ((res ++ ((λ s, (s, s)) <$> labels))%list, Ok tt).
Proof.
  apply parse_items_ok. induction labels as [|s labels IH]; [done|].
  rewrite !fmap_cons. cbn [list_comp]. by rewrite IH.
Qed.

Lemma first_display_same (labels : list string) (v : string) :
  default v (first_display ((λ s, (s, s)) <$> labels) v) = v.
Proof.
  induction labels as [|s labels IH]; simpl; [done|].
  destruct (String.eqb s v) eqn:E; [|done]. by apply String.eqb_eq in E.
Qed.

(** "If only strings are present, export==display": for a field whose /Opt
    is a non-empty array of text strings the options are the pairs (s, s)
    in order, every value is stored as submitted and every stored value is
    rendered as stored. *)
Theorem text_options_are_identity (st : store) (field : dict)
    (labels : list string) (v : string) :
  dict_get "/Opt" field = Some (PArr (PText <$> labels)) →
  labels ≠ [] →
  _choice_options st field = Ok ((λ s, (s, s)) <$> labels) ∧
  _choice_display_to_export st field v = Ok v ∧
  _choice_export_to_display st field v = Ok v.
Proof.
  intros Hopt Hne.
  assert (Hopts : _choice_options st field = Ok ((λ s, (s, s)) <$> labels)).
  { assert (Ht : truthy (PArr (PText <$> labels)) = true)
      by (by destruct labels).
    unfold _choice_options. rewrite Hopt, Ht. cbn [negb].
    unfold se_try, se_bind, se_lift. cbn [py_iter].
    by rewrite text_options_parse. }
  split; [done|]. split.
  - rewrite (display_to_export_unfold st field _ v Hopts).
    destruct (bool_decide _) eqn:E; [done|].
    apply bool_decide_eq_false in E.
    destruct (displays_of _ !! v) as [ex|] eqn:Hlk; [|done].
    apply displays_of_lookup_elem in Hlk.
    apply list_elem_of_fmap in Hlk as (s & [= -> ->] & _). done.
  - unfold _choice_export_to_display. rewrite Hopts. cbn [rbind].
    by rewrite first_display_same.
Qed.

End Resolution.

(** The round trip at the dropdown "Country". *)
Lemma unambiguous_table_round_trip_witness :
  _choice_display_to_export (host := plain_host) ∅ field_country "United States"
    = Ok "US" ∧
  _choice_display_to_export (host := plain_host) ∅ field_country "US" = Ok "US" ∧
  _choice_export_to_display (host := plain_host) ∅ field_country "US"
    = Ok "United States".
Proof.
  apply (unambiguous_table_round_trip (host := plain_host) ∅ field_country
           [("US", "United States")] "US" "United States").
  - reflexivity.
  - apply NoDup_singleton.
  - apply NoDup_singleton.
  - intros e d [= -> ->]%list_elem_of_singleton Hd.
    by apply list_elem_of_singleton in Hd.
  - apply list_elem_of_here.
Defined.

(** The list "Languages", whose options are three text strings. *)
Lemma text_options_are_identity_witness :
  _choice_options (host := plain_host) ∅ annot_languages =
    Ok [("English", "English"); ("French", "French"); ("German", "German")] ∧
  _choice_display_to_export (host := plain_host) ∅ annot_languages "Dutch"
    = Ok "Dutch" ∧
  _choice_export_to_display (host := plain_host) ∅ annot_languages "Dutch"
    = Ok "Dutch".
Proof.
  apply (text_options_are_identity (host := plain_host) ∅ annot_languages
           ["English"; "French"; "German"] "Dutch").
  - reflexivity.
  - discriminate.
Defined.

(** * Further properties of the checkbox state *)

Section CheckboxState.
Context {host : PyHost}.

Lemma dict_update_twice (k : string) (v1 v2 : pdf_obj) (d : dict) :
  dict_update k v2 (dict_update k v1 d) = dict_update k v2 d.
Proof.
  induction d as [|[k' v'] d IH]; simpl.
  - by rewrite String.eqb_refl.
  - destruct (String.eqb k' k) eqn:E; simpl.
    + by rewrite String.eqb_refl.
    + by rewrite E, IH.
Qed.

(** Setting the state of a checkbox does not change its on-state name,
    and of two settings the second one wins: the dictionary is the one
    the second setting alone would give.  So checking, unchecking and
    checking again gives the checked dictionary. *)
Theorem set_checkbox_state_last_wins (annot annot1 : dict) (c1 c2 : bool) :
  _set_checkbox_state annot c1 = Ok annot1 →
  _checkbox_on_name annot1 = _checkbox_on_name annot ∧
  _set_checkbox_state annot1 c2 = _set_checkbox_state annot c2.
Proof.
  unfold _set_checkbox_state at 1.
  destruct (_checkbox_on_name annot) as [on|] eqn:Hon; [|done].
  cbn [rbind]. intros [= <-].
  pose proof (dict_sim_reads annot _
                (dict_sim_update "/AS" (PName (if c1 then on else "/Off"))
                   annot (or_intror eq_refl)))
    as (_ & _ & _ & _ & _ & _ & _ & _ & _ & _ & Eon).
  split; [by rewrite Eon|].
  unfold _set_checkbox_state. rewrite Eon, Hon. cbn [rbind].
  by rewrite dict_update_twice.
Qed.

(** Filling then flattening one checkbox: after the value applier has set
    the state of a checkbox widget to [c], the flattener draws the X mark
    in its rectangle when [c] is true and draws nothing for it when [c] is
    false.  The widget is a checkbox that is no radio button, its field is
    the widget itself or a direct /Parent dictionary, [a] is the element
    of /Annots that leads to the dictionary whose state was set, and the
    drawing library writes the numbers of the mark. *)
Theorem checkbox_mark_iff_checked (st : store) (a : pdf_obj)
    (annot annot' field : dict) (rect : float * float * float * float)
    (c : bool) (cv : canvas) :
  _is_widget annot = true →
  as_dict (_get_field_from_annot annot) = Ok field →
  _is_text field = false →
  _is_checkbox field && negb (_is_radio field) = true →
  _to_float_rect (dict_get "/Rect" annot) = Ok rect →
  _set_checkbox_state annot c = Ok annot' →
  annot_at st a = Ok annot' →
  accepted (if c then x_mark rect else []) →
  flatten_annot st a cv =
    (mkCanvas (_fontsize cv) (_code cv ++ if c then x_mark rect else [])
       (_pages cv), Ok tt).
Proof.
  intros Hw Hfield Ht Hcb Hrect Hset Ha Hacc.
  unfold _set_checkbox_state in Hset.
  destruct (_checkbox_on_name annot) as [on|] eqn:Hon; [|done].
  cbn [rbind] in Hset. injection Hset as <-.
  apply checkbox_on_name_not_off in Hon.
  set (nm := if c then on else "/Off") in *.
  pose proof (dict_sim_reads annot _
                (dict_sim_update "/AS" (PName nm) annot (or_intror eq_refl)))
    as (Ew & _ & _ & _ & _ & _ & _ & _ & Erect & _).
  destruct (field_after_update "/AS" (PName nm) annot field
              (or_intror eq_refl) Hfield) as (field' & Hfield' & Hsim).
  pose proof (dict_sim_reads field field' Hsim) as (_ & Et & Ec & Er & _).
  destruct (flatten_checkbox st a _ field' rect cv Ha) as [Hoff Hon'];
    try congruence.
  rewrite dict_get_update_eq in Hoff, Hon'.
  cbn [default from_option id py_eq_str] in Hoff, Hon'.
  subst nm. destruct c.
  - apply Hon'; [|done]. by apply String.eqb_neq.
  - rewrite Hoff by done. rewrite app_nil_r. by destruct cv.
Qed.

End CheckboxState.

(** The checkbox "Agree": checked, then unchecked. *)
Lemma set_checkbox_state_last_wins_witness :
  _checkbox_on_name (dict_update "/AS" (PName "/On") annot_agree)
    = _checkbox_on_name annot_agree ∧
  _set_checkbox_state (dict_update "/AS" (PName "/On") annot_agree) false
    = _set_checkbox_state annot_agree false.
Proof.
  exact (set_checkbox_state_last_wins (host := plain_host) annot_agree
           (dict_update "/AS" (PName "/On") annot_agree) true false eq_refl).
Defined.

(** The checkbox "Agree", unchecked by the value applier: no mark; and
    the checkbox "Terms", checked: the mark in its rectangle. *)
Lemma checkbox_mark_iff_checked_witness :
  flatten_annot (host := plain_host)
      {[7%nat := PDict (dict_update "/AS" (PName "/Off") annot_agree)]}
      (PRef 7) (mkCanvas 12 [] []) =
    (mkCanvas 12 ([] ++ []) [], Ok tt) ∧
  flatten_annot (host := plain_host) ∅
      (PDict (dict_update "/AS" (PName "/Yes") annot_terms))
      (mkCanvas 12 [] []) =
    (mkCanvas 12
       ([] ++ [SetLineWidth 1.44; SetStrokeGray 0;
               Line 12 42 20 50; Line 12 50 20 42]) [],
     Ok tt).
Proof.
  split.
  - apply (checkbox_mark_iff_checked (host := plain_host)
             {[7%nat := PDict (dict_update "/AS" (PName "/Off") annot_agree)]}
             (PRef 7) annot_agree
             (dict_update "/AS" (PName "/Off") annot_agree) annot_agree
             (10, 10, 22, 22)%float false (mkCanvas 12 [] []));
      try reflexivity.
    constructor.
  - apply (checkbox_mark_iff_checked (host := plain_host) ∅
             (PDict (dict_update "/AS" (PName "/Yes") annot_terms))
             annot_terms (dict_update "/AS" (PName "/Yes") annot_terms)
             field_terms (10, 40, 22, 52)%float true (mkCanvas 12 [] []));
      try reflexivity.
    repeat constructor.
Defined.

(** * Further properties of the flattener *)

Section FlattenShape.
Context {host : PyHost}.
Implicit Types (st : store) (c : canvas).

Lemma for_each_invariant {T A} (P : T → Prop) (body : A → SE T unit)
    (l : list A) (s s' : T) (r : result unit) :
  (∀ x t t' r', P t → body x t = (t', r') → P t') →
  P s → for_each body l s = (s', r) → P s'.
Proof.
  intros Hbody. revert s. induction l as [|x l IH]; intros s Hs; simpl.
  - by intros [= <- _].
  - unfold se_bind. destruct (body x s) as [s1 [u|e]] eqn:E.
    + apply IH. by eapply Hbody.
    + intros [= <- _]. by eapply Hbody.
Qed.

(** The loop over the values only appends to the page being drawn. *)
Lemma draw_lines_appends (x1 y1 line_h y : float) (values : list string) c c'
    (r : result unit) :
  draw_lines x1 y1 line_h y values c = (c', r) →
  _pages c' = _pages c ∧ ∃ ops, _code c' = (_code c ++ ops)%list.
Proof.
  revert y c. induction values as [|val rest IH]; intros y c; simpl.
  - intros [= <- _]. split; [done|]. exists []. by rewrite app_nil_r.
  - destruct (y <? y1 + 2)%float.
    { intros [= <- _]. split; [done|]. exists []. by rewrite app_nil_r. }
    unfold se_bind, emit.
    destruct (first_error _).
    { intros [= <- _]. split; [done|]. exists []. by rewrite app_nil_r. }
    intros [Hp [ops Hc]]%IH. cbn [_pages _code] in *. split; [done|].
    eexists. by rewrite Hc, <- app_assoc.
Qed.

(** A round of the inner loop only appends to the page being drawn,
    whether it ends normally or raises. *)
Lemma flatten_annot_appends st (a : pdf_obj) c c' (r : result unit) :
  flatten_annot st a c = (c', r) →
  _pages c' = _pages c ∧ ∃ ops, _code c' = (_code c ++ ops)%list.
Proof.
  unfold flatten_annot, setFont, se_bind, se_lift, se_ret, se_get, emit,
    se_modify.
  intros H. repeat case_match; simplify_eq; simpl;
    try match goal with
        | H : draw_lines _ _ _ _ _ _ = _ |- _ =>
            apply draw_lines_appends in H as [-> [? ->]]; simpl
        end;
    (split; [done|]);
    first [ by exists []; rewrite app_nil_r
          | eexists; by rewrite <- ?app_assoc ].
Qed.

Lemma flatten_annots_append st (l : list pdf_obj) c c' (r : result unit) :
  for_each (flatten_annot st) l c = (c', r) →
  _pages c' = _pages c ∧ ∃ ops, _code c' = (_code c ++ ops)%list.
Proof.
  apply (for_each_invariant
           (λ t, _pages t = _pages c ∧ ∃ ops, _code t = (_code c ++ ops)%list)).
  - intros a t t' r' [Hp [ops Hc]] Hstep.
    apply flatten_annot_appends in Hstep as [Hp' [ops' Hc']].
    split; [congruence|]. exists (ops ++ ops')%list.
    by rewrite Hc', Hc, <- app_assoc.
  - split; [done|]. exists []. by rewrite app_nil_r.
Qed.

(** Drawing the pages emits one overlay page per page, in order; the
    overlay of a page is what the loop over its /Annots draws from an
    empty page. *)
Lemma flatten_pages_overlays st (ps : list page) c c' :
  for_each (flatten_page st) ps c = (c', Ok tt) →
  _code c = [] →
  _code c' = [] ∧
  ∃ ovs, _pages c' = (_pages c ++ ovs)%list ∧
         Forall2 (λ p ov, ∃ items c0 c1,
                    page_items p = Ok items ∧
                    _code c0 = [] ∧
                    for_each (flatten_annot st) items c0 = (c1, Ok tt) ∧
                    _code c1 = ov) ps ovs.
Proof.
  revert c. induction ps as [|p ps IH]; intros c; simpl.
  - intros [= <-] Hc. split; [done|]. exists []. by rewrite app_nil_r.
  - unfold se_bind at 1. unfold flatten_page at 1. unfold se_bind at 1 2.
    unfold se_lift at 1.
    destruct (page_items p) as [items|] eqn:Hitems; [|done].
    destruct (for_each (flatten_annot st) items c) as [c1 [[]|e]] eqn:E;
      [|done].
    unfold showPage, se_modify. intros Hrest Hc.
    apply IH in Hrest as [Hc' (ovs & Hpages & Hall)]; [|done].
    split; [done|]. exists (_code c1 :: ovs). cbn [_pages] in Hpages.
    apply flatten_annots_append in E as Happ. destruct Happ as [Hp1 _].
    split.
    + by rewrite Hpages, Hp1, <- app_assoc.
    + constructor; [|done]. by exists items, c, c1.
Qed.

(** A successful [flatten_to_visible] keeps the number and the order of
    the pages, their media boxes, and everything a page showed before:
    each output page is the input page without /Annots and with an overlay
    appended to its content.  The writer receives exactly these pages after
    the ones it already held, and the object store and the form dictionary
    of the reader are not touched. *)
Theorem flatten_keeps_pages (d : document) (w : list page) (d1 : document)
    (w1 : list page) :
  flatten_to_visible d w = Ok (d1, w1) →
  length (pages d1) = length (pages d) ∧
  w1 = (w ++ pages d1)%list ∧
  objects d1 = objects d ∧
  acroform d1 = acroform d ∧
  ∀ i p, pages d !! i = Some p →
         ∃ overlay, pages d1 !! i =
                      Some (mkPage (mediabox p) None (contents p ++ overlay)).
Proof.
  unfold flatten_to_visible.
  destruct (for_each _ _ _) as [c [[]|e]] eqn:E; [|done].
  intros [= <- <-]. simpl.
  apply flatten_pages_overlays in E as [_ (ovs & Hpages & Hall)]; [|done].
  simpl in Hpages. rewrite Hpages.
  pose proof (Forall2_length _ _ _ Hall) as Hlen.
  split; [rewrite length_zip_with; lia|]. split; [done|]. split; [done|].
  split; [done|].
  intros i p Hp.
  destruct (lookup_lt_is_Some_2 ovs i) as [ov Hov].
  { rewrite <- Hlen. by eapply lookup_lt_Some. }
  exists ov. rewrite lookup_zip_with, Hp. simpl. by rewrite Hov.
Qed.

End FlattenShape.

(** The checked checkbox "Agree", flattened. *)
Lemma flatten_keeps_pages_witness :
  ∃ d1 w1,
    flatten_to_visible (host := plain_host) doc_agree_checked [] = Ok (d1, w1) ∧
    length (pages d1) = length (pages doc_agree_checked) ∧
    w1 = ([] ++ pages d1)%list.
Proof.
  eexists _, _. split; [by vm_compute|].
  pose proof (flatten_keeps_pages (host := plain_host) doc_agree_checked [] _ _
                ltac:(by vm_compute)) as (H1 & H2 & _).
  by split.
Defined.

(** * A boolean under the plain name of a checkbox *)

Section BooleanKey.
Context {host : PyHost}.
Implicit Types (data : gmap string field_value) (s : fill_state) (st : store).

Lemma checkbox_decision_plain data (annot : dict) (N : string) (b : bool)
    (idx : nat) :
  N ≠ "" →
  data !! N = Some (VBool b) →
  (∀ k, data !! occurrence_key N k = None) →
  checkbox_decision data annot (Some N) idx = Ok (Some b).
Proof.
  intros HN Hb Hnone. unfold checkbox_decision.
  rewrite (str_truthy_Some N HN). cbn [default from_option id].
  rewrite Hnone. rewrite bool_decide_eq_false_2 by (by intros [? ?]).
  cbn [andb]. by rewrite Hb.
Qed.

(** The place of an element of /Annots holds the dictionary the element
    leads to. *)
Lemma place_read st (ps : list page) (i j : nat) (a : pdf_obj) (annot : dict) :
  item_at ps i j = Some a →
  annot_at st a = Ok annot →
  read st ps (place_of i j a) = Some (PDict annot).
Proof.
  intros Hitem Ha. unfold annot_at in Ha.
  destruct a as [| | | | | | |x|n]; simplify_eq/=.
  - apply item_at_dict in Hitem as (p & l & Hp & Hl & Hj).
    rewrite Hp. cbn. unfold page_elem. by rewrite Hl.
  - destruct (st !! n) as [[| | | | | | |x|]|]; by simplify_eq/=.
Qed.

Section Step.
Variables (data : gmap string field_value) (st0 : store) (ps0 : list page)
  (pl : place) (annot0 field0 : dict) (N on : string) (b : bool).
Hypotheses
  (Hread0 : read st0 ps0 pl = Some (PDict annot0))
  (Hw0 : _is_widget annot0 = true)
  (Hfield0 : as_dict (_get_field_from_annot annot0) = Ok field0)
  (Ht0 : _is_text field0 = false)
  (Hcb0 : _is_checkbox field0 && negb (_is_radio field0) = true)
  (Hname0 : name_of field0 = Some N)
  (HN : N ≠ "")
  (Hb : data !! N = Some (VBool b))
  (Hnone : ∀ k, data !! occurrence_key N k = None)
  (Hon0 : _checkbox_on_name annot0 = Ok on).

(** One round of the value applier and a checkbox widget at the place
    [pl] whose name is mapped to the boolean [b] and to no occurrence key:
    the round keeps an /AS at [pl] that already agrees with [b], and sets
    it when the round is the one of [pl]. *)
Lemma fill_annot_state_step s (i j : nat) (a : pdf_obj) :
  state_sim st0 ps0 s →
  item_at ps0 i j = Some a →
  wf_annot st0 a = true →
  ∃ s', fill_annot data i j a s = (s', Ok tt) ∧
        state_sim st0 ps0 s' ∧
        (state_at pl (if b then on else "/Off") s →
         state_at pl (if b then on else "/Off") s') ∧
        (place_of i j a = pl → state_at pl (if b then on else "/Off") s').
Proof.
  intros Hsim Hitem Hwf.
  destruct (decide (place_of i j a = pl)) as [Heq|Hne].
  - (* the round of the place itself *)
    unfold wf_annot in Hwf.
    destruct (get_object st0 a) as [| | | | | | |annotA|] eqn:Hobj; try done.
    assert (Ha0 : annot_at st0 a = Ok annotA)
      by (unfold annot_at; by rewrite Hobj).
    pose proof (place_read st0 ps0 i j a annotA Hitem Ha0) as Hrd.
    rewrite Heq, Hread0 in Hrd. injection Hrd as <-.
    destruct (annot_of_element st0 ps0 s i j a annot0 Hsim Hitem Hobj)
      as (annot & Ha & Hannot & _ & _).
    pose proof (annot_sim_reads annot0 annot Hannot) as (Ew & _ & _ & Eon).
    destruct (field_sim annot0 annot field0 Hannot Hfield0)
      as (field & Hfield & Hf).
    pose proof (dict_sim_reads field0 field Hf)
      as (_ & Et & Ec & Er & _ & En & _).
    rewrite (fill_annot_checkbox data s i j a annot field Ha)
      by congruence.
    rewrite En, Hname0. cbn [default from_option id].
    rewrite (checkbox_decision_plain data annot N b _ HN Hb Hnone).
    unfold _set_checkbox_state. rewrite Eon, Hon0. cbn [rbind].
    set (counted := mkFillState _ _ _ _).
    assert (Hcounted : state_sim st0 ps0 counted) by done.
    destruct (annot_of_element st0 ps0 counted i j a annot0 Hcounted Hitem Hobj)
      as (annot' & Ha' & _ & [o Ho] & Hwrite).
    assert (Hset : state_at pl (if b then on else "/Off")
                     (write_annot (place_of i j a)
                        (dict_update "/AS" (PName (if b then on else "/Off"))
                           annot) counted)).
    { eexists. rewrite <- Heq. split; [by eapply read_write_eq|].
      apply dict_get_update_eq. }
    eexists. split; [done|]. split; [|done].
    apply Hwrite. apply annot_sim_update_self; [by right|done].
  - (* another round *)
    destruct (fill_annot_frame data st0 ps0 s i j a Hsim Hitem Hwf)
      as (s' & E & Hsim' & Hframe).
    exists s'. split; [done|]. split; [done|]. split; [|done].
    intros (annot' & Hrd & Has). exists annot'. split; [|done].
    rewrite Hframe; [done|]. by intros [? _].
Qed.

Lemma fill_annots_state (i : nat) (l : list pdf_obj) (j0 : nat) s :
  state_sim st0 ps0 s →
  (∀ j a, l !! j = Some a → item_at ps0 i (j0 + j) = Some a) →
  forallb (wf_annot st0) l = true →
  ∃ s', for_each_from (fill_annot data i) j0 l s = (s', Ok tt) ∧
        state_sim st0 ps0 s' ∧
        (state_at pl (if b then on else "/Off") s →
         state_at pl (if b then on else "/Off") s') ∧
        (∀ j a, l !! j = Some a → place_of i (j0 + j) a = pl →
                state_at pl (if b then on else "/Off") s').
Proof.
  revert j0 s. induction l as [|a l IH]; intros j0 s Hsim Hitems Hwf.
  - exists s. split; [done|]. split; [done|]. split; [done|]. by intros j a.
  - simpl in Hwf. apply andb_true_iff in Hwf as [Ha Hl].
    destruct (fill_annot_state_step s i j0 a Hsim)
      as (s1 & E1 & Hsim1 & K1 & T1); [|done|].
    { specialize (Hitems 0%nat a eq_refl). by rewrite Nat.add_0_r in Hitems. }
    destruct (IH (S j0) s1 Hsim1) as (s2 & E2 & Hsim2 & K2 & T2); [|done|].
    { intros j a' Hj. specialize (Hitems (S j) a' Hj).
      by rewrite Nat.add_succ_r in Hitems. }
    exists s2. cbn [for_each_from]. unfold se_bind. rewrite E1, E2.
    split; [done|]. split; [done|]. split; [by intros ?; apply K2, K1|].
    intros [|j] a' Hj Hpl.
    + cbn in Hj. injection Hj as <-. rewrite Nat.add_0_r in Hpl.
      by apply K2, T1.
    + apply (T2 j a' Hj). by rewrite Nat.add_succ_r in Hpl.
Qed.

Lemma fill_pages_state (ps : list page) (i0 : nat) s :
  state_sim st0 ps0 s →
  (∀ i p, ps !! i = Some p → ps0 !! (i0 + i)%nat = Some p) →
  forallb (wf_page st0) ps = true →
  ∃ s', for_each_from (fill_page data) i0 ps s = (s', Ok tt) ∧
        state_sim st0 ps0 s' ∧
        (state_at pl (if b then on else "/Off") s →
         state_at pl (if b then on else "/Off") s') ∧
        (∀ i j a, (i0 ≤ i < i0 + length ps)%nat → item_at ps0 i j = Some a →
                  place_of i j a = pl →
                  state_at pl (if b then on else "/Off") s').
Proof.
  revert i0 s. induction ps as [|p ps IH]; intros i0 s Hsim Hpages Hwf.
  - exists s. split; [done|]. split; [done|]. split; [done|].
    intros i j a Hi. simpl in Hi. lia.
  - simpl in Hwf. apply andb_true_iff in Hwf as [Hp Hps].
    assert (Hp0 : ps0 !! i0 = Some p).
    { specialize (Hpages 0%nat p eq_refl). by rewrite Nat.add_0_r in Hpages. }
    unfold wf_page in Hp.
    destruct (page_items p) as [items|] eqn:Hitems; [|done].
    assert (Hat : ∀ j a, items !! j = Some a ↔ item_at ps0 i0 j = Some a).
    { intros j a. unfold item_at. rewrite Hp0. cbn. by rewrite Hitems. }
    destruct (fill_annots_state i0 items 0 s Hsim)
      as (s1 & E1 & Hsim1 & K1 & T1); [|done|].
    { intros j a Hj. by apply Hat. }
    destruct (IH (S i0) s1 Hsim1) as (s2 & E2 & Hsim2 & K2 & T2); [|done|].
    { intros i p' Hi. specialize (Hpages (S i) p' Hi).
      by rewrite Nat.add_succ_r in Hpages. }
    exists s2. cbn [for_each_from].
    unfold fill_page at 1. unfold se_bind, se_lift. rewrite Hitems.
    unfold se_bind in E1. rewrite E1, E2.
    split; [done|]. split; [done|]. split; [by intros ?; apply K2, K1|].
    intros i j a Hi Hitem Hpl. cbn [length] in Hi.
    destruct (decide (i = i0)) as [->|Hne].
    + apply K2, (T1 j a); [by apply Hat|done].
    + apply (T2 i j a); [lia|done|done].
Qed.

End Step.

(** A boolean under the plain name of a checkbox sets every box of that
    name: on a well-formed document, when the mapping holds the boolean [b]
    for the name [N] and no occurrence key [N__k], [fill_pdf_fields]
    returns without an exception and leaves each checkbox widget named [N]
    that is not a radio button with /AS equal to its on-state when [b] is
    true and to /Off when [b] is false, whatever the other rounds of the
    traversal wrote.  The widget is element [j] of the /Annots of page
    [i], and is read where that element lives after the call: in the
    store, or in the array of the page. *)
Theorem boolean_key_sets_every_box (d : document) data (i j : nat)
    (a : pdf_obj) (annot field : dict) (N on : string) (b : bool) :
  wf_document d = true →
  item_at (pages d) i j = Some a →
  annot_at (objects d) a = Ok annot →
  _is_widget annot = true →
  as_dict (_get_field_from_annot annot) = Ok field →
  _is_text field = false →
  _is_checkbox field && negb (_is_radio field) = true →
  name_of field = Some N →
  N ≠ "" →
  data !! N = Some (VBool b) →
  (∀ k, data !! occurrence_key N k = None) →
  _checkbox_on_name annot = Ok on →
  ∃ d' annot',
    fill_pdf_fields d data = (d', Ok tt) ∧
    read (objects d') (pages d') (place_of i j a) = Some (PDict annot') ∧
    dict_get "/AS" annot' = Some (PName (if b then on else "/Off")).
Proof.
  intros Hwf Hitem Ha Hw Hfield Ht Hcb Hname HN Hb Hnone Hon.
  unfold wf_document in Hwf. apply andb_true_iff in Hwf as [Hpages Hacro].
  pose proof (place_read (objects d) (pages d) i j a annot Hitem Ha) as Hread.
  destruct (fill_pages_state data (objects d) (pages d) (place_of i j a)
              annot field N on b Hread Hw Hfield Ht Hcb Hname HN Hb Hnone Hon
              (pages d) 0 (mkFillState (objects d) (pages d) ∅ []))
    as (s' & E & _ & _ & Hset); [| |done|].
  { split; [apply store_sim_refl|apply pages_sim_refl]. }
  { by intros i' p. }
  destruct (Hset i j a) as (annot' & Hrd & Has); [|done|done|].
  { split; [lia|]. unfold item_at in Hitem.
    destruct (pages d !! i) eqn:Hi; [|done].
    apply lookup_lt_Some in Hi. lia. }
  unfold fill_pdf_fields, fill_run, fill_pages. rewrite E.
  destruct (acroform d) as [[| | | | | | |f|]|]; try done;
    by eexists _, annot'.
Qed.

End BooleanKey.

(** The form [doc_form] with "Agree" mapped to [True]: the box is set to
    its on-state "/On". *)
Lemma boolean_key_sets_every_box_witness :
  (∃ d' annot',
     fill_pdf_fields (host := plain_host) doc_form {["Agree" := VBool true]}
       = (d', Ok tt) ∧
     read (objects d') (pages d') (InStore 7) = Some (PDict annot') ∧
     dict_get "/AS" annot' = Some (PName "/On")) ∧
  dict_get "/AS" annot_agree = None.
Proof.
  split; [|reflexivity].
  apply (boolean_key_sets_every_box (host := plain_host) doc_form
           {["Agree" := VBool true]} 0 0 (PRef 7) annot_agree annot_agree
           "Agree" "/On" true);
    try by vm_compute.
Defined.

(** * What the flattener and the pipeline can raise *)

Section Outcome.
Context {host : PyHost}.
Implicit Types (data : gmap string field_value) (s : fill_state) (st : store)
  (c : canvas).

Lemma first_error_from_canvas (l : list float) (e : exn) :
  first_error l = Some e → ∃ f, canvas_error f = Some e.
Proof.
  unfold first_error. induction l as [|f l IH]; [done|]. cbn.
  destruct (canvas_error f) as [e'|] eqn:E; [|done].
  intros [= <-]. by exists f.
Qed.

Lemma emit_from_canvas (op : draw_op) c : from_canvas (emit op c).2.
Proof.
  unfold emit. destruct (first_error _) as [e|] eqn:E; [|done].
  by apply first_error_from_canvas in E.
Qed.

Lemma bind_from_canvas {A B} (m : SE canvas A) (k : A → SE canvas B) c :
  from_canvas (m c).2 →
  (∀ x c', from_canvas (k x c').2) →
  from_canvas (se_bind m k c).2.
Proof.
  intros Hm Hk. unfold se_bind. destruct (m c) as [c1 [x|e]]; [apply Hk|done].
Qed.

Lemma setFont_from_canvas (size : float) c : from_canvas (setFont size c).2.
Proof.
  unfold setFont. apply bind_from_canvas; [done|].
  intros _ c'. apply emit_from_canvas.
Qed.

Lemma draw_lines_from_canvas (x1 y1 line_h y : float) (values : list string) c :
  from_canvas (draw_lines x1 y1 line_h y values c).2.
Proof.
  revert y c. induction values as [|val rest IH]; intros y c; [done|]. simpl.
  destruct (y <? y1 + 2)%float; [done|].
  apply bind_from_canvas; [apply emit_from_canvas|]. intros _ c'. apply IH.
Qed.

Lemma export_to_display_ok st (field : dict) (e : string) :
  ∃ t, _choice_export_to_display st field e = Ok t.
Proof.
  unfold _choice_export_to_display.
  destruct (choice_options_ok st field) as [opts ->]. by eexists.
Qed.

Lemma choice_values_ok st (field : dict) (v : pdf_obj) :
  ∃ values, choice_values st field v = Ok values.
Proof.
  unfold choice_values.
  destruct v;
    first [ apply list_comp_ok; intros it; apply export_to_display_ok
          | match goal with
            | |- context [_choice_export_to_display ?st0 ?f0 ?e] =>
                destruct (export_to_display_ok st0 f0 e) as [? ->];
                by eexists
            end ].
Qed.

(** A round of the inner loop on a readable element raises only what
    the drawing library raises. *)
Lemma flatten_annot_from_canvas st (a : pdf_obj) c :
  drawable st a = true → from_canvas (flatten_annot st a c).2.
Proof.
  unfold drawable. intros Hd.
  destruct (get_object st a) as [| | | | | | |annot|] eqn:Ha; try done.
  unfold flatten_annot, annot_at. rewrite Ha. cbn [as_dict].
  unfold se_bind at 1. unfold se_lift at 1.
  destruct (_is_widget annot); simpl in Hd; [|done].
  apply andb_true_iff in Hd as [Hrect Hfield]. cbn [negb].
  unfold se_bind at 1. unfold se_lift at 1.
  destruct (_to_float_rect _) as [[[[x1 y1] x2] y2]|]; [|done].
  destruct (_get_field_from_annot annot) as [| | | | | | |field|]; try done.
  cbn [as_dict]. unfold se_bind at 1. unfold se_lift at 1.
  destruct (_is_text field).
  { destruct (dict_get "/V" field); [|done].
    apply bind_from_canvas; [apply setFont_from_canvas|]. intros _ c1.
    apply bind_from_canvas; [apply emit_from_canvas|]. intros _ c2.
    apply emit_from_canvas. }
  destruct (_is_checkbox field && negb (_is_radio field)).
  { destruct (negb (py_eq_str _ _)); [|done].
    apply bind_from_canvas; [apply emit_from_canvas|]. intros _ c1.
    apply bind_from_canvas; [apply emit_from_canvas|]. intros _ c2.
    apply bind_from_canvas; [apply emit_from_canvas|]. intros _ c3.
    apply emit_from_canvas. }
  destruct (_is_choice field); [|done].
  destruct (dict_get "/V" field) as [v|]; [|done].
  destruct (choice_values_ok st field v) as [values ->].
  apply bind_from_canvas; [done|]. intros vs c0.
  apply bind_from_canvas; [apply setFont_from_canvas|]. intros _ c1.
  apply bind_from_canvas; [apply emit_from_canvas|]. intros _ c2.
  destruct (length vs <=? 1)%nat.
  - apply bind_from_canvas; [done|]. intros c3 c4. apply emit_from_canvas.
  - apply bind_from_canvas; [apply setFont_from_canvas|]. intros _ c3.
    apply draw_lines_from_canvas.
Qed.

Lemma for_each_from_canvas {A} (body : A → SE canvas unit) (l : list A) c :
  (∀ x c', x ∈ l → from_canvas (body x c').2) →
  from_canvas (for_each body l c).2.
Proof.
  revert c. induction l as [|x l IH]; intros c Hbody; [done|]. simpl.
  unfold se_bind.
  pose proof (Hbody x c (list_elem_of_here _ _)) as Hx.
  destruct (body x c) as [c1 [u|e]]; [|done].
  apply IH. intros y c' Hy. apply Hbody. by apply list_elem_of_further.
Qed.

Lemma flatten_pages_from_canvas st (ps : list page) c :
  forallb (λ p, match page_items p with
                | Ok items => forallb (drawable st) items
                | Raise _ => false
                end) ps = true →
  from_canvas (for_each (flatten_page st) ps c).2.
Proof.
  intros Hps. apply for_each_from_canvas. intros p c' Hp.
  rewrite forallb_forall in Hps.
  specialize (Hps p (proj1 (list_elem_of_In _ _) Hp)).
  unfold flatten_page. unfold se_bind at 1. unfold se_lift at 1.
  destruct (page_items p) as [items|]; [|done].
  apply bind_from_canvas; [|done].
  apply for_each_from_canvas. intros a c'' Ha.
  apply flatten_annot_from_canvas.
  rewrite forallb_forall in Hps. apply Hps. by apply list_elem_of_In.
Qed.

(** The pages a successful run of the flattener returns. *)
Lemma flatten_output st (ps : list page) c :
  for_each (flatten_page st) ps (mkCanvas 12 [] []) = (c, Ok tt) →
  length (zip_with flatten_merge ps (_pages c)) = length ps ∧
  Forall (λ p, annots p = None) (zip_with flatten_merge ps (_pages c)).
Proof.
  intros E.
  apply flatten_pages_overlays in E as [_ (ovs & Hpages & Hall)]; [|done].
  simpl in Hpages. rewrite Hpages.
  pose proof (Forall2_length _ _ _ Hall) as Hlen.
  split; [rewrite length_zip_with; lia|].
  apply zip_flatten_merge_stripped.
Qed.

(** On a document in which every element of /Annots leads to a
    dictionary and every widget has a /Rect of four numbers and a field
    that is the widget itself or a direct /Parent dictionary,
    [flatten_to_visible] raises nothing but what the drawing library
    raises for a number it is asked to write, whatever the fields hold:
    absent values, unknown exports and choice values of any shape are drawn
    best-effort or skipped.  When it returns, it returns as many pages as
    the document has, none of them with /Annots; and it returns when the
    drawing library refuses no number. *)
Theorem flatten_raises_only_from_canvas (d : document) (w : list page) :
  flatten_ready d = true →
  match flatten_to_visible d w with
  | Ok (d1, w1) =>
      ∃ out, d1 = mkDocument (objects d) out (acroform d) ∧
             w1 = (w ++ out)%list ∧
             length out = length (pages d) ∧
             Forall (λ p, annots p = None) out
  | Raise e => ∃ f, canvas_error f = Some e
  end ∧
  ((∀ f, canvas_error f = None) →
   ∃ r, flatten_to_visible d w = Ok r).
Proof.
  intros Hready. unfold flatten_ready in Hready.
  pose proof (flatten_pages_from_canvas (objects d) (pages d)
                (mkCanvas 12 [] []) Hready) as Hrun.
  unfold flatten_to_visible.
  destruct (for_each _ _ _) as [c [[]|e]] eqn:E.
  - split; [|by eexists].
    destruct (flatten_output _ _ _ E) as [Hlen Hnone]. by eexists.
  - split; [done|]. intros Hnone. destruct Hrun as [f Hf].
    by rewrite Hnone in Hf.
Qed.

Lemma annot_sim_drawable (annot0 annot : dict) :
  annot_sim annot0 annot →
  negb (_is_widget annot0)
  || (match _to_float_rect (dict_get "/Rect" annot0) with
      | Ok _ => true
      | Raise _ => false
      end
      && match _get_field_from_annot annot0 with
         | PDict _ => true
         | _ => false
         end) = true →
  negb (_is_widget annot)
  || (match _to_float_rect (dict_get "/Rect" annot) with
      | Ok _ => true
      | Raise _ => false
      end
      && match _get_field_from_annot annot with
         | PDict _ => true
         | _ => false
         end) = true.
Proof.
  intros Hsim.
  pose proof (annot_sim_reads annot0 annot Hsim) as (-> & -> & _).
  destruct (_is_widget annot0); [|done]. cbn [negb orb].
  intros [-> Hfield]%andb_true_iff. cbn [andb].
  destruct (_get_field_from_annot annot0) as [| | | | | | |field0|] eqn:Hf0;
    try done.
  destruct (field_sim annot0 annot field0 Hsim) as (field & Hf & _).
  { by rewrite Hf0. }
  by destruct (_get_field_from_annot annot).
Qed.

Lemma drawable_sim st0 st (a a' : pdf_obj) :
  store_sim st0 st → obj_sim a a' →
  drawable st0 a = true → drawable st a' = true.
Proof.
  intros Hst Hobj. unfold drawable.
  destruct a as [| | | | | | |x|n]; simpl in Hobj; subst; try done.
  - destruct Hobj as (x' & -> & Hsim). cbn [get_object].
    by apply annot_sim_drawable.
  - cbn [get_object].
    destruct (st0 !! n) as [[| | | | | | |x|]|] eqn:Hn; try done.
    destruct (store_sim_lookup st0 st n x Hst Hn) as (x' & -> & Hsim).
    cbn [default from_option id]. by apply annot_sim_drawable.
Qed.

Lemma page_items_sim (p p' : page) (items : list pdf_obj) :
  page_sim p p' → page_items p = Ok items →
  ∃ items', page_items p' = Ok items' ∧ Forall2 obj_sim items items'.
Proof.
  intros (_ & _ & Hannots). unfold page_items, annots_sim in *.
  destruct (annots p) as [[| | | | | | l | |]|]; try rewrite <- Hannots;
    try (intros; eexists; split; [done|]; apply Forall2_same_length_lookup;
         split; [done|]; intros; simplify_eq; apply obj_sim_refl).
  destruct Hannots as (l' & -> & Hl). intros Hitems. simpl in *.
  destruct Hl as [|x x' l l' Hx Hl]; simplify_eq; eexists; split; try done.
  by constructor.
Qed.

Lemma flatten_ready_sim st0 st (ps ps' : list page) :
  store_sim st0 st → Forall2 page_sim ps ps' →
  forallb (λ p, match page_items p with
                | Ok items => forallb (drawable st0) items
                | Raise _ => false
                end) ps = true →
  forallb (λ p, match page_items p with
                | Ok items => forallb (drawable st) items
                | Raise _ => false
                end) ps' = true.
Proof.
  intros Hst Hps. induction Hps as [|p p' ps ps' Hp Hps IH]; [done|].
  simpl. intros [Hhead Htail]%andb_true_iff. rewrite (IH Htail), andb_true_r.
  destruct (page_items p) as [items|] eqn:Hitems; [|done].
  destruct (page_items_sim p p' items Hp Hitems) as (items' & -> & Hall).
  clear Hitems. induction Hall as [|a a' l l' Ha Hl IHl]; [done|].
  simpl in *. apply andb_true_iff in Hhead as [H1 H2].
  by rewrite (drawable_sim st0 st a a' Hst Ha H1), IHl.
Qed.

(** On a well-formed document whose widgets have a /Rect of four numbers,
    [fill_and_flatten] raises nothing but what the drawing library raises
    for a number it is asked to write, whatever the mapping.  When it
    returns, it returns as many pages as the document has, none of them
    with /Annots; and it returns when the drawing library refuses no
    number. *)
Theorem fill_and_flatten_raises_only_from_canvas (d : document) data :
  wf_document d = true →
  flatten_ready d = true →
  match fill_and_flatten d data with
  | Ok out => length out = length (pages d) ∧
              Forall (λ p, annots p = None) out
  | Raise e => ∃ f, canvas_error f = Some e
  end ∧
  ((∀ f, canvas_error f = None) → ∃ out, fill_and_flatten d data = Ok out).
Proof.
  intros Hwf Hready. unfold wf_document in Hwf.
  apply andb_true_iff in Hwf as [Hpages Hacro].
  destruct (fill_pages_frame data (objects d) (pages d) (pages d) 0
              (mkFillState (objects d) (pages d) ∅ []))
    as (s' & Efill & [Hst Hps] & _); [|by intros i p|done|].
  { split; [apply store_sim_refl|apply pages_sim_refl]. }
  pose proof (flatten_ready_sim _ _ _ _ Hst Hps Hready) as Hready'.
  pose proof (flatten_pages_from_canvas (objs s') (pgs s')
                (mkCanvas 12 [] []) Hready') as Hrun.
  assert (∃ acro', fill_pdf_fields d data
                   = (mkDocument (objs s') (pgs s') acro', Ok tt))
    as [acro' Efp].
  { unfold fill_pdf_fields, fill_run, fill_pages. rewrite Efill.
    destruct (acroform d) as [[| | | | | | |f|]|]; try done; by eexists. }
  unfold fill_and_flatten. rewrite Efp.
  unfold flatten_to_visible. cbn [objects pages acroform].
  destruct (for_each _ _ _) as [c [[]|e]] eqn:E; cbn [rbind snd app].
  - split; [|by eexists].
    destruct (flatten_output _ _ _ E) as [Hlen Hnone].
    split; [|done]. rewrite Hlen. symmetry. by eapply Forall2_length.
  - split; [done|]. intros Hnone. destruct Hrun as [f Hf].
    by rewrite Hnone in Hf.
Qed.

End Outcome.

(** The checked checkbox "Agree", flattened. *)
Lemma flatten_raises_only_from_canvas_witness :
  flatten_ready (host := plain_host) doc_agree_checked = true ∧
  (match flatten_to_visible (host := plain_host) doc_agree_checked [] with
   | Ok (d1, w1) =>
       ∃ out, d1 = mkDocument (objects doc_agree_checked) out
                     (acroform doc_agree_checked) ∧
              w1 = ([] ++ out)%list ∧
              length out = length (pages doc_agree_checked) ∧
              Forall (λ p, annots p = None) out
   | Raise e => ∃ f, canvas_error (PyHost := plain_host) f = Some e
   end ∧
   ((∀ f, canvas_error (PyHost := plain_host) f = None) →
    ∃ r, flatten_to_visible (host := plain_host) doc_agree_checked [] = Ok r)) ∧
  rbind (flatten_to_visible (host := plain_host) doc_agree_checked [])
        (λ r, Ok r.2) =
    Ok [mkPage (612, 792)%float None
          [SetLineWidth 1.44; SetStrokeGray 0;
           Line 12 12 20 20; Line 12 20 20 12]].
Proof.
  split; [by vm_compute|]. split; [|by vm_compute].
  apply (flatten_raises_only_from_canvas (host := plain_host)
           doc_agree_checked []).
  by vm_compute.
Defined.

(** The form [doc_form] filled and flattened. *)
Lemma fill_and_flatten_raises_only_from_canvas_witness :
  wf_document (host := plain_host) doc_form = true ∧
  flatten_ready (host := plain_host) doc_form = true ∧
  (match fill_and_flatten (host := plain_host) doc_form
           {["Name" := VStr "Ada"; "City" := VStr "Turin";
             "Agree" := VBool true]} with
   | Ok out => length out = length (pages doc_form) ∧
               Forall (λ p, annots p = None) out
   | Raise e => ∃ f, canvas_error (PyHost := plain_host) f = Some e
   end ∧
   ((∀ f, canvas_error (PyHost := plain_host) f = None) →
    ∃ out, fill_and_flatten (host := plain_host) doc_form
             {["Name" := VStr "Ada"; "City" := VStr "Turin";
               "Agree" := VBool true]} = Ok out)) ∧
  fill_and_flatten (host := plain_host) doc_form
      {["Name" := VStr "Ada"; "City" := VStr "Turin"; "Agree" := VBool true]} =
    Ok [mkPage (612, 792)%float None
          [SetLineWidth 1.44; SetStrokeGray 0;
           Line 12 12 20 20; Line 12 20 20 12;
           SetFont 12; SetFillGray 0; DrawString 12 105 "Ada";
           SetFont 12; SetFillGray 0; DrawString 202 105 "Turin"]].
Proof.
  split; [by vm_compute|]. split; [by vm_compute|]. split; [|by vm_compute].
  apply (fill_and_flatten_raises_only_from_canvas (host := plain_host)
           doc_form); by vm_compute.
Defined.

(** * The pipeline on a text field *)

Section TextEndToEnd.
Context {host : PyHost}.
Implicit Types (data : gmap string field_value) (s : fill_state) (st : store)
  (c : canvas).

(** The field of the annotation whose field was given a value is the
    field with that value. *)
Lemma with_field_field (annot field : dict) (x : pdf_obj) :
  as_dict (_get_field_from_annot annot) = Ok field →
  as_dict (_get_field_from_annot (with_field annot (dict_update "/V" x field)))
    = Ok (dict_update "/V" x field).
Proof.
  unfold _get_field_from_annot, with_field.
  destruct (dict_get "/Parent" annot) as [p|] eqn:Hp;
    cbn [default from_option id].
  - intros _. by rewrite dict_get_update_eq.
  - intros [= <-]. by rewrite dict_get_update_ne, Hp.
Qed.

(** What a place holds after the value applier differs from what it held
    at most in /V and /AS. *)
Lemma state_sim_read st0 (ps0 : list page) s (pl : place) (annot0 annot : dict) :
  state_sim st0 ps0 s →
  read st0 ps0 pl = Some (PDict annot0) →
  read (objs s) (pgs s) pl = Some (PDict annot) →
  annot_sim annot0 annot.
Proof.
  intros [Hst Hps] H0 H1. destruct pl as [n|i j]; cbn [read] in *.
  - destruct (store_sim_lookup st0 (objs s) n annot0 Hst H0) as (x & Hx & Hsim).
    congruence.
  - destruct (ps0 !! i) as [p0|] eqn:Hp0; [|done].
    destruct (pgs s !! i) as [p|] eqn:Hp; [|done]. cbn in H0, H1.
    pose proof (Forall2_lookup_lr _ _ _ _ _ _ Hps Hp0 Hp) as (_ & _ & Hannots).
    unfold page_elem, annots_sim in *.
    destruct (annots p0) as [[| | | | | |l0| |]|]; try done.
    destruct Hannots as (l & Hl' & Hl). rewrite Hl' in H1.
    pose proof (Forall2_lookup_lr _ _ _ _ _ _ Hl H0 H1) as (x & [= <-] & Hsim).
    done.
Qed.

(** The element of /Annots at the position of a place after the value
    applier leads to the dictionary the place holds. *)
Lemma read_item st0 st (ps0 ps : list page) (i j : nat) (a : pdf_obj)
    (annot0 annot : dict) :
  Forall2 page_sim ps0 ps →
  item_at ps0 i j = Some a →
  annot_at st0 a = Ok annot0 →
  read st ps (place_of i j a) = Some (PDict annot) →
  ∃ p0 p items a',
    ps0 !! i = Some p0 ∧ ps !! i = Some p ∧ page_sim p0 p ∧
    page_items p = Ok items ∧ items !! j = Some a' ∧
    annot_at st a' = Ok annot.
Proof.
  intros Hps Hitem Ha0 Hread. unfold item_at in Hitem.
  destruct (ps0 !! i) as [p0|] eqn:Hp0; [|done]. cbn in Hitem.
  destruct (page_items p0) as [items0|] eqn:Hitems0; [|done].
  destruct (Forall2_lookup_l _ _ _ _ _ Hps Hp0) as (p & Hp & Hsim).
  destruct (page_items_sim p0 p items0 Hsim Hitems0) as (items & Hitems & Hall).
  destruct (Forall2_lookup_l _ _ _ _ _ Hall Hitem) as (a' & Ha' & Hobj).
  exists p0, p, items, a'. repeat (split; [done|]).
  unfold annot_at in Ha0.
  destruct a as [| | | | | | |x|n]; simplify_eq/=.
  - destruct Hobj as (x' & -> & _).
    pose proof (page_items_dict p items j x' Hitems Ha') as Hannots.
    rewrite Hp in Hread. cbn in Hread. unfold page_elem in Hread.
    rewrite Hannots in Hread. unfold annot_at. cbn. congruence.
  - unfold annot_at. cbn. by rewrite Hread.
Qed.

Section Step.
Variables (data : gmap string field_value) (st0 : store) (ps0 : list page)
  (pl : place) (annot0 field0 : dict) (N : string) (v : field_value).
Hypotheses
  (Hread0 : read st0 ps0 pl = Some (PDict annot0))
  (Hw0 : _is_widget annot0 = true)
  (Hfield0 : as_dict (_get_field_from_annot annot0) = Ok field0)
  (Ht0 : _is_text field0 = true)
  (Hname0 : name_of field0 = Some N)
  (HN : N ≠ "")
  (Hv : data !! N = Some v).

(** One round of the value applier and a text widget at the place [pl]
    whose name is mapped to [v]: the round keeps a value at [pl] that is
    already the text of [v], and sets it when the round is the one of
    [pl]. *)
Lemma fill_annot_text_step s (i j : nat) (a : pdf_obj) :
  state_sim st0 ps0 s →
  item_at ps0 i j = Some a →
  wf_annot st0 a = true →
  ∃ s', fill_annot data i j a s = (s', Ok tt) ∧
        state_sim st0 ps0 s' ∧
        (value_at pl (value_str v) s → value_at pl (value_str v) s') ∧
        (place_of i j a = pl → value_at pl (value_str v) s').
Proof.
  intros Hsim Hitem Hwf.
  destruct (decide (place_of i j a = pl)) as [Heq|Hne].
  - (* the round of the place itself *)
    unfold wf_annot in Hwf.
    destruct (get_object st0 a) as [| | | | | | |annotA|] eqn:Hobj; try done.
    assert (Ha0 : annot_at st0 a = Ok annotA)
      by (unfold annot_at; by rewrite Hobj).
    pose proof (place_read st0 ps0 i j a annotA Hitem Ha0) as Hrd.
    rewrite Heq, Hread0 in Hrd. injection Hrd as <-.
    destruct (annot_of_element st0 ps0 s i j a annot0 Hsim Hitem Hobj)
      as (annot & Ha & Hannot & [o Ho] & Hwrite).
    pose proof (annot_sim_reads annot0 annot Hannot) as (Ew & _).
    destruct (field_sim annot0 annot field0 Hannot Hfield0)
      as (field & Hfield & Hf).
    pose proof (dict_sim_reads field0 field Hf)
      as (_ & Et & _ & _ & _ & En & _).
    rewrite (fill_annot_text data s i j a annot field Ha) by congruence.
    rewrite En, Hname0, (str_truthy_Some N HN). cbn [default from_option id].
    rewrite Hv. unfold _set_text_value.
    assert (Hset : value_at pl (value_str v)
                     (write_annot (place_of i j a)
                        (with_field annot
                           (dict_update "/V" (PText (value_str v)) field)) s)).
    { eexists _, _. rewrite <- Heq. split; [by eapply read_write_eq|].
      split; [by apply with_field_field|]. apply dict_get_update_eq. }
    eexists. split; [done|]. split; [|done].
    apply Hwrite. by apply with_field_sim.
  - (* another round *)
    destruct (fill_annot_frame data st0 ps0 s i j a Hsim Hitem Hwf)
      as (s' & E & Hsim' & Hframe).
    exists s'. split; [done|]. split; [done|]. split; [|done].
    intros (annot' & field' & Hrd & Hfield' & HV).
    exists annot', field'. split; [|done].
    rewrite Hframe; [done|]. by intros [? _].
Qed.

Lemma fill_annots_text (i : nat) (l : list pdf_obj) (j0 : nat) s :
  state_sim st0 ps0 s →
  (∀ j a, l !! j = Some a → item_at ps0 i (j0 + j) = Some a) →
  forallb (wf_annot st0) l = true →
  ∃ s', for_each_from (fill_annot data i) j0 l s = (s', Ok tt) ∧
        state_sim st0 ps0 s' ∧
        (value_at pl (value_str v) s → value_at pl (value_str v) s') ∧
        (∀ j a, l !! j = Some a → place_of i (j0 + j) a = pl →
                value_at pl (value_str v) s').
Proof.
  revert j0 s. induction l as [|a l IH]; intros j0 s Hsim Hitems Hwf.
  - exists s. split; [done|]. split; [done|]. split; [done|]. by intros j a.
  - simpl in Hwf. apply andb_true_iff in Hwf as [Ha Hl].
    destruct (fill_annot_text_step s i j0 a Hsim)
      as (s1 & E1 & Hsim1 & K1 & T1); [|done|].
    { specialize (Hitems 0%nat a eq_refl). by rewrite Nat.add_0_r in Hitems. }
    destruct (IH (S j0) s1 Hsim1) as (s2 & E2 & Hsim2 & K2 & T2); [|done|].
    { intros j a' Hj. specialize (Hitems (S j) a' Hj).
      by rewrite Nat.add_succ_r in Hitems. }
    exists s2. cbn [for_each_from]. unfold se_bind. rewrite E1, E2.
    split; [done|]. split; [done|]. split; [by intros ?; apply K2, K1|].
    intros [|j] a' Hj Hpl.
    + cbn in Hj. injection Hj as <-. rewrite Nat.add_0_r in Hpl.
      by apply K2, T1.
    + apply (T2 j a' Hj). by rewrite Nat.add_succ_r in Hpl.
Qed.

Lemma fill_pages_text (ps : list page) (i0 : nat) s :
  state_sim st0 ps0 s →
  (∀ i p, ps !! i = Some p → ps0 !! (i0 + i)%nat = Some p) →
  forallb (wf_page st0) ps = true →
  ∃ s', for_each_from (fill_page data) i0 ps s = (s', Ok tt) ∧
        state_sim st0 ps0 s' ∧
        (value_at pl (value_str v) s → value_at pl (value_str v) s') ∧
        (∀ i j a, (i0 ≤ i < i0 + length ps)%nat → item_at ps0 i j = Some a →
                  place_of i j a = pl → value_at pl (value_str v) s').
Proof.
  revert i0 s. induction ps as [|p ps IH]; intros i0 s Hsim Hpages Hwf.
  - exists s. split; [done|]. split; [done|]. split; [done|].
    intros i j a Hi. simpl in Hi. lia.
  - simpl in Hwf. apply andb_true_iff in Hwf as [Hp Hps].
    assert (Hp0 : ps0 !! i0 = Some p).
    { specialize (Hpages 0%nat p eq_refl). by rewrite Nat.add_0_r in Hpages. }
    unfold wf_page in Hp.
    destruct (page_items p) as [items|] eqn:Hitems; [|done].
    assert (Hat : ∀ j a, items !! j = Some a ↔ item_at ps0 i0 j = Some a).
    { intros j a. unfold item_at. rewrite Hp0. cbn. by rewrite Hitems. }
    destruct (fill_annots_text i0 items 0 s Hsim)
      as (s1 & E1 & Hsim1 & K1 & T1); [|done|].
    { intros j a Hj. by apply Hat. }
    destruct (IH (S i0) s1 Hsim1) as (s2 & E2 & Hsim2 & K2 & T2); [|done|].
    { intros i p' Hi. specialize (Hpages (S i) p' Hi).
      by rewrite Nat.add_succ_r in Hpages. }
    exists s2. cbn [for_each_from].
    unfold fill_page at 1. unfold se_bind, se_lift. rewrite Hitems.
    unfold se_bind in E1. rewrite E1, E2.
    split; [done|]. split; [done|]. split; [by intros ?; apply K2, K1|].
    intros i j a Hi Hitem Hpl. cbn [length] in Hi.
    destruct (decide (i = i0)) as [->|Hne].
    + apply K2, (T1 j a); [by apply Hat|done].
    + apply (T2 i j a); [lia|done|done].
Qed.

End Step.

(** The flattener on a text widget with a value, when the drawing library
    raised nothing. *)
Lemma flatten_text_widget st (a : pdf_obj) (annot field : dict)
    (rect : float * float * float * float) (val : pdf_obj) c c' :
  annot_at st a = Ok annot →
  _is_widget annot = true →
  _to_float_rect (dict_get "/Rect" annot) = Ok rect →
  as_dict (_get_field_from_annot annot) = Ok field →
  _is_text field = true →
  dict_get "/V" field = Some val →
  flatten_annot st a c = (c', Ok tt) →
  _code c' = (_code c ++ text_mark rect (py_str val))%list.
Proof.
  intros Ha Hw Hrect Hfield Ht HV.
  unfold flatten_annot, se_bind, se_lift.
  rewrite Ha, Hw. cbn [negb]. rewrite Hrect.
  destruct rect as [[[x1 y1] x2] y2]. cbv beta iota zeta.
  rewrite Hfield, Ht, HV. unfold setFont, se_bind, emit, se_modify.
  repeat case_match; intros; simplify_eq. simpl. by rewrite <- !app_assoc.
Qed.

Lemma flatten_annots_text st (l : list pdf_obj) c c1 (j : nat) (a : pdf_obj)
    (annot field : dict) (rect : float * float * float * float)
    (val : pdf_obj) :
  for_each (flatten_annot st) l c = (c1, Ok tt) →
  l !! j = Some a →
  annot_at st a = Ok annot →
  _is_widget annot = true →
  _to_float_rect (dict_get "/Rect" annot) = Ok rect →
  as_dict (_get_field_from_annot annot) = Ok field →
  _is_text field = true →
  dict_get "/V" field = Some val →
  ∃ pre post,
    _code c1 = (_code c ++ pre ++ text_mark rect (py_str val) ++ post)%list.
Proof.
  intros Hrun Hj Ha Hw Hrect Hfield Ht HV. revert j c Hj Hrun.
  induction l as [|a' l IH]; intros j c Hj Hrun; [done|].
  cbn [for_each] in Hrun. unfold se_bind in Hrun.
  destruct (flatten_annot st a' c) as [c2 [[]|e]] eqn:E; [|done].
  destruct j as [|j]; cbn in Hj.
  - injection Hj as ->.
    pose proof (flatten_text_widget st a annot field rect val c c2
                  Ha Hw Hrect Hfield Ht HV E) as Hc2.
    apply flatten_annots_append in Hrun as [_ [ops Hops]].
    exists [], ops. rewrite Hops, Hc2. simpl. by rewrite <- app_assoc.
  - destruct (IH j c2 Hj Hrun) as (pre & post & Hcode).
    apply flatten_annot_appends in E as [_ [ops Hops]].
    exists (ops ++ pre)%list, post. rewrite Hcode, Hops.
    by rewrite <- !app_assoc.
Qed.

(** Filling a text field and flattening: on a well-formed document whose
    widgets have rectangles, when the mapping holds a value for the name of
    a text field, [fill_and_flatten] raises nothing but what the drawing
    library raises for a number, and the pages it returns show every
    widget of that field with the text of the value, in the widget's
    rectangle, after everything the page showed before.  The widget is
    element [j] of the /Annots of page [i], and its field is the widget
    itself or a direct /Parent dictionary. *)
Theorem filled_text_is_drawn (d : document) data (i j : nat) (p : page)
    (a : pdf_obj) (annot field : dict) (N : string) (v : field_value)
    (rect : float * float * float * float) :
  wf_document d = true →
  flatten_ready d = true →
  pages d !! i = Some p →
  item_at (pages d) i j = Some a →
  annot_at (objects d) a = Ok annot →
  _is_widget annot = true →
  as_dict (_get_field_from_annot annot) = Ok field →
  _is_text field = true →
  name_of field = Some N →
  N ≠ "" →
  data !! N = Some v →
  _to_float_rect (dict_get "/Rect" annot) = Ok rect →
  match fill_and_flatten d data with
  | Ok out =>
      ∃ pg pre post,
        out !! i = Some pg ∧
        mediabox pg = mediabox p ∧
        annots pg = None ∧
        contents pg =
          (contents p ++ pre ++ text_mark rect (value_str v) ++ post)%list
  | Raise e => ∃ f, canvas_error f = Some e
  end.
Proof.
  intros Hwf Hready Hp Hitem Ha Hw Hfield Ht Hname HN Hv Hrect.
  unfold wf_document in Hwf. apply andb_true_iff in Hwf as [Hpages Hacro].
  pose proof (place_read (objects d) (pages d) i j a annot Hitem Ha) as Hread.
  destruct (fill_pages_text data (objects d) (pages d) (place_of i j a)
              annot field N v Hread Hw Hfield Ht Hname HN Hv
              (pages d) 0 (mkFillState (objects d) (pages d) ∅ []))
    as (s' & Efill & Hsim & _ & Hset); [| |done|].
  { split; [apply store_sim_refl|apply pages_sim_refl]. }
  { by intros i' p'. }
  destruct (Hset i j a) as (annot' & field' & Hrd & Hfield' & HV);
    [|done|done|].
  { split; [lia|]. apply lookup_lt_Some in Hp. lia. }
  pose proof (state_sim_read _ _ _ _ _ _ Hsim Hread Hrd) as Hannot.
  destruct Hsim as [Hst Hps].
  pose proof (flatten_ready_sim _ _ _ _ Hst Hps Hready) as Hready'.
  pose proof (flatten_pages_from_canvas (objs s') (pgs s')
                (mkCanvas 12 [] []) Hready') as Hrun.
  assert (∃ acro', fill_pdf_fields d data
                   = (mkDocument (objs s') (pgs s') acro', Ok tt))
    as [acro' Efp].
  { unfold fill_pdf_fields, fill_run, fill_pages. rewrite Efill.
    destruct (acroform d) as [[| | | | | | |f|]|]; try done; by eexists. }
  unfold fill_and_flatten. rewrite Efp.
  unfold flatten_to_visible. cbn [objects pages acroform].
  destruct (for_each _ _ _) as [c [[]|e]] eqn:E; cbn [rbind snd app];
    [|done].
  apply flatten_pages_overlays in E as [_ (ovs & Hovs & Hall)]; [|done].
  simpl in Hovs. rewrite Hovs.
  destruct (read_item (objects d) (objs s') (pages d) (pgs s') i j a annot
              annot' Hps Hitem Ha Hrd)
    as (p0 & p' & items & a' & Hp0 & Hp' & Hpsim & Hitems & Ha' & Hat').
  assert (p0 = p) as -> by congruence.
  destruct (Forall2_lookup_l _ _ _ i p' Hall Hp')
    as (ov & Hov & items' & c0 & c1 & Hitems' & Hc0 & Hdraw & <-).
  assert (items' = items) as -> by congruence.
  pose proof (annot_sim_reads annot annot' Hannot) as (Ew & Erect & _).
  destruct (field_sim annot annot' field Hannot Hfield) as (f1 & Hf1 & Hfsim).
  assert (f1 = field') as -> by congruence.
  pose proof (dict_sim_reads field field' Hfsim) as (_ & Et & _).
  destruct (flatten_annots_text (objs s') items c0 c1 j a' annot' field' rect
              (PText (value_str v)) Hdraw Ha' Hat')
    as (pre & post & Hcode); try congruence.
  destruct Hpsim as (Hmb & Hct & _).
  eexists _, pre, post. rewrite lookup_zip_with, Hp'. cbn. rewrite Hov. cbn.
  split; [done|]. cbn. split; [done|]. split; [done|].
  by rewrite Hcode, Hc0, Hct.
Qed.

End TextEndToEnd.

(** The form [doc_form] with "City" mapped to "Turin": the widget, whose
    field is its direct /Parent, is drawn with the value. *)
Lemma filled_text_is_drawn_witness :
  match fill_and_flatten (host := plain_host) doc_form
          {["City" := VStr "Turin"]} with
  | Ok out =>
      ∃ pg pre post,
        out !! 0%nat = Some pg ∧
        mediabox pg = (612, 792)%float ∧
        annots pg = None ∧
        contents pg =
          ([] ++ pre ++ text_mark (200, 100, 280, 120)%float "Turin" ++ post)%list
  | Raise e => ∃ f, canvas_error (PyHost := plain_host) f = Some e
  end ∧
  fill_and_flatten (host := plain_host) doc_form {["City" := VStr "Turin"]} =
    Ok [mkPage (612, 792)%float None
          [SetFont 12; SetFillGray 0; DrawString 202 105 "Turin"]].
Proof.
  split; [|by vm_compute].
  apply (filled_text_is_drawn (host := plain_host) doc_form
           {["City" := VStr "Turin"]} 0 2
           (mkPage (612, 792)%float
              (Some (PArr [PRef 7; PRef 21; PDict annot_city])) [])
           (PDict annot_city) annot_city field_city "City" (VStr "Turin"));
    try by vm_compute.
Defined.

(** * The GUI's save step *)

Section GuiSave.
Context {host : PyHost}.

Lemma save_data_snoc (ws : list entered) (e : entered) :
  save_data (ws ++ [e]) = <[entry_key e := entry_value e]> (save_data ws).
Proof. unfold save_data. by rewrite foldl_app. Qed.

(** What the GUI submits under a key is what the last control with that
    key holds; the controls before it with the same key are dropped, and a
    key no control has is absent.  Two widgets of one text field are two
    entries with one key, and so are a text field named [N__1] and the
    first checkbox named [N]. *)
Theorem save_data_last_entry_wins (ws : list entered) (k : string) :
  save_data ws !! k
  = entry_value <$> last (filter (λ e, entry_key e = k) ws).
Proof.
  induction ws as [|e ws IH] using rev_ind; [done|].
  rewrite save_data_snoc, filter_app.
  destruct (decide (entry_key e = k)) as [E|E].
  - rewrite E, lookup_insert_eq.
    rewrite (filter_cons_True (λ e, entry_key e = k) e []) by done.
    by rewrite filter_nil, last_snoc.
  - rewrite lookup_insert_ne by done.
    rewrite (filter_cons_False (λ e, entry_key e = k) e []) by done.
    by rewrite filter_nil, app_nil_r.
Qed.

(** A value that is an export value is stored as it is. *)
Lemma display_to_export_of_export (st : store) (field : dict) (opts : options)
    (ex : string) :
  _choice_options st field = Ok opts →
  ex ∈ opts.*1 →
  _choice_display_to_export st field ex = Ok ex.
Proof.
  intros Hopts Hin. rewrite (display_to_export_unfold st field opts ex Hopts).
  by rewrite (bool_decide_eq_true_2 _ Hin).
Qed.

Lemma elem_of_exports (opts : options) (ex d : string) :
  (ex, d) ∈ opts → ex ∈ opts.*1.
Proof. intros Hin. apply list_elem_of_fmap. by exists (ex, d). Qed.

(** The combo box of the GUI and the value applier: for the label [shown]
    of a dropdown, the GUI submits the export value of the last option
    carrying that label, and [_set_choice_value] stores that value
    unchanged in /V, also when the label is itself the export value of
    another option. *)
Theorem gui_choice_value_is_stored (st : store) (field : dict) (opts : options)
    (name shown : string) :
  _choice_options st field = Ok opts →
  shown ∈ opts.*2 →
  ∃ ex pre post,
    entry_value (EChoice name (opts.*2) (displays_of opts) shown) = VStr ex ∧
    opts = (pre ++ (ex, shown) :: post)%list ∧ (shown ∉ post.*2) ∧
    _set_choice_value st field (VStr ex)
      = Ok (dict_update "/V" (PText ex) field).
Proof.
  intros Hopts Hshown.
  destruct (displays_of opts !! shown) as [ex|] eqn:Hlk.
  2:{ by apply displays_of_lookup_None in Hlk. }
  pose proof Hlk as (pre & post & Heq & Hpost)%displays_of_lookup_Some.
  exists ex, pre, post. cbn [entry_value]. rewrite Hlk.
  split; [done|]. split; [done|]. split; [done|].
  unfold _set_choice_value. cbn [value_str].
  rewrite (display_to_export_of_export st field opts ex Hopts); [done|].
  eapply elem_of_exports, displays_of_lookup_elem, Hlk.
Qed.

Lemma set_choice_exports (st : store) (field : dict) (opts : options)
    (exs : list string) :
  _choice_options st field = Ok opts →
  Forall (λ ex, ex ∈ opts.*1) exs →
  list_comp (λ v, let! e ← _choice_display_to_export st field v in
                  Ok (PText e)) exs
  = Ok (PText <$> exs).
Proof.
  intros Hopts Hall. induction Hall as [|ex exs Hex _ IH]; [done|].
  cbn [list_comp].
  rewrite (display_to_export_of_export st field opts ex Hopts Hex).
  cbn [rbind]. by rewrite IH.
Qed.

(** The list box of the GUI and the value applier: for the selected rows
    of a multi-select list, the GUI submits export values of the field's
    options, one for each row, and [_set_choice_value] stores exactly
    these, in the order of the rows, as the array /V. *)
Theorem gui_multi_choice_values_are_stored (st : store) (field : dict)
    (opts : options) (name : string) (selection : list nat) :
  _choice_options st field = Ok opts →
  Forall (λ i, (i < length opts)%nat) selection →
  ∃ exs,
    entry_value (EChoiceMulti name (opts.*2) (displays_of opts) selection)
      = VColl exs ∧
    length exs = length selection ∧
    Forall (λ ex, ex ∈ opts.*1) exs ∧
    _set_choice_value st field (VColl exs)
      = Ok (dict_update "/V" (PArr (PText <$> exs)) field).
Proof.
  intros Hopts Hsel. eexists. split; [done|].
  assert (Hall : Forall (λ d, d ∈ opts.*2)
                   (omap (λ i, opts.*2 !! i) selection)).
  { apply Forall_forall. intros d (i & _ & Hi)%list_elem_of_omap.
    by eapply list_elem_of_lookup_2. }
  split; [|split].
  - rewrite length_fmap. clear Hall.
    induction Hsel as [|i sel Hi _ IH]; [done|].
    cbn [omap list_omap].
    destruct (opts.*2 !! i) as [x|] eqn:Hlk; [simpl; by rewrite IH|].
    apply lookup_ge_None in Hlk. rewrite length_fmap in Hlk. lia.
  - apply Forall_fmap. eapply Forall_impl; [exact Hall|].
    intros d Hd. cbn.
    destruct (displays_of opts !! d) as [ex|] eqn:Hlk.
    + eapply elem_of_exports, displays_of_lookup_elem, Hlk.
    + by apply displays_of_lookup_None in Hlk.
  - unfold _set_choice_value.
    rewrite (set_choice_exports st field opts _ Hopts); [done|].
    apply Forall_fmap. eapply Forall_impl; [exact Hall|].
    intros d Hd. cbn.
    destruct (displays_of opts !! d) as [ex|] eqn:Hlk.
    + eapply elem_of_exports, displays_of_lookup_elem, Hlk.
    + by apply displays_of_lookup_None in Hlk.
Qed.

End GuiSave.

(** The dropdown "Grade", whose first label "b" is the export value of its
    second option: the GUI submits "a" for the label "b", and "a" is
    stored. *)
Lemma gui_choice_value_is_stored_witness :
  ∃ ex pre post,
    entry_value (EChoice "Grade" ["b"; "c"]
                   (displays_of [("a", "b"); ("b", "c")]) "b") = VStr ex ∧
    [("a", "b"); ("b", "c")] = (pre ++ (ex, "b") :: post)%list ∧
    ("b" ∉ post.*2) ∧
    _set_choice_value (host := plain_host) ∅ field_shadowed (VStr ex)
      = Ok (dict_update "/V" (PText ex) field_shadowed).
Proof.
  apply (gui_choice_value_is_stored (host := plain_host) ∅ field_shadowed
           [("a", "b"); ("b", "c")] "Grade" "b").
  - reflexivity.
  - apply list_elem_of_here.
Defined.

(** The list "Languages" with its first and third row selected. *)
Lemma gui_multi_choice_values_are_stored_witness :
  ∃ exs,
    entry_value
      (EChoiceMulti "Languages" ["English"; "French"; "German"]
         (displays_of [("English", "English"); ("French", "French");
                       ("German", "German")]) [0%nat; 2%nat])
      = VColl exs ∧
    length exs = 2%nat ∧
    Forall (λ ex, ex ∈ ["English"; "French"; "German"]) exs ∧
    _set_choice_value (host := plain_host) ∅ annot_languages (VColl exs)
      = Ok (dict_update "/V" (PArr (PText <$> exs)) annot_languages).
Proof.
  apply (gui_multi_choice_values_are_stored (host := plain_host) ∅
           annot_languages
           [("English", "English"); ("French", "French"); ("German", "German")]
           "Languages" [0%nat; 2%nat]).
  - reflexivity.
  - repeat constructor.
Defined.
